(** * expense-english: the expense dashboard (app.py)

    A shallow embedding of the helpers of [app.py] -- [init_data],
    [load_data], [save_data], [month_name_to_num], [filter_df],
    [compute_kpis] -- of the add-expense form handler and of the
    load/filter/aggregate pipeline, over a small model of the pandas
    fragment they call.

    Modelling choices.
    - A DataFrame is a list of column names and a list of rows, every row a
      list of cells aligned with the columns.  A cell is a missing value
      (NaN, NaT), a [str], a number, a [bool], an integer (the helper
      year/month columns) or a [datetime.date].  What pandas does on other
      combinations than the ones the program produces (a sum over strings,
      a group key that is no date) is left out: the model raises there.
    - The amounts are numbers of a type [A] with the arithmetic the code
      uses ([Number A]).  Two instances are given: the rationals, on which
      every sum and quotient is exact, and binary64 floats.  A sum adds
      from left to right, starting from zero.  With exact arithmetic the
      order of a sum does not matter, and what is proved of the statistics
      is proved there.  In binary64 pandas adds in other orders (the sum of
      a column pairwise from eight values on, the sum of a group with a
      compensation term), so the float instance is what the program
      computes only on small tables whose groups have one row each; it is
      used for such tables and nothing else.  A column of integers is
      read as numbers like any other: the int64 arithmetic pandas uses
      for it (sums that wrap at 2^63, [astype(str)] without ".0") is not
      modelled.
    - What pandas does with text (which fields are missing values, which
      read as numbers, booleans or dates, how a number prints) is the
      interface [Text A]; the development is parametric in it, and one
      concrete instance serves the examples.  The rest follows the
      defaults of pandas 1 and 2: [read_csv] types every column as a
      whole and takes the fields a first record has in excess of the
      header as the index, [astype(str)] makes "nan" of a missing value,
      and [to_csv] writes nothing for one.  Dates are converted entry by
      entry; pandas 2 also asks the texts of a column to be in the format
      of the first one, so a conversion is said to go through only for
      texts written by [to_csv].
    - The data file is the only state: [None] when expenses.csv does not
      exist, otherwise its header and its records (the lines that are not
      blank), each a list of field texts; the quoting layer of the CSV
      reader and writer is below the model, and the names of a header are
      taken as they are.  A character of a string is a code point below
      256. *)

From Stdlib Require Import List String Ascii ZArith Bool Lia.
From Stdlib Require Import QArith Qcanon Qround.
From Stdlib Require Import DecimalString.
From Stdlib Require PrimFloat Uint63.
Import ListNotations.

Local Open Scope string_scope.
Local Open Scope list_scope.

(** ** Exceptions and results *)

Inductive exn : Type :=
| KeyError (column : string)
| ValueError
| TypeError
| ParserError
| EmptyDataError
| FileNotFoundError.

Inductive result (T : Type) : Type :=
| Ok (x : T)
| Raise (e : exn).

Arguments Ok {T} x.
Arguments Raise {T} e.

Definition rbind {T U : Type} (c : result T) (k : T -> result U) : result U :=
  match c with
  | Ok x => k x
  | Raise e => Raise e
  end.

Declare Scope result_scope.
Delimit Scope result_scope with result.
Notation "x <- c ;; k" := (rbind c (fun x => k))
  (at level 61, c at next level, right associativity) : result_scope.

Fixpoint mapM {T U : Type} (f : T -> result U) (l : list T) : result (list U) :=
  match l with
  | [] => Ok []
  | x :: l' =>
      (y <- f x ;;
       ys <- mapM f l' ;;
       Ok (y :: ys))%result
  end.

(** ** Numbers *)

(** The arithmetic [compute_kpis] uses on amounts: [0.0], [+], [*], [/],
    [float(len(df))] and the comparison behind [max]. *)
Class Number (A : Type) : Type := {
  f_zero : A;
  f_add : A -> A -> A;
  f_mul : A -> A -> A;
  f_div : A -> A -> A;
  f_of_nat : nat -> A;
  f_leb : A -> A -> bool
}.

Definition f_max {A : Type} {NumA : Number A} (a b : A) : A :=
  if f_leb a b then b else a.

(** Binary64, with the sums taken from left to right. *)
#[export] Instance Number_float : Number PrimFloat.float := {
  f_zero := PrimFloat.zero;
  f_add := PrimFloat.add;
  f_mul := PrimFloat.mul;
  f_div := PrimFloat.div;
  f_of_nat := fun n => PrimFloat.of_uint63 (Uint63.of_Z (Z.of_nat n));
  f_leb := PrimFloat.leb
}.

(** Exact arithmetic: the rationals in canonical form. *)
#[export] Instance Number_Qc : Number Qc := {
  f_zero := Q2Qc 0;
  f_add := Qcplus;
  f_mul := Qcmult;
  f_div := Qcdiv;
  f_of_nat := fun n => Q2Qc (inject_Z (Z.of_nat n));
  f_leb := fun a b => Qle_bool (this a) (this b)
}.

(** ** Dates *)

(** A [datetime.date]. *)
Record date : Type := Date { year : Z; month : Z; day : Z }.

Definition date_eqb (a b : date) : bool :=
  (year a =? year b)%Z && (month a =? month b)%Z && (day a =? day b)%Z.

(** The order of dates, which is the order of the groups of a [groupby]. *)
Definition date_ltb (a b : date) : bool :=
  (year a <? year b)%Z
  || ((year a =? year b)%Z
      && ((month a <? month b)%Z
          || ((month a =? month b)%Z && (day a <? day b)%Z))).

(** ** Cells, series and frames *)

Section Frames.

Context {A : Type}.

Inductive cell : Type :=
| NaN                  (* a missing value: NaN, NaT *)
| Str (s : string)     (* a Python str *)
| Num (x : A)          (* a number read from the file or entered in the form *)
| Flag (b : bool)      (* a bool *)
| Int (n : Z)          (* an integer: the values of .dt.year and .dt.month *)
| Day (d : date).      (* a datetime.date *)

Definition series : Type := list cell.

Record frame : Type := Frame {
  columns : list string;
  rows : list (list cell)
}.

(** [df.empty]: no row or no column. *)
Definition empty (df : frame) : bool :=
  match columns df, rows df with
  | [], _ => true
  | _, [] => true
  | _, _ => false
  end.

Fixpoint index_of (c : string) (cols : list string) : option nat :=
  match cols with
  | [] => None
  | c' :: cols' =>
      if String.eqb c c' then Some 0%nat
      else option_map S (index_of c cols')
  end.

(** [df[c]] read: the column, or KeyError. *)
Definition getcol (df : frame) (c : string) : result series :=
  match index_of c (columns df) with
  | Some i => Ok (map (fun r => nth i r NaN) (rows df))
  | None => Raise (KeyError c)
  end.

Fixpoint set_nth (i : nat) (v : cell) (r : list cell) : list cell :=
  match i, r with
  | _, [] => []
  | O, _ :: r' => v :: r'
  | S i', x :: r' => x :: set_nth i' v r'
  end.

(** [df[c] = s]: replaces the column [c], or adds it as the last one. *)
Definition setcol (df : frame) (c : string) (s : series) : frame :=
  match index_of c (columns df) with
  | Some i =>
      Frame (columns df)
            (map (fun rv => set_nth i (snd rv) (fst rv)) (combine (rows df) s))
  | None =>
      Frame (columns df ++ [c])
            (map (fun rv => fst rv ++ [snd rv]) (combine (rows df) s))
  end.

(** [df[m]] for a boolean series [m]: the rows where [m] is True. *)
Definition mask (df : frame) (m : list bool) : frame :=
  Frame (columns df) (map fst (filter snd (combine (rows df) m))).

Fixpoint select {T : Type} (keep : list bool) (l : list T) : list T :=
  match keep, l with
  | k :: keep', x :: l' => if k then x :: select keep' l' else select keep' l'
  | _, _ => []
  end.

Definition mem (s : string) (l : list string) : bool :=
  existsb (String.eqb s) l.

(** [df.drop(columns=cs, errors="ignore")]. *)
Definition drop (df : frame) (cs : list string) : frame :=
  let keep := map (fun c => negb (mem c cs)) (columns df) in
  Frame (select keep (columns df)) (map (select keep) (rows df)).

(** [s == v] for an integer [v]: False on a missing value. *)
Definition eq_int (s : series) (v : Z) : list bool :=
  map (fun c => match c with Int n => (n =? v)%Z | _ => false end) s.

(** [s.isin(values)] for a list of strings. *)
Definition isin (s : series) (values : list string) : list bool :=
  map (fun c => match c with Str x => mem x values | _ => false end) s.

(** [.dt.year], [.dt.month] and [.dt.date] of a datetime series, whose
    entries are dates or NaT ([None]). *)
Definition dt_year (s : list (option date)) : series :=
  map (fun o => match o with Some d => Int (year d) | None => NaN end) s.

Definition dt_month (s : list (option date)) : series :=
  map (fun o => match o with Some d => Int (month d) | None => NaN end) s.

Definition dt_date (s : list (option date)) : series :=
  map (fun o => match o with Some d => Day d | None => NaN end) s.

End Frames.

Arguments cell A : clear implicits.
Arguments series A : clear implicits.
Arguments frame A : clear implicits.

(** ** What pandas does with text *)

(** The conversions between field texts and values that [read_csv],
    [to_csv], [to_numeric], [to_datetime] and [astype(str)] rest on. *)
Class Text (A : Type) : Type := {
  (** [read_csv]: the field is one of the missing-value markers. *)
  na_value : string -> bool;
  (** [read_csv]: the field reads as a number. *)
  csv_number : string -> option A;
  (** [read_csv]: the field reads as a boolean. *)
  csv_bool : string -> option bool;
  (** [pd.to_numeric] on a str. *)
  to_numeric_str : string -> option A;
  (** [str] of a number, which is also how [to_csv] writes it. *)
  repr_num : A -> string;
  (** [pd.to_datetime] on a str and on a number. *)
  to_datetime_str : string -> option date;
  to_datetime_num : A -> option date;
  (** The date is one a pandas Timestamp can hold. *)
  timestamp_ok : date -> bool
}.

(** ** The helpers of app.py that do not touch the file *)

Section Helpers.

Context {A : Type} {NumA : Number A} {TxtA : Text A}.

Local Open Scope result_scope.

(** [pd.to_datetime(s)], entry by entry: a missing value is NaT, a date
    stays, a str and a number are converted, and what does not convert
    raises (the integers of the helper columns are never dates here).
    pandas 2 reads the texts of a column in the format of the first one
    and raises on a text in another format, also when it would convert
    alone: the model follows the program on the columns whose texts are
    in one format, and those are the ones a conversion is proved to go
    through for. *)
Definition to_datetime1 (c : cell A) : result (option date) :=
  match c with
  | NaN => Ok None
  | Day d => if timestamp_ok d then Ok (Some d) else Raise ValueError
  | Str s =>
      match to_datetime_str s with
      | Some d => Ok (Some d)
      | None => Raise ValueError
      end
  | Num x =>
      match to_datetime_num x with
      | Some d => Ok (Some d)
      | None => Raise ValueError
      end
  | Flag _ => Raise TypeError
  | Int _ => Raise TypeError
  end.

Definition to_datetime (s : series A) : result (list (option date)) :=
  mapM to_datetime1 s.

(** [calendar.month_name[i]] for [i] in [range(1,13)], with [i]. *)
Definition months : list (string * Z) :=
  [("January", 1); ("February", 2); ("March", 3); ("April", 4);
   ("May", 5); ("June", 6); ("July", 7); ("August", 8);
   ("September", 9); ("October", 10); ("November", 11); ("December", 12)]%Z.

Fixpoint get {V : Type} (d : list (string * V)) (k : string) (default : V) : V :=
  match d with
  | [] => default
  | (k', v) :: d' => if String.eqb k k' then v else get d' k default
  end.

Definition month_name_to_num (name : string) : Z :=
  if String.eqb name "All year" then 0%Z
  else get months name 0%Z.

Definition filter_df (df : frame A) (year : Z) (month_opt : string)
    (categories : list string) : result (frame A) :=
  if empty df then Ok df
  else
    let df2 := df in
    d <- getcol df2 "date" ;;
    t <- to_datetime d ;;
    let df2 := setcol df2 "year" (dt_year t) in
    d <- getcol df2 "date" ;;
    t <- to_datetime d ;;
    let df2 := setcol df2 "month" (dt_month t) in
    y <- getcol df2 "year" ;;
    let df2 := mask df2 (eq_int y year) in
    let m := month_name_to_num month_opt in
    df2 <- (if negb (m =? 0)%Z
            then (mo <- getcol df2 "month" ;; Ok (mask df2 (eq_int mo m)))
            else Ok df2) ;;
    df2 <- (match categories with
            | _ :: _ => (c <- getcol df2 "category" ;; Ok (mask df2 (isin c categories)))
            | [] => Ok df2
            end) ;;
    Ok (drop df2 ["year"; "month"]).

(** A value of the amount column in a sum: a number, or a missing value,
    which the sum skips; [load_data] leaves nothing else there. *)
Definition numeric (c : cell A) : result (option A) :=
  match c with
  | Num x => Ok (Some x)
  | NaN => Ok None
  | _ => Raise TypeError
  end.

Definition add_opt (s : A) (o : option A) : A :=
  match o with
  | Some x => f_add s x
  | None => s
  end.

(** [s.sum()], adding from left to right (in binary64 pandas adds a
    column of eight values or more pairwise, which rounds differently;
    with exact arithmetic the order is immaterial). *)
Fixpoint series_sum_from (s : series A) (acc : A) : result A :=
  match s with
  | [] => Ok acc
  | c :: s' => (x <- numeric c ;; series_sum_from s' (add_opt acc x))
  end.

Definition series_sum (s : series A) : result A :=
  series_sum_from s f_zero.

(** One row of a group-by-sum: the row's value goes to the group of its
    key; the groups are kept in ascending order of the key.  The value is
    added to the sum of the group as it is (in binary64 pandas carries a
    compensation term along, which rounds differently). *)
Fixpoint group_add (k : date) (x : option A) (acc : list (date * A))
    : list (date * A) :=
  match acc with
  | [] => [(k, add_opt f_zero x)]
  | (k', s) :: acc' =>
      if date_eqb k k' then (k', add_opt s x) :: acc'
      else if date_ltb k k' then (k, add_opt f_zero x) :: acc
      else (k', s) :: group_add k x acc'
  end.

(** [df.groupby(key)[value].sum()] on the two columns zipped, for a key
    column of dates: the rows with a missing key are left out. *)
Fixpoint group_sum (kvs : list (cell A * cell A)) (acc : list (date * A))
    : result (list (date * A)) :=
  match kvs with
  | [] => Ok acc
  | (k, v) :: kvs' =>
      x <- numeric v ;;
      match k with
      | NaN => group_sum kvs' acc
      | Day d => group_sum kvs' (group_add d x acc)
      | _ => Raise TypeError
      end
  end.

Definition sum (l : list A) : A := fold_left f_add l f_zero.

(** [s.mean()] and [s.max()] of a series of numbers; the mean is the sum
    from left to right over the count. *)
Definition mean (l : list A) : A := f_div (sum l) (f_of_nat (List.length l)).

Definition maxl (l : list A) : A :=
  match l with
  | [] => f_zero
  | x :: l' => fold_left f_max l' x
  end.

Definition is_nil {T : Type} (l : list T) : bool :=
  match l with [] => true | _ => false end.

Definition compute_kpis (df : frame A) : result (A * A * A * A) :=
  if empty df then Ok (f_zero, f_zero, f_zero, f_zero)
  else
    amount <- getcol df "amount" ;;
    total <- series_sum amount ;;
    key <- getcol df "date" ;;
    by_day <- group_sum (combine key amount) [] ;;
    let avg_day := if negb (is_nil by_day) then mean (map snd by_day) else f_zero in
    let max_day := if negb (is_nil by_day) then maxl (map snd by_day) else f_zero in
    Ok (total, avg_day, max_day, f_of_nat (List.length (rows df))).

(** ** Tables of expenses *)

(** The columns of the data file (line 18). *)
Definition DATA_COLUMNS : list string := ["date"; "category"; "amount"; "notes"].

(** A row as [load_data] types it: a date or NaT, a str, a number, a str. *)
Record expense : Type := Expense {
  e_date : option date;
  e_category : string;
  e_amount : A;
  e_notes : string
}.

Definition date_cell (o : option date) : cell A :=
  match o with Some d => Day d | None => NaN end.

Definition row_of (e : expense) : list (cell A) :=
  [date_cell (e_date e); Str (e_category e); Num (e_amount e); Str (e_notes e)].

Definition table (es : list expense) : frame A :=
  Frame DATA_COLUMNS (map row_of es).

End Helpers.

Arguments expense A : clear implicits.

(** ** The data file *)

(** The contents of a CSV file: its header and its records. *)
Record csv : Type := Csv {
  header : list string;
  records : list (list string)
}.

(** The state of the program: the file at [DATA_PATH], if it exists. *)
Definition store : Type := option csv.

(** A computation that reads or writes the file and may raise. *)
Definition io (T : Type) : Type := store -> result T * store.

Definition ret {T : Type} (x : T) : io T := fun s => (Ok x, s).

Definition bind {T U : Type} (c : io T) (k : T -> io U) : io U :=
  fun s =>
    match c s with
    | (Ok x, s') => k x s'
    | (Raise e, s') => (Raise e, s')
    end.

Definition lift {T : Type} (r : result T) : io T := fun s => (r, s).

Declare Scope io_scope.
Delimit Scope io_scope with io.
Notation "x <- c ;; k" := (bind c (fun x => k))
  (at level 61, c at next level, right associativity) : io_scope.

(** [os.path.exists(DATA_PATH)]. *)
Definition path_exists : io bool :=
  fun s => (Ok (match s with Some _ => true | None => false end), s).

Definition write_file (f : csv) : io unit := fun _ => (Ok tt, Some f).

Definition read_file : io csv :=
  fun s =>
    match s with
    | Some f => (Ok f, s)
    | None => (Raise FileNotFoundError, s)
    end.

Section Store.

Context {A : Type} {NumA : Number A} {TxtA : Text A}.

(** *** Writing a frame *)

Definition digits (n : Z) : string :=
  NilZero.string_of_uint (N.to_uint (Z.to_N n)).

Fixpoint zeros (n : nat) : string :=
  match n with
  | O => EmptyString
  | S n' => String "0" (zeros n')
  end.

(** [s.zfill(w)] for a string of digits. *)
Definition zfill (w : nat) (s : string) : string :=
  (zeros (w - String.length s) ++ s)%string.

(** [str(d)] for a date of the calendar: YYYY-MM-DD. *)
Definition isoformat (d : date) : string :=
  (zfill 4 (digits (year d)) ++ "-" ++ zfill 2 (digits (month d)) ++ "-"
   ++ zfill 2 (digits (day d)))%string.

(** [str(x)] of a value. *)
Definition str (c : cell A) : string :=
  match c with
  | NaN => "nan"
  | Str s => s
  | Num x => repr_num x
  | Flag true => "True"
  | Flag false => "False"
  | Int n => NilZero.string_of_int (Z.to_int n)
  | Day d => isoformat d
  end.

(** The field [to_csv] writes for a value: nothing for a missing one. *)
Definition field (c : cell A) : string :=
  match c with
  | NaN => ""
  | _ => str c
  end.

(** [df.to_csv(DATA_PATH, index=False)]. *)
Definition to_csv (df : frame A) : io unit :=
  write_file (Csv (columns df) (map (map field) (rows df))).

(** *** Reading a frame *)

Inductive dtype : Type := NumberCol | BoolCol | ObjectCol.

Definition is_some {T : Type} (o : option T) : bool :=
  match o with Some _ => true | None => false end.

(** The type [read_csv] gives a column: numbers when every field that is
    not missing reads as a number, booleans likewise, otherwise objects. *)
Definition infer (fields : list string) : dtype :=
  let present := filter (fun s => negb (na_value s)) fields in
  if forallb (fun s => is_some (csv_number s)) present then NumberCol
  else if forallb (fun s => is_some (csv_bool s)) present then BoolCol
  else ObjectCol.

Definition read_cell (t : dtype) (s : string) : cell A :=
  if na_value s then NaN
  else
    match t with
    | NumberCol => match csv_number s with Some x => Num x | None => NaN end
    | BoolCol => match csv_bool s with Some b => Flag b | None => NaN end
    | ObjectCol => Str s
    end.

(** The fields at position [j]; a record that is too short is completed
    with empty fields. *)
Definition column_fields (recs : list (list string)) (j : nat) : list string :=
  map (fun r => nth j r "") recs.

(** The number of fields that come before the columns: the fields the
    first record has in excess of the header, which [read_csv] takes, in
    every record, as the index of the frame. *)
Definition leading (f : csv) : nat :=
  match records f with
  | r :: _ => List.length r - List.length (header f)
  | [] => 0
  end.

(** The frame of a file: its columns are the header, every column has the
    type inferred from its fields; a file without header has no columns to
    parse.  The width of the file is the length of the header or of the
    first record, whichever is longer; a record that is longer is a parse
    error. *)
Definition parse (f : csv) : result (frame A) :=
  match header f with
  | [] => Raise EmptyDataError
  | _ =>
      let n := List.length (header f) in
      let k := leading f in
      if forallb (fun r => (List.length r <=? n + k)%nat) (records f)
      then
        Ok (Frame (header f)
              (map (fun r =>
                      map (fun j =>
                             read_cell
                               (infer (column_fields (records f) (j + k)))
                               (nth (j + k) r ""))
                          (seq 0 n))
                   (records f)))
      else Raise ParserError
  end.

(** [pd.read_csv(DATA_PATH)]. *)
Definition read_csv : io (frame A) :=
  (f <- read_file ;; lift (parse f))%io.

(** *** Column conversions *)

(** [s.astype(str)].  A number is rendered as a float is; a column of
    integers, which pandas keeps as int64 and renders without ".0", is
    not told apart. *)
Definition astype_str (s : series A) : series A :=
  map (fun c => Str (str c)) s.

(** [pd.to_numeric(s, errors="coerce")]: what does not convert becomes a
    missing value. *)
Definition to_numeric1 (c : cell A) : cell A :=
  match c with
  | Num x => Num x
  | Int n => Int n
  | Flag b => Num (f_of_nat (if b then 1 else 0))
  | Str t => match to_numeric_str t with Some x => Num x | None => NaN end
  | NaN => NaN
  | Day _ => NaN
  end.

Definition to_numeric (s : series A) : series A := map to_numeric1 s.

(** [s.fillna(0.0)]. *)
Definition fillna1 (c : cell A) : cell A :=
  match c with
  | NaN => Num f_zero
  | _ => c
  end.

Definition fillna (s : series A) : series A := map fillna1 s.

(** *** init_data, load_data, save_data *)

Local Open Scope io_scope.

Definition init_data : io unit :=
  e <- path_exists ;;
  if negb e then to_csv (Frame DATA_COLUMNS []) else ret tt.

(** Lines 25 to 28: the four column conversions of [load_data]. *)
Definition coerce (df : frame A) : result (frame A) :=
  (d <- getcol df "date" ;;
   t <- to_datetime d ;;
   let df := setcol df "date" (dt_date t) in
   c <- getcol df "category" ;;
   let df := setcol df "category" (astype_str c) in
   a <- getcol df "amount" ;;
   let df := setcol df "amount" (fillna (to_numeric a)) in
   n <- getcol df "notes" ;;
   let df := setcol df "notes" (astype_str n) in
   Ok df)%result.

Definition load_data : io (frame A) :=
  _ <- init_data ;;
  df <- read_csv ;;
  if negb (empty df) then lift (coerce df) else ret df.

Definition save_data (df : frame A) : io unit :=
  to_csv df.

(** *** The add-expense form (lines 130 to 134) *)

(** [c.isspace()] for a character below 256. *)
Definition isspace (c : ascii) : bool :=
  let n := nat_of_ascii c in
  ((9 <=? n) && (n <=? 13) || (28 <=? n) && (n <=? 32)
   || (n =? 133) || (n =? 160))%nat.

Fixpoint lstrip (s : string) : string :=
  match s with
  | EmptyString => EmptyString
  | String c s' => if isspace c then lstrip s' else s
  end.

Fixpoint rstrip (s : string) : string :=
  match s with
  | EmptyString => EmptyString
  | String c s' =>
      match rstrip s' with
      | EmptyString => if isspace c then EmptyString else String c EmptyString
      | t => String c t
      end
  end.

(** [s.strip()]. *)
Definition strip (s : string) : string := rstrip (lstrip s).

(** [pd.DataFrame([d])] for a dict [d]. *)
Definition frame_of_dict (d : list (string * cell A)) : frame A :=
  Frame (map fst d) [map snd d].

Definition reindex (cols src : list string) (r : list (cell A)) : list (cell A) :=
  map (fun c => match index_of c src with Some i => nth i r NaN | None => NaN end)
      cols.

(** [pd.concat([df1, df2], ignore_index=True)]: the columns of [df1], then
    those of [df2] that [df1] lacks; a row has a missing value where its
    frame has no such column. *)
Definition concat (df1 df2 : frame A) : frame A :=
  let cols :=
    columns df1 ++ filter (fun c => negb (mem c (columns df1))) (columns df2) in
  Frame cols
        (map (reindex cols (columns df1)) (rows df1)
         ++ map (reindex cols (columns df2)) (rows df2)).

Definition truthy (s : string) : bool :=
  match s with EmptyString => false | _ => true end.

Definition new_row (d : date) (cat : string) (amt : A) (note : string)
    : list (string * cell A) :=
  [("date", Day d);
   ("category", Str (if truthy (strip cat) then cat else "Uncategorized"));
   ("amount", Num amt);
   ("notes", Str note)].

(** What the form does once submitted. *)
Definition add_expense (d : date) (cat : string) (amt : A) (note : string)
    : io unit :=
  df <- load_data ;;
  let df := concat df (frame_of_dict (new_row d cat amt note)) in
  save_data df.

(** *** The pipeline of a run (lines 137 to 144) *)

Definition dashboard (year : Z) (month_opt : string) (categories : list string)
    : io (frame A * (A * A * A * A)) :=
  df_all <- load_data ;;
  df_filtered <- lift (filter_df df_all year month_opt categories) ;;
  kpis <- lift (compute_kpis df_filtered) ;;
  ret (df_filtered, kpis).

End Store.

(** ** A concrete text interface

    A part of what pandas reads and writes, for the examples: exact
    amounts in plain decimal notation ([-]digits[.digits], written with
    the fewest decimals that are exact, at least one, and never with an
    exponent), dates YYYY-MM-DD and no other format, and the default
    missing-value and boolean markers of [read_csv]. *)

Definition digit_val (c : ascii) : option Z :=
  let n := nat_of_ascii c in
  if ((48 <=? n) && (n <=? 57))%nat then Some (Z.of_nat (n - 48)) else None.

Fixpoint digits_val (s : string) (acc : Z) : option Z :=
  match s with
  | EmptyString => Some acc
  | String c s' =>
      match digit_val c with
      | Some v => digits_val s' (10 * acc + v)%Z
      | None => None
      end
  end.

(** The value of a non-empty string of decimal digits. *)
Definition natural (s : string) : option Z :=
  match s with
  | EmptyString => None
  | _ => digits_val s 0%Z
  end.

Fixpoint split_at (sep : ascii) (s : string) : string * option string :=
  match s with
  | EmptyString => (EmptyString, None)
  | String c s' =>
      if Ascii.eqb c sep then (EmptyString, Some s')
      else let (a, b) := split_at sep s' in (String c a, b)
  end.

Definition unsigned_decimal (s : string) : option Q :=
  match split_at "." s with
  | (i, None) => option_map inject_Z (natural i)
  | (i, Some f) =>
      match natural i, natural f with
      | Some a, Some b =>
          let k := Z.of_nat (String.length f) in
          Some ((a * 10 ^ k + b)%Z # Z.to_pos (10 ^ k))
      | _, _ => None
      end
  end.

(** [-]digits[.digits] *)
Definition decimal (s : string) : option Qc :=
  match s with
  | String "-" s' => option_map (fun q => Q2Qc (- q)) (unsigned_decimal s')
  | _ => option_map Q2Qc (unsigned_decimal s)
  end.

(** The least number of decimals, from one up, that writes [q] exactly; 17
    when there is none. *)
Fixpoint decimals (fuel : nat) (k : Z) (q : Q) : Z :=
  match fuel with
  | O => k
  | S fuel' =>
      if ((Qnum q * 10 ^ k) mod (Zpos (Qden q)) =? 0)%Z then k
      else decimals fuel' (k + 1)%Z q
  end.

Definition repr_Qc (x : Qc) : string :=
  let q := this x in
  let k := decimals 16 1 q in
  let m := (Z.abs (Qnum q) * 10 ^ k / Zpos (Qden q))%Z in
  let sign := if (Qnum q <? 0)%Z then "-" else "" in
  (sign ++ NilZero.string_of_uint (N.to_uint (Z.to_N (m / 10 ^ k))) ++ "."
   ++ zfill (Z.to_nat k)
            (NilZero.string_of_uint (N.to_uint (Z.to_N (m mod 10 ^ k)))))%string.

Definition leap (y : Z) : bool :=
  ((y mod 4 =? 0) && negb (y mod 100 =? 0) || (y mod 400 =? 0))%Z.

Definition days_in_month (y m : Z) : Z :=
  (if m =? 2 then (if leap y then 29 else 28)
   else if (m =? 4) || (m =? 6) || (m =? 9) || (m =? 11) then 30
   else 31)%Z.

Definition date_leb (a b : date) : bool := negb (date_ltb b a).

(** The dates of the Timestamp range, 1677-09-22 to 2262-04-11. *)
Definition in_timestamp_range (d : date) : bool :=
  date_leb (Date 1677 9 22) d && date_leb d (Date 2262 4 11).

Definition valid_date (d : date) : bool :=
  ((1 <=? year d) && (year d <=? 9999) && (1 <=? month d) && (month d <=? 12)
   && (1 <=? day d) && (day d <=? days_in_month (year d) (month d)))%Z.

(** YYYY-MM-DD *)
Definition iso_date (s : string) : option date :=
  if (String.length s =? 10)%nat
     && String.eqb (substring 4 1 s) "-" && String.eqb (substring 7 1 s) "-"
  then
    match natural (substring 0 4 s), natural (substring 5 2 s),
          natural (substring 8 2 s) with
    | Some y, Some m, Some d =>
        let r := Date y m d in
        if valid_date r && in_timestamp_range r then Some r else None
    | _, _, _ => None
    end
  else None.

(** The date that is [n] days after 1970-01-01. *)
Definition civil_from_days (n : Z) : date :=
  let z := (n + 719468)%Z in
  let era := (z / 146097)%Z in
  let doe := (z - era * 146097)%Z in
  let yoe := ((doe - doe / 1460 + doe / 36524 - doe / 146096) / 365)%Z in
  let doy := (doe - (365 * yoe + yoe / 4 - yoe / 100))%Z in
  let mp := ((5 * doy + 2) / 153)%Z in
  let d := (doy - (153 * mp + 2) / 5 + 1)%Z in
  let m := (if mp <? 10 then mp + 3 else mp - 9)%Z in
  let y := (yoe + era * 400 + (if m <=? 2 then 1 else 0))%Z in
  Date y m d.

(** A number as a date: nanoseconds since 1970-01-01. *)
Definition epoch_date (x : Qc) : option date :=
  let ns := Qfloor (this x) in
  if ((- 2 ^ 63 <? ns) && (ns <? 2 ^ 63))%Z
  then Some (civil_from_days (ns / 86400000000000)%Z)
  else None.

(** The default [na_values] of [read_csv]. *)
Definition NA_VALUES : list string :=
  [""; "#N/A"; "#N/A N/A"; "#NA"; "-1.#IND"; "-1.#QNAN"; "-NaN"; "-nan";
   "1.#IND"; "1.#QNAN"; "<NA>"; "N/A"; "NA"; "NULL"; "NaN"; "None"; "n/a";
   "nan"; "null"].

Definition bool_value (s : string) : option bool :=
  if mem s ["True"; "TRUE"; "true"] then Some true
  else if mem s ["False"; "FALSE"; "false"] then Some false
  else None.

#[export] Instance Text_Qc : Text Qc := {
  na_value := fun s => mem s NA_VALUES;
  csv_number := decimal;
  csv_bool := bool_value;
  to_numeric_str := decimal;
  repr_num := repr_Qc;
  to_datetime_str := iso_date;
  to_datetime_num := epoch_date;
  timestamp_ok := in_timestamp_range
}.

(** The amount [n / d]. *)
Definition amt (n : Z) (d : positive) : Qc := Q2Qc (n # d).

From Stdlib Require Import Sorted.

(** * The vocabulary of the properties *)

(** [keep_only P l l']: [l'] is [l] with exactly the elements that satisfy
    [P] kept, in their order and as many times as they occur. *)
Inductive keep_only {X : Type} (P : X -> Prop) : list X -> list X -> Prop :=
| keep_nil : keep_only P [] []
| keep_yes x l l' : P x -> keep_only P l l' -> keep_only P (x :: l) (x :: l')
| keep_no x l l' : ~ P x -> keep_only P l l' -> keep_only P (x :: l) l'.

(** The order of dates, as a relation. *)
Definition date_lt (a b : date) : Prop := date_ltb a b = true.

Section Vocabulary.

Context {A : Type} {NumA : Number A} {TxtA : Text A}.

(** The rows a selection of year, month option and categories asks for:
    the date is in the year; it is in the month when the option is the name
    of a month; the category is one of the chosen ones when some are
    chosen. *)
Definition selected (y : Z) (month_opt : string) (categories : list string)
    (e : expense A) : Prop :=
  (exists d, e_date e = Some d /\ year d = y
             /\ (forall m, In (month_opt, m) months -> month d = m))
  /\ (categories <> [] -> In (e_category e) categories).

(** The three masks of [filter_df] on one row. *)
Definition keeps (y : Z) (month_opt : string) (categories : list string)
    (e : expense A) : bool :=
  match e_date e with
  | Some d =>
      (year d =? y)%Z
      && ((month_name_to_num month_opt =? 0)%Z
          || (month d =? month_name_to_num month_opt)%Z)
      && (is_nil categories || mem (e_category e) categories)
  | None => false
  end.

(** The dates of the table are ones a Timestamp can hold. *)
Definition dates_in_range (es : list (expense A)) : Prop :=
  Forall (fun e => forall d, e_date e = Some d -> timestamp_ok d = true) es.

(** The same, as a test. *)
Definition dates_ok (es : list (expense A)) : bool :=
  forallb (fun e => match e_date e with
                    | Some d => timestamp_ok d
                    | None => true
                    end) es.

(** Every row of the frame has one cell per column. *)
Definition rect (df : frame A) : Prop :=
  Forall (fun r => List.length r = List.length (columns df)) (rows df).

(** The cell is a number. *)
Definition is_num (c : cell A) : Prop := exists x, c = Num x.



(** The file a run works on: the data file, or the empty four-column file
    [init_data] creates when there is none. *)
Definition opened (s : store) : csv :=
  match s with
  | Some f => f
  | None => Csv DATA_COLUMNS []
  end.

(** The data file, when there is one, has the four columns and four
    fields in every record. *)
Definition four_columns (s : store) : Prop :=
  match s with
  | None => True
  | Some f =>
      header f = DATA_COLUMNS
      /\ Forall (fun r => List.length r = 4%nat) (records f)
  end.

(** The files the program can leave, from the absence of a file: after a
    run of the pipeline and after a submission of the form, whatever the
    selections and the entries. *)
Inductive reachable : store -> Prop :=
| reach_start : reachable None
| reach_run y month_opt categories s :
    reachable s -> reachable (snd (dashboard y month_opt categories s))
| reach_submit d cat amt note s :
    reachable s -> reachable (snd (add_expense d cat amt note s)).

(** The string is empty or made of whitespace. *)
Fixpoint whitespace_only (s : string) : bool :=
  match s with
  | EmptyString => true
  | String c s' => isspace c && whitespace_only s'
  end.

(** The record the form adds to the file. *)
Definition new_record (d : date) (cat : string) (amt : A) (note : string)
    : list string :=
  [isoformat d;
   if whitespace_only cat then "Uncategorized" else cat;
   repr_num amt;
   note].

(** Submitting the form, as the specification words it: one record is
    added after the records of the file, which stay as they are. *)
Definition appends_unchanged (f : csv) (d : date) (cat : string) (amt : A)
    (note : string) : Prop :=
  exists r,
    snd (add_expense d cat amt note (Some f))
    = Some (Csv (header f) (records f ++ [r])).

(** The text is read back as itself: it is no missing-value marker, and it
    reads neither as a number nor as a boolean. *)
Definition plain (t : string) : Prop :=
  na_value t = false /\ csv_number t = None /\ csv_bool t = None.

(** The row is read back as itself: its date is written as a text that
    converts back to it, its category and its notes are plain texts, and
    its amount is written as a text that reads as the same number. *)
Definition storable (e : expense A) : Prop :=
  exists d,
    e_date e = Some d
    /\ plain (isoformat d) /\ to_datetime_str (isoformat d) = Some d
    /\ plain (e_category e) /\ plain (e_notes e)
    /\ na_value (repr_num (e_amount e)) = false
    /\ csv_number (repr_num (e_amount e)) = Some (e_amount e).

(** The record [to_csv] writes for a row. *)
Definition record_of (e : expense A) : list string := map field (row_of e).

(** The row [read_csv] makes of that record. *)
Definition read_back (e : expense A) : list (cell A) :=
  [Str (field (date_cell (e_date e))); Str (e_category e);
   Num (e_amount e); Str (e_notes e)].

(** The round trip, as the specification words it: a table whose rows have
    a date, a category, an amount and notes is read back as it was
    written. *)
Definition round_trips (es : list (expense A)) : Prop :=
  Forall (fun e => e_date e <> None) es ->
  forall s, fst (load_data (snd (save_data (table es) s))) = Ok (table es).

(** The expense a row of four cells stands for. *)
Definition expense_of (r : list (cell A)) : expense A :=
  Expense (match nth 0 r NaN with Day d => Some d | _ => None end)
          (match nth 1 r NaN with Str t => t | _ => EmptyString end)
          (match nth 2 r NaN with Num x => x | _ => f_zero end)
          (match nth 3 r NaN with Str t => t | _ => EmptyString end).

(** The row is dated [d]. *)
Definition on_day (d : date) (e : expense A) : bool :=
  match e_date e with
  | Some d' => date_eqb d' d
  | None => false
  end.

(** The sum of the amounts of the rows dated [d]. *)
Definition daily_sum (es : list (expense A)) (d : date) : A :=
  sum (map e_amount (filter (on_day d) es)).

(** One row of the table in the group-by-sum. *)
Definition group_row (g : list (date * A)) (e : expense A) : list (date * A) :=
  match e_date e with
  | Some d => group_add d (Some (e_amount e)) g
  | None => g
  end.

(** [per_day es g]: [g] is the per-day sums of the table, that is, one
    entry for every date some row has, in ascending order of the dates,
    with the sum of the amounts of the rows of that date. *)
Definition per_day (es : list (expense A)) (g : list (date * A)) : Prop :=
  StronglySorted date_lt (map fst g)
  /\ (forall d, In d (map fst g) <-> exists e, In e es /\ e_date e = Some d)
  /\ (forall d s, In (d, s) g -> s = daily_sum es d).

(** The statistics as the specification words them: the table has per-day
    sums, and [compute_kpis] returns the sum of all amounts, the mean of
    the per-day sums and the maximum of the per-day sums. *)
Definition kpis_as_stated (es : list (expense A)) : Prop :=
  exists g n,
    per_day es g /\ g <> []
    /\ compute_kpis (table es)
       = Ok (sum (map e_amount es), mean (map snd g), maxl (map snd g), n).

(** Group-by-sum preserves the total, as the specification words it: the
    total is the sum of the per-day sums, the daily average times the
    number of distinct dates is the total, and the daily average is at most
    the daily maximum. *)
Definition total_preserved (es : list (expense A)) : Prop :=
  exists g total avg_day max_day n,
    per_day es g
    /\ compute_kpis (table es) = Ok (total, avg_day, max_day, n)
    /\ total = sum (map snd g)
    /\ f_mul avg_day (f_of_nat (List.length g)) = total
    /\ f_leb avg_day max_day = true.

(** The cell of a row under the column [c], and the expense a row of a
    frame stands for, by the names of the columns. *)
Definition cell_at (cols : list string) (r : list (cell A)) (c : string)
    : cell A :=
  match index_of c cols with
  | Some i => nth i r NaN
  | None => NaN
  end.

Definition expense_in (cols : list string) (r : list (cell A)) : expense A :=
  Expense (match cell_at cols r "date" with Day d => Some d | _ => None end)
          (match cell_at cols r "category" with Str t => t | _ => EmptyString end)
          (match cell_at cols r "amount" with Num x => x | _ => f_zero end)
          (match cell_at cols r "notes" with Str t => t | _ => EmptyString end).

(** [filter_df] returns the frame of the columns of [df] whose rows are
    exactly the selected rows of [df], in their order. *)
Definition filters_rows (df : frame A) (y : Z) (month_opt : string)
    (categories : list string) : Prop :=
  exists df',
    filter_df df y month_opt categories = Ok df'
    /\ columns df' = columns df
    /\ keep_only (fun r => selected y month_opt categories
                                    (expense_in (columns df) r))
                 (rows df) (rows df').

(** Every date of the frame is one a Timestamp can hold. *)
Definition frame_dates_in_range (df : frame A) : Prop :=
  Forall (fun r => forall d, cell_at (columns df) r "date" = Day d ->
                             timestamp_ok d = true)
         (rows df).

(** The selection, as the specification words it: so it is for every
    table [load_data] returns. *)
Definition filters_as_stated (s : store) (y : Z) (month_opt : string)
    (categories : list string) : Prop :=
  forall df s', load_data s = (Ok df, s') -> filters_rows df y month_opt categories.

(** The text [to_csv] writes for the date is plain and converts back to
    the date. *)
Definition date_kept (d : date) : Prop :=
  plain (isoformat d) /\ to_datetime_str (isoformat d) = Some d.

(** A date field that is read without more ado: a missing-value marker,
    or the text the program writes for a date. *)
Definition date_text (t : string) : Prop :=
  na_value t = true \/ exists d, t = isoformat d /\ date_kept d.

(** The amount is written as a text that reads as the same number. *)
Definition amount_kept (x : A) : Prop :=
  na_value (repr_num x) = false /\ csv_number (repr_num x) = Some x.

End Vocabulary.

(** * Tables and files of the examples *)

(** The four statistics of a result, as fractions. *)
Definition shown (r : result (Qc * Qc * Qc * Qc)) : option (Q * Q * Q * Q) :=
  match r with
  | Ok (a, b, c, d) => Some (this a, this b, this c, this d)
  | Raise _ => None
  end.

(** One expense of 5.0 whose date is missing. *)
Definition undated : list (expense PrimFloat.float) :=
  [Expense None "Food" (f_of_nat 5) "lunch"].

(** Seven days of one week: 29 on the first, nothing on the others. *)
Definition week : list (expense PrimFloat.float) :=
  Expense (Some (Date 2024 1 1)) "Rent" (f_of_nat 29) "January"
  :: map (fun d => Expense (Some (Date 2024 1 d)) "Food" (f_of_nat 0) "none")
         [2; 3; 4; 5; 6; 7]%Z.

(** Three days with 0.1 spent on each. *)
Definition dimes : list (expense PrimFloat.float) :=
  map (fun d => Expense (Some (Date 2024 1 d)) "Food"
                        (f_div (f_of_nat 1) (f_of_nat 10)) "tea")
      [1; 2; 3]%Z.

(** Two days of January 2024. *)
Definition january : list (expense Qc) :=
  [Expense (Some (Date 2024 1 5)) "Food" (amt 25 2) "lunch";
   Expense (Some (Date 2024 1 6)) "Transport" (amt 3 1) "bus";
   Expense (Some (Date 2024 1 5)) "Food" (amt 7 2) "coffee"].

(** A data file with a missing amount and an amount that is no number. *)
Definition ledger : csv :=
  Csv DATA_COLUMNS
      [["2024-01-05"; "Food"; "12.5"; "lunch"];
       ["2024-01-06"; "Transport"; "n/a"; "bus"];
       ["2024-01-07"; "Rent"; "abc"; "flat"]].

(** What [load_data] makes of it, and its amounts. *)
Definition ledger_table : frame Qc :=
  match fst (load_data (Some ledger)) with
  | Ok df => df
  | Raise _ => Frame [] []
  end.

Definition ledger_amounts : series Qc :=
  match getcol ledger_table "amount" with
  | Ok a => a
  | Raise _ => []
  end.

(** The numbers of a series, as fractions. *)
Definition numbers (s : series Qc) : list (option Q) :=
  map (fun c => match c with Num x => Some (this x) | _ => None end) s.

(** A data file with a date that is no date. *)
Definition bad_date : csv :=
  Csv DATA_COLUMNS [["not-a-date"; "Food"; "5"; "lunch"]].

(** The data file after a first expense entered with empty notes. *)
Definition first_entry : csv :=
  Csv DATA_COLUMNS [["2024-01-05"; "Food"; "12.5"; ""]].

(** The table of that first expense. *)
Definition first_expense : list (expense Qc) :=
  [Expense (Some (Date 2024 1 5)) "Food" (amt 25 2) ""].

(** A data file with a fifth column, named year. *)
Definition with_year : csv :=
  Csv ["date"; "category"; "amount"; "notes"; "year"]
      [["2024-01-05"; "Food"; "12.5"; "lunch"; "first"]].

(** A data file whose date is a number of nanoseconds: the first instant
    a Timestamp can hold, in the course of 1677-09-21. *)
Definition first_instant : csv :=
  Csv DATA_COLUMNS [["-9223372036854775807"; "Food"; "5"; "old"]].

(** What [load_data] and then [filter_df] make of a file: the columns of
    the loaded table and of the filtered one. *)
Definition columns_through (f : csv) (y : Z) (month_opt : string)
    (categories : list string) : result (list string * list string) :=
  (df <- fst (load_data (A := Qc) (Some f)) ;;
   df' <- filter_df df y month_opt categories ;;
   Ok (columns df, columns df'))%result.

(** The dates of the table [load_data] returns. *)
Definition loaded_dates (f : csv) : result (series Qc) :=
  (df <- fst (load_data (A := Qc) (Some f)) ;; getcol df "date")%result.

(** A data file whose first record has a field more than the header. *)
Definition indexed : csv :=
  Csv DATA_COLUMNS
      [["7"; "2024-01-05"; "Food"; "12.5"; "lunch"];
       ["8"; "2024-01-06"; "Transport"; "3.0"]].
From Stdlib Require Import Permutation.

(** * More of app.py: the widgets, the chart and the export *)

(** The options of the month box (line 120): "All year", then
    [calendar.month_name[i]] for [i] in [range(1,13)]. *)
Definition MONTH_OPTIONS : list string := "All year" :: map fst months.

(** [l.unique()]: the values in the order of their first occurrence. *)
Fixpoint unique (l : list string) : list string :=
  match l with
  | [] => []
  | x :: l' => x :: filter (fun y => negb (String.eqb y x)) (unique l')
  end.

Fixpoint insert_str (x : string) (l : list string) : list string :=
  match l with
  | [] => [x]
  | y :: l' => if String.leb x y then x :: l else y :: insert_str x l'
  end.

(** [sorted(l)] for a list of str, which compares code point by code
    point. *)
Definition sorted (l : list string) : list string :=
  fold_right insert_str [] l.

Section Widgets.

Context {A : Type} {NumA : Number A} {TxtA : Text A}.

Local Open Scope result_scope.

(** [s.dropna().tolist()] for a column of str, which is what [load_data]
    leaves in the category column: the missing values are left out.  A
    column with other values is outside what is modelled here, and
    TypeError stands for it ([sorted] raises it on a list that mixes str
    with numbers). *)
Fixpoint dropna_strs (s : series A) : result (list string) :=
  match s with
  | [] => Ok []
  | NaN :: s' => dropna_strs s'
  | Str t :: s' => (l <- dropna_strs s' ;; Ok (t :: l))
  | _ :: _ => Raise TypeError
  end.

(** Line 138: the choices of the category box. *)
Definition cats_all (df_all : frame A) : result (list string) :=
  if negb (empty df_all)
  then
    c <- getcol df_all "category" ;;
    l <- dropna_strs c ;;
    Ok (sorted (unique l))
  else Ok [].

Fixpoint insert_day (p : date * A) (l : list (date * A)) : list (date * A) :=
  match l with
  | [] => [p]
  | q :: l' => if date_ltb (fst p) (fst q) then p :: l else q :: insert_day p l'
  end.

(** [s.sort_index()] for a series indexed by dates. *)
Definition sort_index (s : list (date * A)) : list (date * A) :=
  fold_right insert_day [] s.

(** Line 157, and line 86 of [generate_pdf]: the series the bar chart of
    the expenses by day is drawn from. *)
Definition by_day (df_filtered : frame A) : result (list (date * A)) :=
  key <- getcol df_filtered "date" ;;
  amount <- getcol df_filtered "amount" ;;
  g <- group_sum (combine key amount) [] ;;
  Ok (sort_index g).

(** Lines 155 to 165, and 85 to 92 of [generate_pdf]: what the bar chart
    is drawn from -- the positions of the bars, their labels and their
    heights -- or nothing when the table is empty ("No data"). *)
Definition daily_chart (df_filtered : frame A)
    : result (option (list nat * list string * list A)) :=
  if negb (empty df_filtered)
  then
    by_day <- by_day df_filtered ;;
    let idx := seq 0 (List.length by_day) in
    let labels := map (fun x => isoformat x) (map fst by_day) in
    Ok (Some (idx, labels, map snd by_day))
  else Ok None.

(** Line 184: [df_filtered.to_csv(index=False)], the exported file. *)
Definition export_csv (df_filtered : frame A) : csv :=
  Csv (columns df_filtered) (map (map field) (rows df_filtered)).

(** ** The vocabulary of the further properties *)

(** The expense the form adds. *)
Definition new_expense (d : date) (cat : string) (amt : A) (note : string)
    : expense A :=
  Expense (Some d) (if whitespace_only cat then "Uncategorized" else cat)
          amt note.

(** [written n s]: [s] is a state of the data file after [n] submissions
    of the form and any number of runs of the pipeline, from the absence
    of a file, every entered date being one whose text converts back to
    it. *)
Inductive written : nat -> store -> Prop :=
| written_none : written 0 None
| written_run n y month_opt categories s :
    written n s -> written n (snd (dashboard y month_opt categories s))
| written_submit n d cat amt note s :
    written n s -> date_kept d ->
    written (S n) (snd (add_expense d cat amt note s)).

(** A file of four columns whose dates are texts that convert back. *)
Definition healthy (s : store) : Prop :=
  match s with
  | None => True
  | Some f =>
      header f = DATA_COLUMNS
      /\ Forall (fun r => List.length r = 4%nat
                          /\ exists d, nth 0 r "" = isoformat d /\ date_kept d)
                (records f)
  end.

(** The date and the amount of the row are read back from the record
    [to_csv] writes for it. *)
Definition readable (e : expense A) : Prop :=
  (exists d, e_date e = Some d /\ date_kept d) /\ amount_kept (e_amount e).

(** The row [load_data] makes of the record of [e] in the file of the
    rows [l]: the date and the amount of [e], and its category and notes
    as [read_csv] reads them in their columns and [astype(str)] renders
    them. *)
Definition reread (l : list (expense A)) (e : expense A) : expense A :=
  Expense (e_date e)
          (str (read_cell (infer (map e_category l)) (e_category e)))
          (e_amount e)
          (str (read_cell (infer (map e_notes l)) (e_notes e))).

(** The months of the dates are months of the calendar. *)
Definition months_valid (es : list (expense A)) : Prop :=
  Forall (fun e => forall d, e_date e = Some d -> (1 <= month d <= 12)%Z) es.

(** The total the dashboard shows for a month option, with no category
    chosen: the first statistic of [compute_kpis] on what [filter_df]
    returns. *)
Definition total_spend (y : Z) (month_opt : string) (es : list (expense A))
    : result A :=
  df_filtered <- filter_df (table es) y month_opt [] ;;
  kpis <- compute_kpis df_filtered ;;
  Ok (fst (fst (fst kpis))).

(** The rows [filter_df] keeps for a month option, in a year, whatever
    the category. *)
Definition in_month (y : Z) (month_opt : string) (es : list (expense A))
    : list (expense A) :=
  filter (keeps y month_opt []) es.

End Widgets.

(** * Properties *)

(** ** Frames built row by row *)

Lemma rbind_Ok {T U : Type} (x : T) (k : T -> result U) : rbind (Ok x) k = k x.
Proof. reflexivity. Qed.

Section FrameFacts.

Context {A : Type}.

Lemma combine_map {X Y Z : Type} (f : X -> Y) (g : X -> Z) (l : list X) :
  combine (map f l) (map g l) = map (fun x => (f x, g x)) l.
Proof.
  induction l as [| x l IH]; simpl; [reflexivity | now rewrite IH].
Qed.

Lemma getcol_map {X : Type} (cols : list string) (f : X -> list (cell A))
    (l : list X) (c : string) (i : nat) :
  index_of c cols = Some i ->
  getcol (Frame cols (map f l)) c = Ok (map (fun x => nth i (f x) NaN) l).
Proof.
  intros Hi. unfold getcol. simpl. rewrite Hi, map_map. reflexivity.
Qed.

Lemma getcol_missing (df : frame A) (c : string) :
  index_of c (columns df) = None -> getcol df c = Raise (KeyError c).
Proof.
  intros Hi. unfold getcol. now rewrite Hi.
Qed.

Lemma setcol_new {X : Type} (cols : list string) (f : X -> list (cell A))
    (g : X -> cell A) (l : list X) (c : string) :
  index_of c cols = None ->
  setcol (Frame cols (map f l)) c (map g l)
  = Frame (cols ++ [c]) (map (fun x => f x ++ [g x]) l).
Proof.
  intros Hi. unfold setcol. simpl. rewrite Hi, combine_map, map_map.
  reflexivity.
Qed.

Lemma setcol_old {X : Type} (cols : list string) (f : X -> list (cell A))
    (g : X -> cell A) (l : list X) (c : string) (i : nat) :
  index_of c cols = Some i ->
  setcol (Frame cols (map f l)) c (map g l)
  = Frame cols (map (fun x => set_nth i (g x) (f x)) l).
Proof.
  intros Hi. unfold setcol. simpl. rewrite Hi, combine_map, map_map.
  reflexivity.
Qed.

Lemma mask_map {X : Type} (cols : list string) (f : X -> list (cell A))
    (p : X -> bool) (l : list X) :
  mask (Frame cols (map f l)) (map p l) = Frame cols (map f (filter p l)).
Proof.
  unfold mask. simpl. f_equal. rewrite combine_map.
  induction l as [| x l IH]; simpl; [reflexivity |].
  destruct (p x); simpl; now rewrite IH.
Qed.

Lemma drop_map {X : Type} (cols : list string) (f : X -> list (cell A))
    (l : list X) (cs : list string) :
  drop (Frame cols (map f l)) cs
  = Frame (select (map (fun c => negb (mem c cs)) cols) cols)
          (map (fun x => select (map (fun c => negb (mem c cs)) cols) (f x)) l).
Proof.
  unfold drop. simpl. now rewrite map_map.
Qed.

Lemma eq_int_map {X : Type} (g : X -> cell A) (l : list X) (v : Z) :
  eq_int (map g l) v
  = map (fun x => match g x with Int n => (n =? v)%Z | _ => false end) l.
Proof.
  unfold eq_int. now rewrite map_map.
Qed.

Lemma isin_map {X : Type} (g : X -> cell A) (l : list X) (values : list string) :
  isin (map g l) values
  = map (fun x => match g x with Str s => mem s values | _ => false end) l.
Proof.
  unfold isin. now rewrite map_map.
Qed.

Lemma mapM_map {X T U : Type} (f : T -> result U) (g : X -> T) (h : X -> U)
    (l : list X) :
  Forall (fun x => f (g x) = Ok (h x)) l ->
  mapM f (map g l) = Ok (map h l).
Proof.
  induction 1 as [| x l Hx _ IH]; simpl; [reflexivity |].
  now rewrite Hx, IH.
Qed.

Lemma filter_filter {X : Type} (p q : X -> bool) (l : list X) :
  filter q (filter p l) = filter (fun x => p x && q x) l.
Proof.
  induction l as [| x l IH]; simpl; [reflexivity |].
  destruct (p x); simpl; [destruct (q x) |]; now rewrite IH.
Qed.

End FrameFacts.

(** ** month_name_to_num *)

Lemma get_In {V : Type} (d : list (string * V)) (k : string) (v default : V) :
  NoDup (map fst d) -> In (k, v) d -> get d k default = v.
Proof.
  induction d as [| [k' v'] d IH]; simpl; [contradiction |].
  intros Hnd [Heq | Hin].
  - inversion Heq; subst. now rewrite String.eqb_refl.
  - inversion Hnd as [| ? ? Hk Hnd']; subst.
    destruct (String.eqb_spec k k') as [-> | _].
    + exfalso. apply Hk. change k' with (fst (k', v)). now apply in_map.
    + now apply IH.
Qed.

Lemma get_found {V : Type} (d : list (string * V)) (k : string) (default : V) :
  In (k, get d k default) d \/ get d k default = default.
Proof.
  induction d as [| [k' v'] d IH]; simpl; [now right |].
  destruct (String.eqb_spec k k') as [-> | _].
  - left. now left.
  - destruct IH as [IH | IH]; [left; now right | now right].
Qed.

Lemma months_NoDup : NoDup (map fst months).
Proof.
  simpl. repeat constructor; simpl; intuition discriminate.
Qed.

Lemma months_range (name : string) (m : Z) :
  In (name, m) months -> (1 <= m <= 12)%Z /\ name <> "All year".
Proof.
  simpl. intuition (try match goal with
                        | E : (_, _) = (_, _) |- _ => inversion E; subst
                        end; try lia; try discriminate).
Qed.

(** A month name has its number, from 1 to 12; every other option,
    "All year" among them, has 0. *)
Lemma month_name_to_num_spec (name : string) (m : Z) :
  In (name, m) months <-> (month_name_to_num name = m /\ m <> 0%Z).
Proof.
  unfold month_name_to_num. split.
  - intros Hin. destruct (months_range _ _ Hin) as [Hm Hne].
    destruct (String.eqb_spec name "All year") as [-> | _]; [easy |].
    split; [| lia]. apply get_In; [exact months_NoDup | exact Hin].
  - intros [Hget Hm].
    destruct (String.eqb_spec name "All year") as [-> | _]; [congruence |].
    destruct (get_found months name 0%Z) as [Hin | H0]; congruence.
Qed.

(** ** filter_df *)

Lemma keep_only_filter {X : Type} (P : X -> Prop) (p : X -> bool) (l : list X) :
  (forall x, p x = true <-> P x) -> keep_only P l (filter p l).
Proof.
  intros Hp. induction l as [| x l IH]; simpl; [constructor |].
  destruct (p x) eqn:Hx.
  - apply keep_yes; [now apply Hp | exact IH].
  - apply keep_no; [| exact IH]. intros HP. apply Hp in HP. congruence.
Qed.

Lemma mem_In (s : string) (l : list string) : mem s l = true <-> In s l.
Proof.
  unfold mem. rewrite existsb_exists. split.
  - intros [x [Hin Heq]]. apply String.eqb_eq in Heq. now subst.
  - intros Hin. exists s. split; [exact Hin | apply String.eqb_refl].
Qed.

Section FilterFacts.

Context {A : Type} {NumA : Number A} {TxtA : Text A}.

Lemma keeps_selected (y : Z) (month_opt : string) (categories : list string)
    (e : expense A) :
  keeps y month_opt categories e = true <-> selected y month_opt categories e.
Proof.
  unfold keeps, selected. destruct (e_date e) as [d |].
  - rewrite !andb_true_iff, !orb_true_iff, mem_In, !Z.eqb_eq. split.
    + intros [[Hy Hm] Hc]. split.
      * exists d. split; [reflexivity | split; [exact Hy |]].
        intros m Hin. apply month_name_to_num_spec in Hin.
        destruct Hin as [Hn Hm0]. destruct Hm as [Hm | Hm]; congruence.
      * intros Hne. destruct Hc as [Hc | Hc]; [| exact Hc].
        destruct categories; [congruence | discriminate].
    + intros [[d' [Hd [Hy Hm]]] Hc]. inversion Hd; subst d'. clear Hd.
      split; [split; [exact Hy |] |].
      * destruct (Z.eq_dec (month_name_to_num month_opt) 0) as [H0 | H0];
          [now left | right].
        apply Hm. now apply month_name_to_num_spec.
      * destruct categories as [| c cs]; [now left | right].
        apply Hc. discriminate.
  - split; [discriminate |]. intros [[d [Hd _]] _]. discriminate.
Qed.

Lemma empty_table (es : list (expense A)) :
  empty (table es) = is_nil es.
Proof.
  now destruct es.
Qed.

Lemma to_datetime_dates (es : list (expense A)) :
  dates_in_range es ->
  to_datetime (map (fun e => nth 0 (row_of e) NaN) es) = Ok (map e_date es).
Proof.
  intros Hr. apply mapM_map. eapply Forall_impl; [| exact Hr].
  intros e He. simpl. destruct (e_date e) as [d |] eqn:Ed; simpl; [| reflexivity].
  now rewrite (He d Ed).
Qed.

(** What [filter_df] computes on a table of expenses. *)
Lemma filter_df_table (es : list (expense A)) (y : Z) (month_opt : string)
    (categories : list string) :
  dates_in_range es ->
  filter_df (table es) y month_opt categories
  = Ok (table (filter (keeps y month_opt categories) es)).
Proof.
  intros Hr. unfold filter_df. rewrite empty_table.
  destruct es as [| e0 es0]; [reflexivity |].
  simpl is_nil. cbv iota zeta.
  remember (e0 :: es0) as es eqn:Ees. clear Ees e0 es0.
  unfold table.
  rewrite (getcol_map DATA_COLUMNS row_of es "date" 0) by reflexivity.
  unfold rbind at 1. rewrite (to_datetime_dates es Hr). unfold rbind at 1.
  unfold dt_year. rewrite map_map.
  rewrite (setcol_new DATA_COLUMNS row_of _ es "year") by reflexivity.
  rewrite (getcol_map _ _ es "date" 0) by reflexivity. unfold rbind at 1.
  change (map (fun x => nth 0 (row_of x ++ _) NaN) es)
    with (map (fun e => nth 0 (row_of e) NaN) es).
  rewrite (to_datetime_dates es Hr). unfold rbind at 1.
  unfold dt_month. rewrite map_map.
  rewrite (setcol_new _ _ _ es "month") by reflexivity.
  set (row2 := fun x : expense A => (row_of x ++ _) ++ _).
  set (cols2 := (DATA_COLUMNS ++ ["year"]) ++ ["month"]).
  assert (Hdrop : forall l : list (expense A),
             drop (Frame cols2 (map row2 l)) ["year"; "month"]
             = Frame DATA_COLUMNS (map row_of l)).
  { intros l. rewrite drop_map. reflexivity. }
  assert (Hcat : forall l : list (expense A),
             rbind (match categories with
                    | _ :: _ =>
                        rbind (getcol (Frame cols2 (map row2 l)) "category")
                              (fun c => Ok (mask (Frame cols2 (map row2 l))
                                                 (isin c categories)))
                    | [] => Ok (Frame cols2 (map row2 l))
                    end)
                   (fun df2 => Ok (drop df2 ["year"; "month"]))
             = Ok (table (filter (fun e => is_nil categories
                                           || mem (e_category e) categories) l))).
  { intros l. destruct categories as [| c cs].
    - simpl rbind. rewrite Hdrop. unfold table. do 3 f_equal.
      clear. induction l as [| x l IH]; simpl; [reflexivity | f_equal; exact IH].
    - rewrite (getcol_map cols2 row2 l "category" 1) by reflexivity.
      rewrite !rbind_Ok. cbv beta. rewrite isin_map, mask_map, Hdrop.
      reflexivity. }
  rewrite (getcol_map cols2 row2 es "year" 4) by reflexivity.
  rewrite rbind_Ok. cbv beta. rewrite !eq_int_map, !mask_map.
  set (m := month_name_to_num month_opt).
  destruct (m =? 0)%Z eqn:Hm0; simpl negb; cbv iota.
  - rewrite rbind_Ok. cbv beta. rewrite Hcat, filter_filter. unfold table.
    do 3 f_equal. apply filter_ext. intros e. unfold keeps. fold m.
    rewrite Hm0. subst row2. simpl. destruct (e_date e); [| reflexivity].
    now rewrite andb_true_r.
  - rewrite (getcol_map cols2 row2 _ "month" 5) by reflexivity.
    rewrite !rbind_Ok. cbv beta. rewrite eq_int_map, mask_map.
    rewrite Hcat, !filter_filter. unfold table.
    do 3 f_equal. apply filter_ext. intros e. unfold keeps. fold m.
    rewrite Hm0. subst row2. simpl.
    destruct (e_date e); [now rewrite andb_assoc | reflexivity].
Qed.

End FilterFacts.

(** ** filter_df: dates a Timestamp cannot hold *)

Lemma mapM_raise {T U : Type} (f : T -> result U) (l : list T) (x : T) (e : exn) :
  In x l -> f x = Raise e -> exists e', mapM f l = Raise e'.
Proof.
  induction l as [| y l IH]; [contradiction |].
  intros [-> | Hin] Hx; simpl.
  - rewrite Hx. now exists e.
  - destruct (f y) as [v | e0]; simpl; [| now exists e0].
    destruct (IH Hin Hx) as [e' ->]. now exists e'.
Qed.

Section FilterRange.

Context {A : Type} {NumA : Number A} {TxtA : Text A}.

Lemma dates_ok_range (es : list (expense A)) :
  dates_ok es = true <-> dates_in_range es.
Proof.
  unfold dates_ok, dates_in_range. rewrite forallb_forall, Forall_forall.
  split; intros H e Hin.
  - intros d Ed. specialize (H e Hin). now rewrite Ed in H.
  - destruct (e_date e) as [d |] eqn:Ed; [| reflexivity]. now apply (H e Hin).
Qed.

(** Converting the dates of a table again raises as soon as one of them
    is outside the range. *)
Lemma to_datetime_out (es : list (expense A)) :
  dates_ok es = false ->
  to_datetime (map (fun e => nth 0 (row_of e) NaN) es) = Raise ValueError.
Proof.
  change (map (fun e => nth 0 (row_of e) NaN) es)
    with (map (fun e => @date_cell A (e_date e)) es).
  unfold to_datetime. induction es as [| e es IH]; [discriminate |].
  simpl. destruct (e_date e) as [d |]; simpl.
  - destruct (timestamp_ok d); simpl; [| reflexivity].
    intros H. now rewrite (IH H).
  - intros H. now rewrite (IH H).
Qed.

Lemma filter_df_table_out (es : list (expense A)) (y : Z) (month_opt : string)
    (categories : list string) :
  ~ dates_in_range es ->
  filter_df (table es) y month_opt categories = Raise ValueError.
Proof.
  intros Hn.
  assert (Hb : dates_ok es = false).
  { destruct (dates_ok es) eqn:E; [| reflexivity].
    exfalso. apply Hn. now apply dates_ok_range. }
  unfold filter_df. rewrite empty_table.
  destruct es as [| e0 es0]; [discriminate |].
  simpl is_nil. cbv iota zeta. unfold table.
  rewrite (getcol_map DATA_COLUMNS row_of (e0 :: es0) "date" 0) by reflexivity.
  rewrite rbind_Ok. now rewrite (to_datetime_out _ Hb).
Qed.

(** [filter_df] returns on a table exactly when a Timestamp can hold
    every date of the table. *)
Lemma filter_df_returns (es : list (expense A)) (y : Z) (month_opt : string)
    (categories : list string) (df : frame A) :
  filter_df (table es) y month_opt categories = Ok df -> dates_in_range es.
Proof.
  intros Hf. apply dates_ok_range.
  destruct (dates_ok es) eqn:E; [reflexivity |].
  rewrite filter_df_table_out in Hf; [discriminate |].
  intros Hr. apply dates_ok_range in Hr. congruence.
Qed.

End FilterRange.

(** ** Dates *)

Lemma date_eqb_eq (a b : date) : date_eqb a b = true <-> a = b.
Proof.
  destruct a as [ya ma da], b as [yb mb db]. unfold date_eqb. simpl.
  rewrite !andb_true_iff, !Z.eqb_eq. split.
  - intros [[-> ->] ->]. reflexivity.
  - intros E. inversion E. auto.
Qed.

Lemma date_eqb_refl (a : date) : date_eqb a a = true.
Proof.
  now apply date_eqb_eq.
Qed.

Lemma date_ltb_lt (a b : date) :
  date_ltb a b = true
  <-> (year a < year b
       \/ (year a = year b
           /\ (month a < month b \/ (month a = month b /\ day a < day b))))%Z.
Proof.
  unfold date_ltb.
  rewrite !orb_true_iff, !andb_true_iff, !orb_true_iff, !andb_true_iff,
    !Z.ltb_lt, !Z.eqb_eq.
  reflexivity.
Qed.

Lemma date_lt_irrefl (a : date) : ~ date_lt a a.
Proof.
  unfold date_lt. rewrite date_ltb_lt. lia.
Qed.

Lemma date_lt_trans (a b c : date) : date_lt a b -> date_lt b c -> date_lt a c.
Proof.
  unfold date_lt. rewrite !date_ltb_lt. lia.
Qed.

Lemma date_lt_total (a b : date) :
  date_eqb a b = false -> date_ltb a b = false -> date_lt b a.
Proof.
  intros He Hl. unfold date_lt.
  destruct (date_ltb b a) eqn:Hba; [reflexivity | exfalso].
  assert (Hab : ~ (year a < year b
                   \/ (year a = year b
                       /\ (month a < month b
                           \/ (month a = month b /\ day a < day b))))%Z)
    by (rewrite <- date_ltb_lt; congruence).
  assert (Hba' : ~ (year b < year a
                    \/ (year b = year a
                        /\ (month b < month a
                            \/ (month b = month a /\ day b < day a))))%Z)
    by (rewrite <- date_ltb_lt; congruence).
  assert (E : a = b).
  { destruct a, b; simpl in *. f_equal; lia. }
  apply date_eqb_eq in E. congruence.
Qed.

(** ** Sums and groups *)

Section KpiFacts.

Context {A : Type} {NumA : Number A} {TxtA : Text A}.

Lemma series_sum_from_nums {X : Type} (g : X -> A) (l : list X) (acc : A) :
  series_sum_from (map (fun x => Num (g x)) l) acc
  = Ok (fold_left f_add (map g l) acc).
Proof.
  revert acc. induction l as [| x l IH]; intros acc; simpl; [reflexivity |].
  apply IH.
Qed.

Lemma group_sum_rows (l : list (expense A)) (g : list (date * A)) :
  group_sum (map (fun e => (date_cell (e_date e), Num (e_amount e))) l) g
  = Ok (fold_left group_row l g).
Proof.
  revert g. induction l as [| e l IH]; intros g; simpl; [reflexivity |].
  unfold group_row at 2. destruct (e_date e); simpl; apply IH.
Qed.

Lemma group_add_keys (d : date) (x : option A) (g : list (date * A)) (k : date) :
  In k (map fst (group_add d x g)) <-> k = d \/ In k (map fst g).
Proof.
  induction g as [| [k' s] g IH]; simpl.
  - intuition.
  - destruct (date_eqb d k') eqn:He.
    + apply date_eqb_eq in He. subst k'. simpl. intuition.
    + destruct (date_ltb d k'); simpl; [intuition |].
      rewrite IH. intuition.
Qed.

Lemma group_add_sorted (d : date) (x : option A) (g : list (date * A)) :
  StronglySorted date_lt (map fst g) ->
  StronglySorted date_lt (map fst (group_add d x g)).
Proof.
  induction g as [| [k' s] g IH]; simpl; intros Hs.
  - constructor; constructor.
  - destruct (date_eqb d k') eqn:He; [exact Hs |].
    inversion Hs as [| ? ? Hs' Hall]; subst.
    destruct (date_ltb d k') eqn:Hl; simpl.
    + constructor; [exact Hs |]. constructor; [exact Hl |].
      eapply Forall_impl; [| exact Hall]. intros k Hk.
      now apply date_lt_trans with k'.
    + constructor; [now apply IH |]. apply Forall_forall. intros k Hk.
      apply group_add_keys in Hk. destruct Hk as [-> | Hk].
      * now apply date_lt_total.
      * rewrite Forall_forall in Hall. now apply Hall.
Qed.

(** The entry of a date after one more row: the row's amount is added to
    the sum of its date, which starts at zero; the other sums stay. *)
Lemma group_add_values (d : date) (x : option A) (g : list (date * A))
    (k : date) (s : A) :
  StronglySorted date_lt (map fst g) ->
  In (k, s) (group_add d x g) ->
  (k = d /\ ((exists s0, In (d, s0) g /\ s = add_opt s0 x)
             \/ (~ In d (map fst g) /\ s = add_opt f_zero x)))
  \/ (k <> d /\ In (k, s) g).
Proof.
  induction g as [| [k' s'] g IH]; simpl; intros Hs Hin.
  - destruct Hin as [E | []]. inversion E; subst. left. split; [reflexivity |].
    right. split; [tauto | reflexivity].
  - inversion Hs as [| ? ? Hs' Hall]; subst.
    destruct (date_eqb d k') eqn:He.
    + apply date_eqb_eq in He. subst k'. destruct Hin as [E | Hin].
      * inversion E; subst. left. split; [reflexivity |]. left.
        exists s'. split; [now left | reflexivity].
      * right. split; [| now right]. intros ->.
        rewrite Forall_forall in Hall.
        apply (date_lt_irrefl d). apply Hall.
        change d with (fst (d, s)). now apply in_map.
    + assert (Hne : k' <> d).
      { intros ->. rewrite date_eqb_refl in He. discriminate. }
      destruct (date_ltb d k') eqn:Hl.
      * destruct Hin as [E | Hin].
        -- inversion E; subst. left. split; [reflexivity |]. right.
           split; [| reflexivity]. intros [E' | Hin']; [now apply Hne |].
           rewrite Forall_forall in Hall.
           apply (date_lt_irrefl k). apply date_lt_trans with k'; [exact Hl |].
           now apply Hall.
        -- right. split; [| exact Hin]. intros ->.
           destruct Hin as [E | Hin]; [inversion E; now apply Hne |].
           rewrite Forall_forall in Hall.
           apply (date_lt_irrefl d). apply date_lt_trans with k'; [exact Hl |].
           apply Hall. change d with (fst (d, s)). now apply in_map.
      * destruct Hin as [E | Hin].
        -- inversion E; subst. right. split; [exact Hne | now left].
        -- destruct (IH Hs' Hin) as [[-> Hc] | [Hk Hin']].
           ++ left. split; [reflexivity |].
              destruct Hc as [[s0 [H0 Hv]] | [Hn Hv]].
              ** left. exists s0. split; [now right | exact Hv].
              ** right. split; [| exact Hv]. intros [E | Hin']; tauto.
           ++ right. split; [exact Hk | now right].
Qed.

Lemma daily_sum_snoc (p : list (expense A)) (e : expense A) (d : date) :
  daily_sum (p ++ [e]) d
  = if on_day d e then f_add (daily_sum p d) (e_amount e) else daily_sum p d.
Proof.
  unfold daily_sum, sum. rewrite filter_app, map_app, fold_left_app. simpl.
  destruct (on_day d e); simpl; [reflexivity |].
  reflexivity.
Qed.

Lemma daily_sum_none (p : list (expense A)) (d : date) :
  (forall e, In e p -> e_date e <> Some d) -> daily_sum p d = f_zero.
Proof.
  intros Hn. unfold daily_sum.
  replace (filter (on_day d) p) with (@nil (expense A)); [reflexivity |].
  symmetry. induction p as [| e p IH]; simpl; [reflexivity |].
  unfold on_day at 1. destruct (e_date e) as [d' |] eqn:Ed.
  - destruct (date_eqb d' d) eqn:He.
    + apply date_eqb_eq in He. subst d'. exfalso.
      apply (Hn e); [now left | exact Ed].
    + apply IH. intros e' He'. apply Hn. now right.
  - apply IH. intros e' He'. apply Hn. now right.
Qed.

Lemma per_day_nil : per_day [] [].
Proof.
  split; [constructor |]. split.
  - intros d. simpl. split; [contradiction |]. intros [e [[] _]].
  - intros d s [].
Qed.

(** The group-by-sum keeps the per-day sums of the rows it has seen. *)
Lemma per_day_snoc (p : list (expense A)) (g : list (date * A)) (e : expense A) :
  per_day p g -> per_day (p ++ [e]) (group_row g e).
Proof.
  intros [Hs [Hk Hv]]. unfold group_row.
  destruct (e_date e) as [d |] eqn:Ed.
  - split; [now apply group_add_sorted |]. split.
    + intros k. rewrite group_add_keys, Hk. split.
      * intros [-> | [e' [Hin He']]].
        -- exists e. split; [apply in_or_app; right; now left | exact Ed].
        -- exists e'. split; [apply in_or_app; now left | exact He'].
      * intros [e' [Hin He']]. apply in_app_or in Hin.
        destruct Hin as [Hin | [-> | []]].
        -- right. now exists e'.
        -- left. congruence.
    + intros k s Hin. rewrite daily_sum_snoc. unfold on_day. rewrite Ed.
      destruct (group_add_values _ _ _ _ _ Hs Hin) as [[-> Hc] | [Hne Hin']].
      * rewrite date_eqb_refl.
        destruct Hc as [[s0 [H0 ->]] | [Hn ->]]; simpl.
        -- now rewrite (Hv d s0 H0).
        -- rewrite daily_sum_none; [reflexivity |].
           intros e' Hin' He'. apply Hn. apply Hk. now exists e'.
      * destruct (date_eqb d k) eqn:He.
        -- apply date_eqb_eq in He. congruence.
        -- now apply Hv.
  - split; [exact Hs |]. split.
    + intros k. rewrite Hk. split.
      * intros [e' [Hin He']]. exists e'. split; [apply in_or_app; now left | exact He'].
      * intros [e' [Hin He']]. apply in_app_or in Hin.
        destruct Hin as [Hin | [-> | []]]; [now exists e' | congruence].
    + intros k s Hin. rewrite daily_sum_snoc. unfold on_day. rewrite Ed.
      now apply Hv.
Qed.

Lemma per_day_fold (l p : list (expense A)) (g : list (date * A)) :
  per_day p g -> per_day (p ++ l) (fold_left group_row l g).
Proof.
  revert p g. induction l as [| e l IH]; intros p g Hp; simpl.
  - now rewrite app_nil_r.
  - replace (p ++ e :: l) with ((p ++ [e]) ++ l)
      by (now rewrite <- app_assoc).
    apply IH. now apply per_day_snoc.
Qed.

(** What [compute_kpis] computes on a table of expenses that has a row. *)
Lemma compute_kpis_table (es : list (expense A)) :
  es <> [] ->
  compute_kpis (table es)
  = Ok (sum (map e_amount es),
        match fold_left group_row es [] with
        | [] => f_zero
        | _ => mean (map snd (fold_left group_row es []))
        end,
        match fold_left group_row es [] with
        | [] => f_zero
        | _ => maxl (map snd (fold_left group_row es []))
        end,
        f_of_nat (List.length es)).
Proof.
  intros Hne. unfold compute_kpis. rewrite empty_table.
  destruct es as [| e0 es0]; [congruence |]. simpl is_nil. cbv iota.
  remember (e0 :: es0) as es eqn:Ees. clear Ees Hne e0 es0.
  unfold table.
  rewrite (getcol_map DATA_COLUMNS row_of es "amount" 2) by reflexivity.
  rewrite rbind_Ok. cbv beta.
  change (map (fun x => nth 2 (row_of x) NaN) es)
    with (map (fun x => Num (e_amount x)) es).
  unfold series_sum. rewrite series_sum_from_nums, rbind_Ok. cbv beta.
  rewrite (getcol_map DATA_COLUMNS row_of es "date" 0) by reflexivity.
  rewrite rbind_Ok. cbv beta.
  change (map (fun x => nth 0 (row_of x) NaN) es)
    with (map (fun x => @date_cell A (e_date x)) es).
  rewrite combine_map, group_sum_rows, rbind_Ok. cbv beta zeta.
  simpl rows. rewrite length_map. unfold sum.
  destruct (fold_left group_row es []); reflexivity.
Qed.

End KpiFacts.

(** ** The per-day sums are determined by the table *)

Lemma sorted_unique (l1 l2 : list date) :
  StronglySorted date_lt l1 -> StronglySorted date_lt l2 ->
  (forall d, In d l1 <-> In d l2) -> l1 = l2.
Proof.
  intros H1. revert l2. induction H1 as [| x l1 Hs1 IH Hall1]; intros l2 H2 Hin.
  - destruct l2 as [| y l2]; [reflexivity |].
    exfalso. apply (Hin y). now left.
  - destruct H2 as [| y l2 Hs2 Hall2].
    + exfalso. apply (Hin x). now left.
    + rewrite Forall_forall in Hall1, Hall2.
      assert (Exy : x = y).
      { destruct (proj1 (Hin x) (or_introl eq_refl)) as [E | Hx]; [now symmetry |].
        destruct (proj2 (Hin y) (or_introl eq_refl)) as [E | Hy]; [exact E |].
        exfalso. apply (date_lt_irrefl x).
        apply date_lt_trans with y; [now apply Hall1 | now apply Hall2]. }
      subst y. f_equal. apply IH; [exact Hs2 |].
      intros d. split; intros Hd.
      * destruct (proj1 (Hin d) (or_intror Hd)) as [E | Hd']; [| exact Hd'].
        subst d. exfalso. apply (date_lt_irrefl x). now apply Hall1.
      * destruct (proj2 (Hin d) (or_intror Hd)) as [E | Hd']; [| exact Hd'].
        subst d. exfalso. apply (date_lt_irrefl x). now apply Hall2.
Qed.

Section KpiClaims.

Context {A : Type} {NumA : Number A} {TxtA : Text A}.

Lemma per_day_unique (es : list (expense A)) (g g' : list (date * A)) :
  per_day es g -> per_day es g' -> g = g'.
Proof.
  intros [Hs [Hk Hv]] [Hs' [Hk' Hv']].
  assert (Hkeys : map fst g = map fst g').
  { apply sorted_unique; [exact Hs | exact Hs' |].
    intros d. now rewrite Hk, Hk'. }
  clear Hs Hs' Hk Hk'. revert g' Hkeys Hv'.
  induction g as [| [d s] g IH]; intros [| [d' s'] g'] Hkeys Hv'; simpl in Hkeys;
    try discriminate; [reflexivity |].
  inversion Hkeys; subst d'. f_equal.
  - f_equal. rewrite (Hv d s) by now left. symmetry. apply Hv'. now left.
  - apply IH; [| assumption |].
    + intros k x Hin. apply Hv. now right.
    + intros k x Hin. apply Hv'. now right.
Qed.

Lemma per_day_rows (es : list (expense A)) :
  per_day es (fold_left group_row es []).
Proof.
  apply (per_day_fold es [] []). exact per_day_nil.
Qed.

(** A table has a per-day sum exactly when one of its rows has a date. *)
Lemma per_day_nonempty (es : list (expense A)) (g : list (date * A)) :
  per_day es g -> (g <> [] <-> exists e, In e es /\ e_date e <> None).
Proof.
  intros [_ [Hk _]]. split.
  - destruct g as [| [d s] g]; [congruence |]. intros _.
    destruct (proj1 (Hk d) (or_introl eq_refl)) as [e [Hin He]].
    exists e. split; [exact Hin | congruence].
  - intros [e [Hin He]] ->. destruct (e_date e) as [d |] eqn:Ed; [| congruence].
    apply (proj2 (Hk d)). now exists e.
Qed.

End KpiClaims.

(** ** compute_kpis: the three statistics *)

(** C2, as corrected.  With exact arithmetic, for every table of
    expenses with at least one row, [compute_kpis] returns the sum of all
    amounts, the number of rows and, over the per-day sums of the table
    (the rows that have a date, grouped by date): their mean and their
    maximum when there is at least one per-day sum, and 0.0 for both when
    no row has a date. *)
Theorem compute_kpis_statistics (es : list (expense Qc)) :
  es <> [] ->
  exists g,
    per_day es g
    /\ compute_kpis (table es)
       = Ok (sum (map e_amount es),
             match g with [] => f_zero | _ => mean (map snd g) end,
             match g with [] => f_zero | _ => maxl (map snd g) end,
             f_of_nat (List.length es)).
Proof.
  intros Hne. exists (fold_left group_row es []).
  split; [apply per_day_rows | now apply compute_kpis_table].
Qed.

Lemma compute_kpis_statistics_witness :
  exists g,
    per_day january g
    /\ compute_kpis (table january)
       = Ok (sum (map e_amount january),
             match g with [] => f_zero | _ => mean (map snd g) end,
             match g with [] => f_zero | _ => maxl (map snd g) end,
             f_of_nat (List.length january)).
Proof.
  apply (compute_kpis_statistics january). discriminate.
Defined.

(** The statistics of the two days of January: 19 in all, 16 and 3 a day. *)
Example compute_kpis_january :
  shown (compute_kpis (table january)) = Some (19, 19 # 2, 16, 3)%Q.
Proof. vm_compute. reflexivity. Qed.

(** C2, as stated, fails on a table whose only row has no date: there is
    no per-day sum to take the mean or the maximum of (the mean of none is
    NaN in binary64), and [compute_kpis] returns 0.0 for both. *)
Lemma kpis_as_stated_undated :
  match compute_kpis (table undated) with
  | Ok (total, avg_day, max_day, n) =>
      PrimFloat.eqb total (f_of_nat 5) = true
      /\ PrimFloat.eqb avg_day f_zero = true
      /\ PrimFloat.eqb max_day f_zero = true
      /\ PrimFloat.eqb n (f_of_nat 1) = true
  | Raise _ => False
  end
  /\ PrimFloat.is_nan (mean (A := PrimFloat.float) []) = true
  /\ ~ kpis_as_stated undated.
Proof.
  split; [vm_compute; repeat split; reflexivity |].
  split; [vm_compute; reflexivity |].
  intros [g [n [Hp [Hne _]]]].
  apply (per_day_nonempty undated g Hp) in Hne.
  destruct Hne as [e [[<- | []] He]]. now apply He.
Qed.

(** ** compute_kpis: the total and the per-day sums *)

Lemma fold_plus (l : list Qc) (a : Qc) :
  fold_left Qcplus l a = a + fold_left Qcplus l 0.
Proof.
  revert a. induction l as [| x l IH]; intros a; simpl.
  - now rewrite Qcplus_0_r.
  - rewrite (IH (a + x)), (IH (0 + x)). ring.
Qed.

Lemma sum_cons (x : Qc) (l : list Qc) : sum (x :: l) = x + sum l.
Proof.
  unfold sum. simpl. rewrite fold_plus. f_equal. apply Qcplus_0_l.
Qed.

Lemma sum_group_add (d : date) (x : Qc) (g : list (date * Qc)) :
  sum (map snd (group_add d (Some x) g)) = sum (map snd g) + x.
Proof.
  induction g as [| [k s] g IH]; simpl.
  - rewrite sum_cons. unfold sum. simpl. ring.
  - destruct (date_eqb d k); [| destruct (date_ltb d k)]; simpl;
      rewrite ?sum_cons; simpl; rewrite ?sum_cons, ?IH; ring.
Qed.

Lemma sum_group_rows (l : list (expense Qc)) (g : list (date * Qc)) :
  Forall (fun e => e_date e <> None) l ->
  sum (map snd (fold_left group_row l g))
  = sum (map snd g) + sum (map e_amount l).
Proof.
  intros Hl. revert g. induction Hl as [| e l He _ IH]; intros g; simpl.
  - unfold sum at 3. simpl. now rewrite Qcplus_0_r.
  - rewrite IH, sum_cons. unfold group_row.
    destruct (e_date e) as [d |]; [| congruence].
    rewrite sum_group_add. ring.
Qed.

Lemma of_nat_S (n : nat) :
  f_of_nat (A := Qc) (S n) = f_of_nat (A := Qc) n + 1.
Proof.
  apply Qc_is_canon. unfold f_of_nat, Number_Qc, Qcplus, Q2Qc. cbn [this].
  rewrite !Qred_correct, Nat2Z.inj_succ. unfold Z.succ.
  rewrite inject_Z_plus. reflexivity.
Qed.

Lemma of_nat_pos (n : nat) : 0 < f_of_nat (A := Qc) (S n).
Proof.
  induction n as [| n IH].
  - reflexivity.
  - rewrite of_nat_S. apply Qclt_trans with (f_of_nat (A := Qc) (S n));
      [exact IH |].
    apply Qclt_minus_iff.
    replace (f_of_nat (S n) + 1 + - f_of_nat (S n)) with (1 : Qc) by ring.
    reflexivity.
Qed.

Lemma f_leb_le (a b : Qc) : f_leb a b = true <-> a <= b.
Proof.
  apply Qle_bool_iff.
Qed.

Lemma f_max_l (a b : Qc) : a <= f_max a b.
Proof.
  unfold f_max. destruct (f_leb a b) eqn:E.
  - now apply f_leb_le.
  - apply Qcle_refl.
Qed.

Lemma f_max_r (a b : Qc) : b <= f_max a b.
Proof.
  unfold f_max. destruct (f_leb a b) eqn:E.
  - apply Qcle_refl.
  - apply Qclt_le_weak. apply Qcnot_le_lt. intros Hle.
    apply f_leb_le in Hle. congruence.
Qed.

Lemma fold_max_ge (l : list Qc) (a x : Qc) :
  x = a \/ In x l -> x <= fold_left f_max l a.
Proof.
  revert a x. induction l as [| y l IH]; intros a x [-> | Hin]; simpl.
  - apply Qcle_refl.
  - contradiction.
  - apply Qcle_trans with (f_max a y); [apply f_max_l |].
    apply IH. now left.
  - destruct Hin as [-> | Hin].
    + apply Qcle_trans with (f_max a x); [apply f_max_r |].
      apply IH. now left.
    + apply IH. now right.
Qed.

(** The maximum is at least every entry. *)
Lemma maxl_ge (l : list Qc) (x : Qc) : In x l -> x <= maxl l.
Proof.
  destruct l as [| a l]; [contradiction |]. intros [-> | Hin]; simpl.
  - apply fold_max_ge. now left.
  - apply fold_max_ge. now right.
Qed.

Lemma sum_le_bound (l : list Qc) (m : Qc) :
  (forall x, In x l -> x <= m) -> sum l <= m * f_of_nat (List.length l).
Proof.
  induction l as [| x l IH]; intros Hm.
  - unfold sum. simpl. rewrite Qcmult_0_r. apply Qcle_refl.
  - rewrite sum_cons. simpl List.length. rewrite of_nat_S.
    replace (m * (f_of_nat (List.length l) + 1))
      with (m + m * f_of_nat (List.length l)) by ring.
    apply Qcplus_le_compat.
    + apply Hm. now left.
    + apply IH. intros y Hy. apply Hm. now right.
Qed.

(** C10, as corrected.  With exact arithmetic, for every table of expenses
    that has a row and in which every row has a date: the total that
    [compute_kpis] returns is the sum of the per-day sums, the daily
    average times the number of distinct dates is the total, and the daily
    average is at most the daily maximum. *)
Theorem group_by_sum_preserves_total (es : list (expense Qc)) :
  es <> [] ->
  Forall (fun e => e_date e <> None) es ->
  total_preserved es.
Proof.
  intros Hne Hd. set (g := fold_left group_row es []).
  assert (Hp : per_day es g) by apply per_day_rows.
  assert (Hg : g <> []).
  { apply (per_day_nonempty es g Hp). destruct es as [| e es']; [congruence |].
    exists e. split; [now left | now inversion Hd]. }
  assert (Hsum : sum (map e_amount es) = sum (map snd g)).
  { unfold g. rewrite sum_group_rows by exact Hd. unfold sum at 2. simpl.
    now rewrite Qcplus_0_l. }
  assert (Hn : 0 < f_of_nat (A := Qc) (List.length (map snd g))).
  { destruct g as [| p g']; [congruence |]. apply of_nat_pos. }
  assert (Hn0 : f_of_nat (A := Qc) (List.length (map snd g)) <> 0).
  { intros E. rewrite E in Hn. discriminate. }
  assert (Havg : mean (map snd g) * f_of_nat (List.length (map snd g))
                 = sum (map snd g)).
  { unfold mean. change (@f_div Qc _) with Qcdiv.
    rewrite Qcmult_comm. now apply Qcmult_div_r. }
  exists g, (sum (map e_amount es)), (mean (map snd g)), (maxl (map snd g)),
    (f_of_nat (List.length es)).
  split; [exact Hp |]. split.
  - rewrite (compute_kpis_table es Hne). fold g.
    destruct g; [congruence | reflexivity].
  - split; [exact Hsum |]. split.
    + change (@f_mul Qc _) with Qcmult. rewrite Hsum, <- Havg.
      now rewrite length_map.
    + apply f_leb_le.
      apply Qcmult_lt_0_le_reg_r with (f_of_nat (List.length (map snd g)));
        [exact Hn |].
      rewrite Havg. apply sum_le_bound. intros x Hx. now apply maxl_ge.
Qed.

Lemma group_by_sum_preserves_total_witness : total_preserved january.
Proof.
  apply (group_by_sum_preserves_total january).
  - discriminate.
  - repeat constructor; discriminate.
Defined.

(** C10, as stated, fails in binary64: for 29 spent on one day of a week
    and nothing on the six others, the total is 29, the daily average is
    29/7 rounded, and seven times that is not 29. *)
Lemma total_preserved_week :
  match compute_kpis (table week) with
  | Ok (total, avg_day, _, _) =>
      PrimFloat.eqb total (f_of_nat 29) = true
      /\ PrimFloat.eqb avg_day (f_div (f_of_nat 29) (f_of_nat 7)) = true
      /\ PrimFloat.eqb (f_mul avg_day (f_of_nat 7)) total = false
  | Raise _ => False
  end
  /\ ~ total_preserved week.
Proof.
  split; [vm_compute; repeat split; reflexivity |].
  intros [g [total [avg_day [max_day [n [Hp [Hk [_ [Hm _]]]]]]]]].
  assert (Eg : g = fold_left group_row week [])
    by (apply (per_day_unique week); [exact Hp | apply per_day_rows]).
  rewrite (compute_kpis_table week) in Hk by discriminate.
  inversion Hk as [[Ht Ha Hx Hn]]. clear Hk.
  rewrite <- Ht, <- Ha, Eg in Hm.
  apply (f_equal (fun x => PrimFloat.eqb x (sum (map e_amount week)))) in Hm.
  vm_compute in Hm. discriminate.
Qed.

(** In binary64 the daily average can exceed the daily maximum too: for
    0.1 spent on each of three days, the three per-day sums are 0.1 and
    their mean is the next number above 0.1. *)
Lemma total_preserved_dimes :
  match compute_kpis (table dimes) with
  | Ok (_, avg_day, max_day, _) => PrimFloat.ltb max_day avg_day = true
  | Raise _ => False
  end
  /\ ~ total_preserved dimes.
Proof.
  split; [vm_compute; reflexivity |].
  intros [g [total [avg_day [max_day [n [_ [Hk [_ [_ Hl]]]]]]]]].
  rewrite (compute_kpis_table dimes) in Hk by discriminate.
  injection Hk as _ Ha Hx _.
  rewrite <- Ha, <- Hx in Hl. vm_compute in Hl. discriminate.
Qed.

(** C10, as stated, fails as well where a row has no date: its amount is
    in the total and in no per-day sum. *)
Lemma total_preserved_undated :
  match compute_kpis (table undated) with
  | Ok (total, _, _, _) => PrimFloat.eqb total (f_of_nat 5) = true
  | Raise _ => False
  end
  /\ ~ total_preserved undated.
Proof.
  split; [vm_compute; reflexivity |].
  intros [g [total [avg_day [max_day [n [Hp [Hk [Ht _]]]]]]]].
  assert (Eg : g = []).
  { destruct g as [| p g']; [reflexivity | exfalso].
    assert (Hne : p :: g' <> []) by discriminate.
    apply (per_day_nonempty undated _ Hp) in Hne.
    destruct Hne as [e [[<- | []] He]]. now apply He. }
  rewrite (compute_kpis_table undated) in Hk by discriminate.
  injection Hk as Ht' _ _ _. subst g.
  rewrite Ht in Ht'.
  apply (f_equal (fun x => PrimFloat.eqb x f_zero)) in Ht'.
  vm_compute in Ht'. discriminate.
Qed.

(** ** Reading and writing one column *)

Section ColumnFacts.

Context {A : Type}.

Lemma index_of_lt (c : string) (cols : list string) (i : nat) :
  index_of c cols = Some i -> (i < List.length cols)%nat.
Proof.
  revert i. induction cols as [| c' cols IH]; simpl; intros i; [discriminate |].
  destruct (String.eqb c c').
  - intros E. inversion E. lia.
  - destruct (index_of c cols) as [j |]; simpl; [| discriminate].
    intros E. inversion E. specialize (IH j eq_refl). lia.
Qed.

Lemma index_of_inj (c c' : string) (cols : list string) (i : nat) :
  index_of c cols = Some i -> index_of c' cols = Some i -> c = c'.
Proof.
  revert i. induction cols as [| x cols IH]; simpl; intros i; [discriminate |].
  destruct (String.eqb_spec c x) as [-> | Hc], (String.eqb_spec c' x) as [-> | Hc'].
  - reflexivity.
  - intros E. inversion E; subst.
    destruct (index_of c' cols); simpl; discriminate.
  - destruct (index_of c cols); simpl; [| discriminate].
    intros E1 E2. inversion E2; subst. discriminate.
  - destruct (index_of c cols) as [j |]; simpl; [| discriminate].
    destruct (index_of c' cols) as [j' |]; simpl; [| discriminate].
    intros E1 E2. inversion E1 as [Ej]. inversion E2 as [Ej'].
    apply (IH j); [reflexivity | f_equal; lia].
Qed.

Lemma index_of_In (c : string) (cols : list string) :
  In c cols <-> exists i, index_of c cols = Some i.
Proof.
  induction cols as [| x cols IH]; simpl.
  - split; [contradiction | intros [i Hi]; discriminate].
  - destruct (String.eqb_spec c x) as [-> | Hc].
    + split; [intros _; now exists 0%nat | intros _; now left].
    + rewrite IH. split.
      * intros [E | [i Hi]]; [congruence |]. exists (S i). now rewrite Hi.
      * intros [i Hi]. right. destruct (index_of c cols) as [j |]; [| discriminate].
        now exists j.
Qed.

Lemma length_set_nth (i : nat) (v : cell A) (r : list (cell A)) :
  List.length (set_nth i v r) = List.length r.
Proof.
  revert i. induction r as [| x r IH]; intros [| i]; simpl; auto.
Qed.

Lemma nth_set_nth_same (i : nat) (v : cell A) (r : list (cell A)) :
  (i < List.length r)%nat -> nth i (set_nth i v r) NaN = v.
Proof.
  revert i. induction r as [| x r IH]; intros [| i]; simpl; intros Hi;
    try lia; [reflexivity |].
  apply IH. lia.
Qed.

Lemma nth_set_nth_other (i j : nat) (v : cell A) (r : list (cell A)) :
  i <> j -> nth j (set_nth i v r) NaN = nth j r NaN.
Proof.
  revert i j. induction r as [| x r IH]; intros [| i] [| j] Hij; simpl;
    try reflexivity; try congruence.
  apply IH. congruence.
Qed.

Lemma getcol_inv (df : frame A) (c : string) (s : series A) :
  getcol df c = Ok s ->
  exists i, index_of c (columns df) = Some i
            /\ s = map (fun r => nth i r NaN) (rows df).
Proof.
  unfold getcol. destruct (index_of c (columns df)) as [i |]; [| discriminate].
  intros E. inversion E. now exists i.
Qed.

Lemma getcol_length (df : frame A) (c : string) (s : series A) :
  getcol df c = Ok s -> List.length s = List.length (rows df).
Proof.
  intros Hg. destruct (getcol_inv _ _ _ Hg) as [i [_ ->]]. apply length_map.
Qed.

Lemma getcol_In (df : frame A) (c : string) :
  In c (columns df) -> exists s, getcol df c = Ok s.
Proof.
  intros Hin. apply index_of_In in Hin. destruct Hin as [i Hi].
  unfold getcol. rewrite Hi. eauto.
Qed.

Lemma set_rows_length (i : nat) (rs : list (list (cell A))) (s : series A) :
  List.length s = List.length rs ->
  List.length (map (fun rv => set_nth i (snd rv) (fst rv)) (combine rs s))
  = List.length rs.
Proof.
  intros Hl. rewrite length_map, length_combine. lia.
Qed.

Lemma set_rows_same (i : nat) (rs : list (list (cell A))) (s : series A) :
  List.length s = List.length rs ->
  Forall (fun r => (i < List.length r)%nat) rs ->
  map (fun r => nth i r NaN)
      (map (fun rv => set_nth i (snd rv) (fst rv)) (combine rs s)) = s.
Proof.
  intros Hl Hr. revert s Hl.
  induction Hr as [| r rs Hi _ IH]; intros [| v s] Hl; simpl in *;
    try discriminate; [reflexivity |].
  rewrite nth_set_nth_same by exact Hi. f_equal. apply IH. lia.
Qed.

Lemma set_rows_other (i j : nat) (rs : list (list (cell A))) (s : series A) :
  List.length s = List.length rs -> i <> j ->
  map (fun r => nth j r NaN)
      (map (fun rv => set_nth i (snd rv) (fst rv)) (combine rs s))
  = map (fun r => nth j r NaN) rs.
Proof.
  intros Hl Hij. revert s Hl.
  induction rs as [| r rs IH]; intros [| v s] Hl; simpl in *;
    try discriminate; [reflexivity |].
  rewrite nth_set_nth_other by exact Hij. f_equal. apply IH. lia.
Qed.

(** Assigning to a column that exists: the columns and the number of rows
    stay, the column reads back as assigned, the others as before. *)
Lemma setcol_spec (df : frame A) (c : string) (s : series A) (i : nat) :
  index_of c (columns df) = Some i ->
  rect df ->
  List.length s = List.length (rows df) ->
  columns (setcol df c s) = columns df
  /\ rect (setcol df c s)
  /\ List.length (rows (setcol df c s)) = List.length (rows df)
  /\ getcol (setcol df c s) c = Ok s
  /\ (forall c', c' <> c -> getcol (setcol df c s) c' = getcol df c').
Proof.
  intros Hi Hr Hl. unfold setcol. rewrite Hi.
  split; [reflexivity |]. split; [| split; [| split]].
  - unfold rect in *. simpl. apply Forall_forall. intros r Hin.
    apply in_map_iff in Hin. destruct Hin as [[r0 v] [<- Hin]]. simpl.
    rewrite length_set_nth. apply in_combine_l in Hin.
    rewrite Forall_forall in Hr. now apply Hr.
  - simpl. now apply set_rows_length.
  - unfold getcol. simpl. rewrite Hi. f_equal.
    apply set_rows_same; [exact Hl |].
    eapply Forall_impl; [| exact Hr]. intros r Hlen. simpl in Hlen.
    rewrite Hlen. now apply index_of_lt with c.
  - intros c' Hc. unfold getcol. simpl.
    destruct (index_of c' (columns df)) as [j |] eqn:Hj; [| reflexivity].
    f_equal. apply set_rows_other; [exact Hl |].
    intros ->. apply Hc. now apply index_of_inj with (columns df) j.
Qed.

Lemma mapM_inv {T U : Type} (f : T -> result U) (l : list T) (t : list U) :
  mapM f l = Ok t -> Forall2 (fun x y => f x = Ok y) l t.
Proof.
  revert t. induction l as [| x l IH]; simpl; intros t.
  - intros E. inversion E. constructor.
  - destruct (f x) as [y | e] eqn:Hx; simpl; [| discriminate].
    destruct (mapM f l) as [ys | e]; simpl; [| discriminate].
    intros E. inversion E. constructor; [exact Hx | now apply IH].
Qed.

Lemma mapM_total {T U : Type} (f : T -> result U) (l : list T) :
  Forall (fun x => exists y, f x = Ok y) l -> exists t, mapM f l = Ok t.
Proof.
  induction 1 as [| x l [y Hy] _ [t IH]]; simpl.
  - now exists [].
  - rewrite Hy, IH. simpl. now exists (y :: t).
Qed.

Lemma mapM_Forall {T U : Type} (f : T -> result U) (l : list T) (t : list U) :
  mapM f l = Ok t -> Forall (fun x => exists y, f x = Ok y) l.
Proof.
  intros Hm. apply mapM_inv in Hm.
  induction Hm; constructor; eauto.
Qed.

Lemma mapM_length {T U : Type} (f : T -> result U) (l : list T) (t : list U) :
  mapM f l = Ok t -> List.length t = List.length l.
Proof.
  intros Hm. apply mapM_inv in Hm. symmetry. now apply Forall2_length with (1 := Hm).
Qed.

End ColumnFacts.

(** ** The column conversions of load_data *)

Section CoerceFacts.

Context {A : Type} {NumA : Number A} {TxtA : Text A}.

Lemma to_datetime_length (d : series A) (t : list (option date)) :
  to_datetime d = Ok t -> List.length t = List.length d.
Proof.
  apply mapM_length.
Qed.

(** When the conversions go through, the four columns of the result are
    the conversions of the four columns of the frame, and nothing else
    changes. *)
Lemma coerce_inv (raw df : frame A) :
  rect raw ->
  coerce raw = Ok df ->
  exists d t c a n,
    getcol raw "date" = Ok d /\ to_datetime d = Ok t
    /\ getcol raw "category" = Ok c
    /\ getcol raw "amount" = Ok a
    /\ getcol raw "notes" = Ok n
    /\ columns df = columns raw
    /\ rect df
    /\ List.length (rows df) = List.length (rows raw)
    /\ getcol df "date" = Ok (dt_date t)
    /\ getcol df "category" = Ok (astype_str c)
    /\ getcol df "amount" = Ok (fillna (to_numeric a))
    /\ getcol df "notes" = Ok (astype_str n).
Proof.
  intros Hr. unfold coerce.
  destruct (getcol raw "date") as [d | e] eqn:Hd; cbn [rbind]; [| discriminate].
  destruct (to_datetime d) as [t | e] eqn:Ht; cbn [rbind]; [| discriminate].
  destruct (getcol_inv _ _ _ Hd) as [i0 [Hi0 _]].
  assert (Hl0 : List.length (dt_date (A := A) t) = List.length (rows raw)).
  { unfold dt_date. rewrite length_map, (to_datetime_length _ _ Ht).
    now apply getcol_length with "date". }
  destruct (setcol_spec raw "date" (dt_date t) i0 Hi0 Hr Hl0)
    as [Hc1 [Hr1 [Hn1 [Hg1 Ho1]]]].
  set (df1 := setcol raw "date" (dt_date t)) in *.
  destruct (getcol df1 "category") as [c | e] eqn:Hc; cbn [rbind]; [| discriminate].
  destruct (getcol_inv _ _ _ Hc) as [i1 [Hi1 _]].
  assert (Hl1 : List.length (astype_str c) = List.length (rows df1)).
  { unfold astype_str. rewrite length_map. now apply getcol_length with "category". }
  destruct (setcol_spec df1 "category" (astype_str c) i1 Hi1 Hr1 Hl1)
    as [Hc2 [Hr2 [Hn2 [Hg2 Ho2]]]].
  set (df2 := setcol df1 "category" (astype_str c)) in *.
  destruct (getcol df2 "amount") as [a | e] eqn:Ha; cbn [rbind]; [| discriminate].
  destruct (getcol_inv _ _ _ Ha) as [i2 [Hi2 _]].
  assert (Hl2 : List.length (fillna (to_numeric a)) = List.length (rows df2)).
  { unfold fillna, to_numeric. rewrite !length_map.
    now apply getcol_length with "amount". }
  destruct (setcol_spec df2 "amount" (fillna (to_numeric a)) i2 Hi2 Hr2 Hl2)
    as [Hc3 [Hr3 [Hn3 [Hg3 Ho3]]]].
  set (df3 := setcol df2 "amount" (fillna (to_numeric a))) in *.
  destruct (getcol df3 "notes") as [n | e] eqn:Hn; cbn [rbind]; [| discriminate].
  destruct (getcol_inv _ _ _ Hn) as [i3 [Hi3 _]].
  assert (Hl3 : List.length (astype_str n) = List.length (rows df3)).
  { unfold astype_str. rewrite length_map. now apply getcol_length with "notes". }
  destruct (setcol_spec df3 "notes" (astype_str n) i3 Hi3 Hr3 Hl3)
    as [Hc4 [Hr4 [Hn4 [Hg4 Ho4]]]].
  intros E. inversion E; subst df. clear E.
  exists d, t, c, a, n.
  rewrite Ho1 in Hc by discriminate.
  rewrite Ho2, Ho1 in Ha by discriminate.
  rewrite Ho3, Ho2, Ho1 in Hn by discriminate.
  repeat split; try assumption.
  - congruence.
  - congruence.
  - rewrite Ho4, Ho3, Ho2 by discriminate. exact Hg1.
  - rewrite Ho4, Ho3 by discriminate. exact Hg2.
  - rewrite Ho4 by discriminate. exact Hg3.
Qed.

(** The conversions go through as soon as the four columns are there and
    every date converts. *)
Lemma coerce_total (raw : frame A) (d : series A) :
  rect raw ->
  (forall c, In c DATA_COLUMNS -> In c (columns raw)) ->
  getcol raw "date" = Ok d ->
  Forall (fun c => exists o, to_datetime1 c = Ok o) d ->
  exists df, coerce raw = Ok df.
Proof.
  intros Hr Hcols Hd Hconv. unfold coerce. rewrite Hd. cbn [rbind].
  destruct (mapM_total _ _ Hconv) as [t Ht]. unfold to_datetime. rewrite Ht.
  cbn [rbind].
  destruct (getcol_inv _ _ _ Hd) as [i0 [Hi0 _]].
  assert (Hl0 : List.length (dt_date (A := A) t) = List.length (rows raw)).
  { unfold dt_date. rewrite length_map, (mapM_length _ _ _ Ht).
    now apply getcol_length with "date". }
  destruct (setcol_spec raw "date" (dt_date t) i0 Hi0 Hr Hl0)
    as [Hc1 [Hr1 [Hn1 [Hg1 Ho1]]]].
  set (df1 := setcol raw "date" (dt_date t)) in *.
  destruct (getcol_In df1 "category") as [c Hc].
  { rewrite Hc1. apply Hcols. simpl. tauto. }
  rewrite Hc. cbn [rbind].
  destruct (getcol_inv _ _ _ Hc) as [i1 [Hi1 _]].
  assert (Hl1 : List.length (astype_str c) = List.length (rows df1)).
  { unfold astype_str. rewrite length_map. now apply getcol_length with "category". }
  destruct (setcol_spec df1 "category" (astype_str c) i1 Hi1 Hr1 Hl1)
    as [Hc2 [Hr2 [Hn2 [Hg2 Ho2]]]].
  set (df2 := setcol df1 "category" (astype_str c)) in *.
  destruct (getcol_In df2 "amount") as [a Ha].
  { rewrite Hc2, Hc1. apply Hcols. simpl. tauto. }
  rewrite Ha. cbn [rbind].
  destruct (getcol_inv _ _ _ Ha) as [i2 [Hi2 _]].
  assert (Hl2 : List.length (fillna (to_numeric a)) = List.length (rows df2)).
  { unfold fillna, to_numeric. rewrite !length_map.
    now apply getcol_length with "amount". }
  destruct (setcol_spec df2 "amount" (fillna (to_numeric a)) i2 Hi2 Hr2 Hl2)
    as [Hc3 [Hr3 [Hn3 [Hg3 Ho3]]]].
  set (df3 := setcol df2 "amount" (fillna (to_numeric a))) in *.
  destruct (getcol_In df3 "notes") as [n Hn].
  { rewrite Hc3, Hc2, Hc1. apply Hcols. simpl. tauto. }
  rewrite Hn. cbn [rbind]. eauto.
Qed.

End CoerceFacts.

(** ** read_csv and load_data *)

Section LoadFacts.

Context {A : Type} {NumA : Number A} {TxtA : Text A}.

Lemma nth_map_seq {T : Type} (g : nat -> T) (n j : nat) (d : T) :
  (j < n)%nat -> nth j (map g (seq 0 n)) d = g j.
Proof.
  intros Hj. rewrite (nth_indep _ d (g 0%nat)) by now rewrite length_map, length_seq.
  rewrite map_nth, seq_nth by exact Hj. reflexivity.
Qed.

(** What [read_csv] makes of a file that parses. *)
Lemma parse_inv (f : csv) (raw : frame A) :
  parse f = Ok raw ->
  header f <> []
  /\ raw = Frame (header f)
             (map (fun r =>
                     map (fun j =>
                            read_cell
                              (infer (column_fields (records f) (j + leading f)))
                              (nth (j + leading f) r ""))
                         (seq 0 (List.length (header f))))
                  (records f)).
Proof.
  unfold parse. destruct (header f) as [| h hs] eqn:Hh; [discriminate |].
  cbv zeta. destruct (forallb _ (records f)); [| discriminate].
  intros E. inversion E. split; [discriminate | reflexivity].
Qed.

(** A file whose first record is no longer than the header has no index
    fields: its columns are read from the positions of the header. *)
Lemma parse_aligned (f : csv) :
  leading f = 0%nat ->
  parse (A := A) f
  = match header f with
    | [] => Raise EmptyDataError
    | _ =>
        if forallb (fun r => (List.length r <=? List.length (header f))%nat)
                   (records f)
        then
          Ok (Frame (header f)
                (map (fun r =>
                        map (fun j =>
                               read_cell (infer (column_fields (records f) j))
                                         (nth j r ""))
                            (seq 0 (List.length (header f))))
                     (records f)))
        else Raise ParserError
    end.
Proof.
  intros Hk. unfold parse. rewrite Hk. destruct (header f) as [| h hs];
    [reflexivity |].
  cbv zeta. rewrite Nat.add_0_r.
  destruct (forallb _ (records f)); [| reflexivity].
  do 2 f_equal. apply map_ext. intros r. apply map_ext. intros j.
  now rewrite Nat.add_0_r.
Qed.

Lemma leading_short (f : csv) :
  Forall (fun r => (List.length r <= List.length (header f))%nat) (records f) ->
  leading f = 0%nat.
Proof.
  unfold leading. destruct (records f) as [| r rs]; [reflexivity |].
  intros H. inversion H; subst. lia.
Qed.

Lemma parse_rect (f : csv) (raw : frame A) : parse f = Ok raw -> rect raw.
Proof.
  intros Hp. destruct (parse_inv _ _ Hp) as [_ ->]. unfold rect. simpl.
  apply Forall_forall. intros r Hin. apply in_map_iff in Hin.
  destruct Hin as [r0 [<- _]]. now rewrite length_map, length_seq.
Qed.

Lemma parse_columns (f : csv) (raw : frame A) :
  parse f = Ok raw -> columns raw = header f.
Proof.
  intros Hp. now destruct (parse_inv _ _ Hp) as [_ ->].
Qed.

Lemma parse_rows (f : csv) (raw : frame A) :
  parse f = Ok raw -> List.length (rows raw) = List.length (records f).
Proof.
  intros Hp. destruct (parse_inv _ _ Hp) as [_ ->]. simpl. apply length_map.
Qed.

Lemma parse_empty (f : csv) (raw : frame A) :
  parse f = Ok raw -> (empty raw = true <-> records f = []).
Proof.
  intros Hp. destruct (parse_inv _ _ Hp) as [Hh ->]. unfold empty. simpl.
  destruct (header f); [congruence |].
  destruct (records f); simpl; split; congruence.
Qed.

Lemma parse_getcol (f : csv) (raw : frame A) (c : string) (j : nat) :
  parse f = Ok raw ->
  index_of c (header f) = Some j ->
  getcol raw c
  = Ok (map (fun r =>
               read_cell (infer (column_fields (records f) (j + leading f)))
                         (nth (j + leading f) r ""))
            (records f)).
Proof.
  intros Hp Hj. destruct (parse_inv _ _ Hp) as [_ ->].
  rewrite (getcol_map _ _ _ c j) by exact Hj. f_equal.
  apply map_ext. intros r.
  apply (nth_map_seq
           (fun j => read_cell
                       (infer (column_fields (records f) (j + leading f)))
                       (nth (j + leading f) r ""))).
  now apply index_of_lt with c.
Qed.

(** [load_data] leaves the file it read, which is the data file or the
    one [init_data] created; it raises when the file does not parse and,
    when the file has a record, when a conversion raises. *)
Lemma load_data_unfold (s : store) :
  load_data s
  = (match parse (opened s) with
     | Ok raw => if negb (empty raw) then coerce raw else Ok raw
     | Raise e => Raise e
     end, Some (opened s)).
Proof.
  unfold load_data, bind, init_data, read_csv, bind, path_exists, read_file,
    to_csv, write_file, lift, ret.
  destruct s as [f |]; simpl.
  - destruct (parse f) as [raw | e]; [| reflexivity].
    now destruct (empty raw).
  - reflexivity.
Qed.

Lemma load_data_inv (s : store) (df : frame A) (s' : store) :
  load_data s = (Ok df, s') ->
  s' = Some (opened s)
  /\ exists raw,
       parse (opened s) = Ok raw
       /\ ((empty raw = true /\ df = raw)
           \/ (empty raw = false /\ coerce raw = Ok df)).
Proof.
  rewrite load_data_unfold. intros E.
  assert (Hs : s' = Some (opened s)) by congruence.
  split; [exact Hs |].
  destruct (parse (opened s)) as [raw | e]; [| discriminate].
  exists raw. split; [reflexivity |].
  destruct (empty raw); simpl in E; [left | right]; split; congruence.
Qed.

(** What [load_data] returns has one cell per column in every row. *)
Lemma load_data_rect (s : store) (df : frame A) (s' : store) :
  load_data s = (Ok df, s') -> rect df /\ columns df = header (opened s).
Proof.
  intros Hl. destruct (load_data_inv _ _ _ Hl) as [_ [raw [Hp Hc]]].
  pose proof (parse_rect _ _ Hp) as Hr.
  pose proof (parse_columns _ _ Hp) as Hcols.
  destruct Hc as [[_ ->] | [_ Hc]]; [now split |].
  destruct (coerce_inv _ _ Hr Hc) as [d [t [c [a [n H]]]]].
  decompose [and] H. split; [assumption | congruence].
Qed.

Lemma fillna_to_numeric_read (t : dtype) (s : string) :
  is_num (fillna1 (to_numeric1 (read_cell t s))).
Proof.
  unfold read_cell, is_num.
  destruct (na_value s); simpl; [eauto |].
  destruct t; simpl.
  - destruct (csv_number s); simpl; eauto.
  - destruct (csv_bool s); simpl; eauto.
  - destruct (to_numeric_str s); simpl; eauto.
Qed.

Lemma infer_object (fields : list string) (t : string) :
  In t fields -> na_value t = false ->
  csv_number t = None -> csv_bool t = None ->
  infer fields = ObjectCol.
Proof.
  intros Hin Hna Hn Hb. unfold infer.
  assert (Hp : In t (filter (fun s => negb (na_value s)) fields)).
  { apply filter_In. split; [exact Hin | now rewrite Hna]. }
  destruct (forallb (fun s => is_some (csv_number s)) _) eqn:E1.
  { rewrite forallb_forall in E1. specialize (E1 t Hp). rewrite Hn in E1.
    discriminate. }
  destruct (forallb (fun s => is_some (csv_bool s)) _) eqn:E2.
  { rewrite forallb_forall in E2. specialize (E2 t Hp). rewrite Hb in E2.
    discriminate. }
  reflexivity.
Qed.



End LoadFacts.

(** ** load_data: the amounts *)



(** The amounts of the example: 12.5, and zero for "n/a" and for "abc". *)
Example load_data_ledger : numbers ledger_amounts = [Some (25 # 2); Some 0; Some 0]%Q.
Proof. vm_compute. reflexivity. Qed.

(** ** load_data: what it absorbs and what makes it raise *)

Section FailureFacts.

Context {A : Type} {NumA : Number A} {TxtA : Text A}.

(** A file with a header and no record gives the frame of its columns,
    without a row. *)
Lemma load_data_header_only (f : csv) :
  header f <> [] -> records f = [] ->
  load_data (A := A) (Some f) = (Ok (Frame (header f) []), Some f).
Proof.
  intros Hh Hr. rewrite load_data_unfold. cbn [opened].
  unfold parse, leading. rewrite Hr.
  destruct (header f) as [| h hs]; [congruence | reflexivity].
Qed.

(** A file of the four columns parses when no record has more than four
    fields. *)
Lemma parse_short (f : csv) :
  header f = DATA_COLUMNS ->
  Forall (fun r => (List.length r <= 4)%nat) (records f) ->
  leading f = 0%nat /\ exists raw : frame A, parse f = Ok raw.
Proof.
  intros Hh Hr.
  assert (Hk : leading f = 0%nat) by (apply leading_short; now rewrite Hh).
  split; [exact Hk |]. rewrite (parse_aligned f Hk), Hh.
  change (List.length DATA_COLUMNS) with 4%nat.
  replace (forallb (fun r => (List.length r <=? 4)%nat) (records f)) with true.
  - unfold DATA_COLUMNS. eauto.
  - symmetry. apply forallb_forall. intros r Hin.
    rewrite Forall_forall in Hr. apply Nat.leb_le. now apply Hr.
Qed.

(** Whatever the amounts, the categories and the notes, [load_data]
    returns on a file of the four columns whose records have at most four
    fields and whose date fields are missing or written as the program
    writes them. *)
Lemma load_data_absorbs (f : csv) :
  header f = DATA_COLUMNS ->
  Forall (fun r => (List.length r <= 4)%nat /\ date_text (nth 0 r ""))
         (records f) ->
  exists df : frame A,
    fst (load_data (Some f)) = Ok df
    /\ List.length (rows df) = List.length (records f).
Proof.
  intros Hh Hrec.
  assert (Hlen : Forall (fun r => (List.length r <= 4)%nat) (records f))
    by (eapply Forall_impl; [| exact Hrec]; now intros r [Hl _]).
  destruct (parse_short f Hh Hlen) as [Hk [raw Hp]].
  rewrite load_data_unfold. cbn [opened fst]. rewrite Hp.
  destruct (empty raw) eqn:He; simpl negb; cbv iota.
  { exists raw. split; [reflexivity | now apply parse_rows]. }
  assert (Hd : getcol raw "date"
               = Ok (map (fun r => read_cell (infer (column_fields (records f) 0))
                                             (nth 0 r ""))
                         (records f))).
  { rewrite (parse_getcol _ _ "date" 0 Hp) by (now rewrite Hh).
    now rewrite Hk. }
  assert (Hco : exists df, coerce raw = Ok df).
  { eapply coerce_total; [exact (parse_rect _ _ Hp) | | exact Hd |].
    - intros c Hc. now rewrite (parse_columns _ _ Hp), Hh.
    - apply Forall_forall. intros c Hc. apply in_map_iff in Hc.
      destruct Hc as [r [<- Hin]]. rewrite Forall_forall in Hrec.
      destruct (Hrec r Hin) as [_ [Hna | [d [E [[Hna [Hn Hb]] Ht]]]]].
      + exists None. unfold read_cell. now rewrite Hna.
      + exists (Some d).
        rewrite (infer_object (column_fields (records f) 0) (nth 0 r ""));
          [| unfold column_fields;
             now apply (in_map (fun r0 : list string => nth 0 r0 ""))
           | rewrite E; assumption ..].
        unfold read_cell. rewrite E, Hna. simpl. now rewrite Ht. }
  destruct Hco as [df Hco]. exists df. split; [exact Hco |].
  destruct (coerce_inv _ _ (parse_rect _ _ Hp) Hco) as [d [t [c [a [n H]]]]].
  decompose [and] H. rewrite <- (parse_rows _ _ Hp). assumption.
Qed.

(** A file that has a record and lacks one of the four columns makes
    [load_data] raise. *)
Lemma load_data_missing_column (f : csv) (c : string) :
  records f <> [] -> In c DATA_COLUMNS -> ~ In c (header f) ->
  exists e, fst (load_data (A := A) (Some f)) = Raise e.
Proof.
  intros Hr Hc Hn. rewrite load_data_unfold. cbn [opened fst].
  destruct (parse f) as [raw | e] eqn:Hp; [| now exists e].
  destruct (empty raw) eqn:He.
  { apply (parse_empty _ _ Hp) in He. contradiction. }
  simpl negb. cbv iota.
  destruct (coerce raw) as [df | e] eqn:Hco; [| now exists e].
  exfalso. apply Hn.
  destruct (coerce_inv _ _ (parse_rect _ _ Hp) Hco) as [d [t [c0 [a [n H]]]]].
  decompose [and] H. clear H. rewrite <- (parse_columns _ _ Hp).
  apply index_of_In. simpl in Hc.
  destruct Hc as [<- | [<- | [<- | [<- | []]]]];
    match goal with
    | G : getcol raw ?k = Ok _ |- exists i, index_of ?k _ = _ =>
        destruct (getcol_inv _ _ _ G) as [i [Hi _]]; now exists i
    end.
Qed.

(** A date field that is a text [pd.to_datetime] does not convert makes
    [load_data] raise. *)
Lemma load_data_date_raises (f : csv) (j : nat) (r : list string) :
  index_of "date" (header f) = Some j ->
  In r (records f) ->
  plain (nth (j + leading f) r "") ->
  to_datetime_str (nth (j + leading f) r "") = None ->
  exists e, fst (load_data (A := A) (Some f)) = Raise e.
Proof.
  intros Hj Hin [Hna [Hn Hb]] Ht. rewrite load_data_unfold. cbn [opened fst].
  destruct (parse f) as [raw | e] eqn:Hp; [| now exists e].
  destruct (empty raw) eqn:He.
  { apply (parse_empty _ _ Hp) in He. rewrite He in Hin. contradiction. }
  simpl negb. cbv iota. unfold coerce.
  rewrite (parse_getcol _ _ "date" j Hp Hj), rbind_Ok.
  set (t := nth (j + leading f) r "") in *.
  destruct (mapM_raise to_datetime1
              (map (fun r0 => read_cell
                                (infer (column_fields (records f) (j + leading f)))
                                (nth (j + leading f) r0 ""))
                   (records f))
              (Str t) ValueError) as [e He'].
  - apply in_map_iff. exists r. split; [| exact Hin]. fold t.
    rewrite (infer_object (column_fields (records f) (j + leading f)) t);
      [| unfold column_fields, t;
         now apply (in_map (fun r0 : list string => nth (j + leading f) r0 ""))
       | assumption ..].
    unfold read_cell. now rewrite Hna.
  - simpl. now rewrite Ht.
  - unfold to_datetime. rewrite He'. now exists e.
Qed.

End FailureFacts.

(** C4, as corrected.  When the data file does not exist, [load_data]
    creates an empty four-column file and returns the empty table of these
    four columns.  When the file exists, [load_data] leaves it as it is,
    and it absorbs some malformed input and raises on other.  It returns
    a table, with a row for every record: on a file with a header and no
    record; and on a file of the four columns whose records have at most
    four fields and whose date fields are missing or dates as the program
    writes them, whatever the amounts, the categories and the notes.  It
    raises: on a file without a header; on a file that has a record and
    whose header lacks one of the four columns; and on a file with a
    record whose date field is a text -- no missing-value marker, and
    nothing that reads as a number or a boolean -- that does not
    convert. *)
Theorem load_data_failures {A : Type} {NumA : Number A} {TxtA : Text A} :
  load_data (A := A) None
  = (Ok (Frame DATA_COLUMNS []), Some (Csv DATA_COLUMNS []))
  /\ (forall f, snd (load_data (A := A) (Some f)) = Some f)
  /\ (forall f,
        header f <> [] -> records f = [] ->
        fst (load_data (A := A) (Some f)) = Ok (Frame (header f) []))
  /\ (forall f,
        header f = DATA_COLUMNS ->
        Forall (fun r => (List.length r <= 4)%nat /\ date_text (nth 0 r ""))
               (records f) ->
        exists df : frame A,
          fst (load_data (Some f)) = Ok df
          /\ List.length (rows df) = List.length (records f))
  /\ (forall f,
        header f = [] ->
        fst (load_data (A := A) (Some f)) = Raise EmptyDataError)
  /\ (forall f c,
        records f <> [] -> In c DATA_COLUMNS -> ~ In c (header f) ->
        exists e, fst (load_data (A := A) (Some f)) = Raise e)
  /\ (forall f j r,
        index_of "date" (header f) = Some j ->
        In r (records f) ->
        plain (nth (j + leading f) r "") ->
        to_datetime_str (nth (j + leading f) r "") = None ->
        exists e, fst (load_data (A := A) (Some f)) = Raise e).
Proof.
  split; [reflexivity |].
  split; [intros f; now rewrite load_data_unfold |].
  split; [intros f Hh Hr; now rewrite (load_data_header_only f Hh Hr) |].
  split; [exact load_data_absorbs |].
  split.
  { intros f Hh. rewrite load_data_unfold. cbn [opened fst]. unfold parse.
    now rewrite Hh. }
  split; [exact load_data_missing_column | exact load_data_date_raises].
Qed.

(** C4, as stated, fails on a file with a date that is no date:
    [load_data] raises. *)
Lemma load_data_bad_date :
  load_data (A := Qc) (Some bad_date) = (Raise ValueError, Some bad_date)
  /\ ~ (exists df s', load_data (A := Qc) (Some bad_date) = (Ok df, s')).
Proof.
  assert (E : load_data (A := Qc) (Some bad_date)
              = (Raise ValueError, Some bad_date))
    by (vm_compute; reflexivity).
  split; [exact E |]. intros [df [s' H]]. rewrite E in H. discriminate.
Qed.

(** The first record of this file has a field more than the header: the
    first field of every record is taken as the index, and the second
    record, which is short of its notes, is completed. *)
Example load_data_indexed :
  match fst (load_data (A := Qc) (Some indexed)) with
  | Ok df => map (map str) (rows df)
  | Raise _ => []
  end
  = [["2024-01-05"; "Food"; "12.5"; "lunch"];
     ["2024-01-06"; "Transport"; "3.0"; "nan"]].
Proof. vm_compute. reflexivity. Qed.

(** A date of the year 99 and an amount with a zero after the point, as
    they are written. *)
Example isoformat_repr_padded :
  isoformat (Date 99 1 2) = "0099-01-02"
  /\ repr_num (amt 1001 1000) = "1.001".
Proof. split; vm_compute; reflexivity. Qed.

(** ** The pipeline: two runs *)

Section PipelineFacts.

Context {A : Type} {NumA : Number A} {TxtA : Text A}.

Lemma opened_opened (s : store) : opened (Some (opened s)) = opened s.
Proof. reflexivity. Qed.

Lemma dashboard_unfold (y : Z) (month_opt : string) (categories : list string)
    (s : store) :
  dashboard (A := A) y month_opt categories s
  = (rbind (fst (load_data s))
           (fun df_all =>
              rbind (filter_df df_all y month_opt categories)
                    (fun df_filtered =>
                       rbind (compute_kpis df_filtered)
                             (fun kpis => Ok (df_filtered, kpis)))),
     Some (opened s)).
Proof.
  unfold dashboard, bind, lift, ret. rewrite load_data_unfold. simpl fst.
  destruct (match parse (opened s) with
            | Ok raw => if negb (empty raw) then coerce raw else Ok raw
            | Raise e => Raise e
            end) as [df | e]; simpl; [| reflexivity].
  destruct (filter_df df y month_opt categories) as [df' | e]; simpl;
    [| reflexivity].
  destruct (compute_kpis df') as [k | e]; reflexivity.
Qed.

End PipelineFacts.

(** A run of the pipeline -- [load_data], [filter_df], [compute_kpis] --
    returns what it returns on the file it opens (the data file, or the
    empty file of four columns when there is none), and a second run with
    the same selections, started where the first one ended, returns the
    same and leaves the same file: the one effect of a run is that
    [init_data] creates the file when there is none. *)
Lemma dashboard_repeatable {A : Type} {NumA : Number A} {TxtA : Text A}
    (y : Z) (month_opt : string) (categories : list string) (s : store) :
  dashboard (A := A) y month_opt categories s
  = dashboard y month_opt categories (Some (opened s))
  /\ dashboard (A := A) y month_opt categories
               (snd (dashboard (A := A) y month_opt categories s))
     = dashboard y month_opt categories s.
Proof.
  rewrite !dashboard_unfold. simpl snd. rewrite !opened_opened.
  rewrite !load_data_unfold. rewrite !opened_opened. split; reflexivity.
Qed.

(** ** The add-expense form *)

Lemma lstrip_whitespace (s : string) :
  if whitespace_only s then lstrip s = EmptyString
  else exists c s', lstrip s = String c s' /\ isspace c = false.
Proof.
  induction s as [| c s IH]; simpl; [reflexivity |].
  destruct (isspace c) eqn:Hc; simpl.
  - exact IH.
  - now exists c, s.
Qed.

Lemma rstrip_nonempty (c : ascii) (s : string) :
  isspace c = false -> rstrip (String c s) <> EmptyString.
Proof.
  intros Hc. simpl. destruct (rstrip s); [rewrite Hc |]; discriminate.
Qed.

(** [s.strip()] is empty exactly when [s] is empty or made of whitespace. *)
Lemma truthy_strip (s : string) : truthy (strip s) = negb (whitespace_only s).
Proof.
  unfold strip. pose proof (lstrip_whitespace s) as H.
  destruct (whitespace_only s); simpl.
  - now rewrite H.
  - destruct H as [c [s' [-> Hc]]].
    pose proof (rstrip_nonempty c s' Hc) as Hne.
    destruct (rstrip (String c s')); [congruence | reflexivity].
Qed.

Section FormFacts.

Context {A : Type} {NumA : Number A} {TxtA : Text A}.

Lemma reindex_four (r : list (cell A)) :
  List.length r = 4%nat -> reindex DATA_COLUMNS DATA_COLUMNS r = r.
Proof.
  destruct r as [| a [| b [| c [| d [| e r]]]]]; simpl; try discriminate.
  reflexivity.
Qed.

Lemma concat_four (df : frame A) (d : date) (cat : string) (amt : A)
    (note : string) :
  columns df = DATA_COLUMNS ->
  rect df ->
  concat df (frame_of_dict (new_row d cat amt note))
  = Frame DATA_COLUMNS (rows df ++ [map snd (new_row d cat amt note)]).
Proof.
  intros Hc Hr. unfold concat. rewrite Hc. simpl. f_equal. f_equal.
  unfold rect in Hr. rewrite Hc in Hr.
  induction Hr as [| r rs Hlen _ IH]; simpl; [reflexivity |].
  rewrite IH. f_equal. now apply reindex_four.
Qed.

Lemma new_row_fields (d : date) (cat : string) (amt : A) (note : string) :
  map field (map snd (new_row d cat amt note)) = new_record d cat amt note.
Proof.
  unfold new_row, new_record. simpl. rewrite truthy_strip.
  now destruct (whitespace_only cat).
Qed.

Lemma four_columns_opened (s : store) :
  four_columns s ->
  header (opened s) = DATA_COLUMNS
  /\ Forall (fun r => List.length r = 4%nat) (records (opened s)).
Proof.
  destruct s as [f |]; simpl; [tauto |]. intros _. split; [reflexivity | constructor].
Qed.

Lemma add_expense_unfold (d : date) (cat : string) (amt : A) (note : string)
    (s : store) :
  add_expense d cat amt note s
  = match fst (load_data s) with
    | Ok df =>
        let df' := concat df (frame_of_dict (new_row d cat amt note)) in
        (Ok tt, Some (Csv (columns df') (map (map field) (rows df'))))
    | Raise e => (Raise e, Some (opened s))
    end.
Proof.
  unfold add_expense, bind. rewrite load_data_unfold. simpl fst.
  destruct (match parse (opened s) with
            | Ok raw => if negb (empty raw) then coerce raw else Ok raw
            | Raise e => Raise e
            end); reflexivity.
Qed.

Lemma load_data_four (s : store) (df : frame A) (s' : store) :
  four_columns s ->
  load_data s = (Ok df, s') ->
  columns df = DATA_COLUMNS /\ rect df
  /\ List.length (rows df) = List.length (records (opened s)).
Proof.
  intros Hf Hl. destruct (four_columns_opened s Hf) as [Hh _].
  destruct (load_data_rect _ _ _ Hl) as [Hr Hc].
  split; [congruence |]. split; [exact Hr |].
  destruct (load_data_inv _ _ _ Hl) as [_ [raw [Hp Hcase]]].
  rewrite <- (parse_rows _ _ Hp).
  destruct Hcase as [[_ ->] | [_ Hco]]; [reflexivity |].
  destruct (coerce_inv _ _ (parse_rect _ _ Hp) Hco) as [? [? [? [? [? H]]]]].
  tauto.
Qed.

End FormFacts.

(** What submitting the form leaves in a file of four columns. *)
Lemma add_expense_result {A : Type} {NumA : Number A} {TxtA : Text A}
    (d : date) (cat : string) (amt : A) (note : string) (s : store) :
  four_columns s ->
  match fst (load_data s) with
  | Ok df =>
      List.length (rows df) = List.length (records (opened s))
      /\ add_expense d cat amt note s
         = (Ok tt,
            Some (Csv DATA_COLUMNS
                      (map (map field) (rows df)
                       ++ [new_record d cat amt note])))
  | Raise e => add_expense d cat amt note s = (Raise e, Some (opened s))
  end.
Proof.
  intros Hf. rewrite add_expense_unfold.
  destruct (fst (load_data s)) as [df | e] eqn:Hl; [| reflexivity].
  assert (Hl' : load_data s = (Ok df, snd (load_data s)))
    by (rewrite <- Hl; now destruct (load_data s)).
  destruct (load_data_four _ _ _ Hf Hl') as [Hc [Hr Hn]].
  split; [exact Hn |].
  cbv zeta. rewrite (concat_four df d cat amt note Hc Hr). simpl columns.
  simpl rows. now rewrite map_app, <- new_row_fields.
Qed.

(** C8, as corrected.  On a data file with the four columns, submitting
    the form raises and appends nothing when [load_data] raises; otherwise
    it rewrites the file with the rows of the table [load_data] returned --
    one for each record the file had, in the converted form [load_data]
    gives them, which need not be the text that was stored -- followed by
    exactly one new record: the entered date, the entered category, or
    "Uncategorized" when that is empty or made of whitespace, the entered
    amount and the entered notes. *)
Theorem add_expense_appends {A : Type} {NumA : Number A} {TxtA : Text A}
    (d : date) (cat : string) (amt : A) (note : string) (s : store) :
  four_columns s ->
  match fst (load_data s) with
  | Ok df =>
      List.length (rows df) = List.length (records (opened s))
      /\ add_expense d cat amt note s
         = (Ok tt,
            Some (Csv DATA_COLUMNS
                      (map (map field) (rows df)
                       ++ [new_record d cat amt note])))
  | Raise e => add_expense d cat amt note s = (Raise e, Some (opened s))
  end.
Proof.
  apply add_expense_result.
Qed.

Lemma add_expense_appends_witness :
  match fst (load_data (Some ledger)) with
  | Ok df =>
      List.length (rows df) = List.length (records (opened (Some ledger)))
      /\ add_expense (Date 2024 1 8) "  " (amt 3 1) "bus" (Some ledger)
         = (Ok tt,
            Some (Csv DATA_COLUMNS
                      (map (map field) (rows df)
                       ++ [new_record (Date 2024 1 8) "  " (amt 3 1) "bus"])))
  | Raise e =>
      add_expense (Date 2024 1 8) "  " (amt 3 1) "bus" (Some ledger)
      = (Raise e, Some (opened (Some ledger)))
  end.
Proof.
  apply (add_expense_appends (Date 2024 1 8) "  " (amt 3 1) "bus" (Some ledger)).
  split; [reflexivity | repeat constructor].
Defined.

(** The file of the example after the form is submitted: the amounts that
    were "n/a" and "abc" are stored as 0.0, and the new record has the
    category "Uncategorized". *)
Example add_expense_ledger :
  snd (add_expense (Date 2024 1 8) "  " (amt 3 1) "bus" (Some ledger))
  = Some (Csv DATA_COLUMNS
              [["2024-01-05"; "Food"; "12.5"; "lunch"];
               ["2024-01-06"; "Transport"; "0.0"; "bus"];
               ["2024-01-07"; "Rent"; "0.0"; "flat"];
               ["2024-01-08"; "Uncategorized"; "3.0"; "bus"]]).
Proof. vm_compute. reflexivity. Qed.

(** C8, as stated, fails on the file a first expense with empty notes
    leaves: submitting the form again stores "nan" as the notes of that
    first record. *)
Lemma appends_unchanged_first_entry :
  snd (add_expense (Date 2024 1 5) "Food" (amt 25 2) "" None) = Some first_entry
  /\ snd (add_expense (Date 2024 1 6) "Transport" (amt 3 1) "bus" (Some first_entry))
     = Some (Csv DATA_COLUMNS
                 [["2024-01-05"; "Food"; "12.5"; "nan"];
                  ["2024-01-06"; "Transport"; "3.0"; "bus"]])
  /\ ~ appends_unchanged first_entry (Date 2024 1 6) "Transport" (amt 3 1) "bus".
Proof.
  split; [vm_compute; reflexivity |].
  assert (E : snd (add_expense (Date 2024 1 6) "Transport" (amt 3 1) "bus"
                               (Some first_entry))
              = Some (Csv DATA_COLUMNS
                          [["2024-01-05"; "Food"; "12.5"; "nan"];
                           ["2024-01-06"; "Transport"; "3.0"; "bus"]]))
    by (vm_compute; reflexivity).
  split; [exact E |]. intros [r Hr]. rewrite E in Hr. discriminate.
Qed.

(** ** The format of the data file *)

(** The writes keep a file of four columns so. *)
Lemma four_columns_kept {A : Type} {NumA : Number A} {TxtA : Text A}
    (d : date) (cat : string) (amt : A) (note : string) (s : store) :
  four_columns s ->
  snd (init_data (A := A) None) = Some (Csv DATA_COLUMNS [])
  /\ snd (init_data (A := A) s) = Some (opened s)
  /\ four_columns (snd (init_data (A := A) s))
  /\ (exists f, snd (add_expense d cat amt note s) = Some f)
  /\ four_columns (snd (add_expense d cat amt note s))
  /\ (forall df : frame A,
        columns df = DATA_COLUMNS -> rect df ->
        four_columns (snd (save_data df s))).
Proof.
  intros Hf. destruct (four_columns_opened s Hf) as [Hh Hrec].
  split; [reflexivity |].
  assert (Hi : snd (init_data (A := A) s) = Some (opened s))
    by now destruct s.
  split; [exact Hi |]. split; [rewrite Hi; now split |].
  assert (Hsave : forall df : frame A,
             columns df = DATA_COLUMNS -> rect df ->
             four_columns (Some (Csv (columns df) (map (map field) (rows df))))).
  { intros df Hc Hr. simpl. split; [exact Hc |].
    apply Forall_forall. intros r Hin. apply in_map_iff in Hin.
    destruct Hin as [r0 [<- Hin]]. rewrite length_map.
    unfold rect in Hr. rewrite Forall_forall in Hr.
    rewrite (Hr r0 Hin), Hc. reflexivity. }
  pose proof (add_expense_result d cat amt note s Hf) as Ha.
  destruct (fst (load_data s)) as [df | e] eqn:Hl.
  - destruct Ha as [_ Ha]. rewrite Ha. simpl snd.
    split; [eauto |]. split; [| exact Hsave].
    assert (Hl' : load_data s = (Ok df, snd (load_data s)))
      by (rewrite <- Hl; now destruct (load_data s)).
    destruct (load_data_four _ _ _ Hf Hl') as [Hc [Hr _]].
    simpl. split; [reflexivity |]. apply Forall_app. split.
    + apply Forall_forall. intros r Hin. apply in_map_iff in Hin.
      destruct Hin as [r0 [<- Hin]]. rewrite length_map.
      unfold rect in Hr. rewrite Forall_forall in Hr.
      rewrite (Hr r0 Hin), Hc. reflexivity.
    + constructor; [reflexivity | constructor].
  - rewrite Ha. simpl snd. split; [eauto |]. split; [now split | exact Hsave].
Qed.


(** C6.  The data file has the four columns date, category, amount and
    notes, with four fields in every record, and the writes keep it so:
    the file [init_data] creates when there is none is the empty file of
    these four columns; [init_data] leaves a file that exists as it is;
    submitting the form leaves a file of this format, whether it appends
    or raises; and [save_data] writes a file of this format for every
    table of these four columns. *)
Theorem four_column_format {A : Type} {NumA : Number A} {TxtA : Text A}
    (d : date) (cat : string) (amt : A) (note : string) (s : store) :
  four_columns s ->
  snd (init_data (A := A) None) = Some (Csv DATA_COLUMNS [])
  /\ snd (init_data (A := A) s) = Some (opened s)
  /\ four_columns (snd (init_data (A := A) s))
  /\ (exists f, snd (add_expense d cat amt note s) = Some f)
  /\ four_columns (snd (add_expense d cat amt note s))
  /\ (forall df : frame A,
        columns df = DATA_COLUMNS -> rect df ->
        four_columns (snd (save_data df s))).
Proof.
  apply four_columns_kept.
Qed.

(** Every file the program can leave has the four columns. *)
Lemma reachable_four_columns {A : Type} {NumA : Number A} {TxtA : Text A}
    (s : store) :
  reachable (A := A) s -> four_columns s.
Proof.
  induction 1 as [| y month_opt categories s _ IH | d cat amt note s _ IH].
  - exact I.
  - rewrite dashboard_unfold. simpl snd.
    destruct (four_columns_opened s IH) as [Hh Hr]. now split.
  - now apply (four_columns_kept d cat amt note s IH).
Qed.

Lemma four_column_format_witness :
  snd (init_data (A := Qc) None) = Some (Csv DATA_COLUMNS [])
  /\ snd (init_data (A := Qc) (Some ledger)) = Some (opened (Some ledger))
  /\ four_columns (snd (init_data (A := Qc) (Some ledger)))
  /\ (exists f, snd (add_expense (Date 2024 1 8) "" (amt 3 1) "bus" (Some ledger))
                = Some f)
  /\ four_columns (snd (add_expense (Date 2024 1 8) "" (amt 3 1) "bus" (Some ledger)))
  /\ (forall df : frame Qc,
        columns df = DATA_COLUMNS -> rect df ->
        four_columns (snd (save_data df (Some ledger)))).
Proof.
  apply (four_column_format (Date 2024 1 8) "" (amt 3 1) "bus" (Some ledger)).
  split; [reflexivity | repeat constructor].
Defined.

(** ** Writing a table and reading it back *)

Section RoundTripFacts.

Context {A : Type} {NumA : Number A} {TxtA : Text A}.

Lemma infer_number (fields : list string) :
  (forall t, In t fields -> csv_number t <> None) -> infer fields = NumberCol.
Proof.
  intros Hn. unfold infer.
  replace (forallb (fun s => is_some (csv_number s))
                   (filter (fun s => negb (na_value s)) fields)) with true;
    [reflexivity |].
  symmetry. apply forallb_forall. intros t Hin. apply filter_In in Hin.
  specialize (Hn t (proj1 Hin)). now destruct (csv_number t).
Qed.

Lemma infer_plain {X : Type} (g : X -> string) (l : list X) :
  l <> [] -> Forall (fun x => plain (g x)) l -> infer (map g l) = ObjectCol.
Proof.
  intros Hne Hp. destruct l as [| x l]; [congruence |].
  inversion Hp as [| ? ? [Hna [Hn Hb]] _]; subst.
  apply infer_object with (g x); [now left | assumption ..].
Qed.

Lemma read_cell_plain (t : string) : plain t -> read_cell ObjectCol t = Str t.
Proof.
  intros [Hna _]. unfold read_cell. now rewrite Hna.
Qed.

Lemma storable_date (e : expense A) :
  storable e ->
  plain (field (date_cell (e_date e)))
  /\ to_datetime1 (Str (field (date_cell (e_date e)))) = Ok (e_date e).
Proof.
  intros [d [Hd [Hp [Ht _]]]]. rewrite Hd. simpl. rewrite Ht. now split.
Qed.

Lemma leading_saved (es : list (expense A)) :
  leading (Csv DATA_COLUMNS (map record_of es)) = 0%nat.
Proof.
  now destruct es.
Qed.

Lemma parse_saved (es : list (expense A)) :
  es <> [] -> Forall storable es ->
  parse (Csv DATA_COLUMNS (map record_of es))
  = Ok (Frame DATA_COLUMNS (map read_back es)).
Proof.
  intros Hne Hs. rewrite parse_aligned by apply leading_saved.
  cbn [header records].
  change (List.length DATA_COLUMNS) with 4%nat.
  replace (forallb (fun r => (List.length r <=? 4)%nat) (map record_of es))
    with true
    by (symmetry; apply forallb_forall; intros r Hin;
        apply in_map_iff in Hin; destruct Hin as [e [<- _]]; reflexivity).
  unfold DATA_COLUMNS at 1. cbv iota. f_equal. f_equal.
  rewrite map_map. apply map_ext_in. intros e He. cbn [seq map].
  rewrite Forall_forall in Hs.
  assert (H0 : infer (column_fields (map record_of es) 0) = ObjectCol).
  { unfold column_fields. rewrite map_map.
    apply (infer_plain (fun e => field (date_cell (e_date e)))); [exact Hne |].
    apply Forall_forall. intros x Hx. now apply storable_date, Hs. }
  assert (H1 : infer (column_fields (map record_of es) 1) = ObjectCol).
  { unfold column_fields. rewrite map_map.
    apply (infer_plain e_category); [exact Hne |].
    apply Forall_forall. intros x Hx.
    destruct (Hs x Hx) as [d H]. tauto. }
  assert (H2 : infer (column_fields (map record_of es) 2) = NumberCol).
  { unfold column_fields. rewrite map_map. apply infer_number.
    intros t Hin. apply in_map_iff in Hin. destruct Hin as [x [<- Hx]].
    destruct (Hs x Hx) as [d H]. decompose [and] H. simpl. congruence. }
  assert (H3 : infer (column_fields (map record_of es) 3) = ObjectCol).
  { unfold column_fields. rewrite map_map.
    apply (infer_plain e_notes); [exact Hne |].
    apply Forall_forall. intros x Hx.
    destruct (Hs x Hx) as [d H]. tauto. }
  rewrite H0, H1, H2, H3. unfold read_back.
  destruct (storable_date e (Hs e He)) as [Hpd _].
  destruct (Hs e He) as [d H]. decompose [and] H. clear H.
  cbn [record_of row_of map nth field str].
  rewrite (read_cell_plain _ Hpd).
  rewrite (read_cell_plain (e_category e)) by assumption.
  rewrite (read_cell_plain (e_notes e)) by assumption.
  do 2 f_equal. unfold read_cell.
  match goal with
  | Hna : na_value (repr_num _) = false, Hn : csv_number (repr_num _) = Some _
    |- _ => rewrite Hna, Hn
  end.
  reflexivity.
Qed.

Lemma coerce_saved (es : list (expense A)) :
  Forall storable es ->
  coerce (Frame DATA_COLUMNS (map read_back es)) = Ok (table es).
Proof.
  intros Hs. unfold coerce, astype_str, fillna, to_numeric, dt_date.
  rewrite (getcol_map DATA_COLUMNS read_back es "date" 0) by reflexivity.
  rewrite rbind_Ok. cbv beta.
  assert (Ht : to_datetime (map (fun x => nth 0 (read_back x) NaN) es)
               = Ok (map e_date es)).
  { apply mapM_map. eapply Forall_impl; [| exact Hs].
    intros e He. now apply storable_date. }
  rewrite Ht, rbind_Ok. cbv beta zeta. rewrite !map_map.
  rewrite (setcol_old DATA_COLUMNS read_back _ es "date" 0) by reflexivity.
  rewrite (getcol_map DATA_COLUMNS _ es "category" 1) by reflexivity.
  rewrite rbind_Ok. cbv beta. rewrite !map_map.
  rewrite (setcol_old DATA_COLUMNS _ _ es "category" 1) by reflexivity.
  rewrite (getcol_map DATA_COLUMNS _ es "amount" 2) by reflexivity.
  rewrite rbind_Ok. cbv beta. rewrite !map_map.
  rewrite (setcol_old DATA_COLUMNS _ _ es "amount" 2) by reflexivity.
  rewrite (getcol_map DATA_COLUMNS _ es "notes" 3) by reflexivity.
  rewrite rbind_Ok. cbv beta. rewrite !map_map.
  rewrite (setcol_old DATA_COLUMNS _ _ es "notes" 3) by reflexivity.
  reflexivity.
Qed.

End RoundTripFacts.

(** C5, as corrected.  A table of expenses is read back as it was written
    when every row is one that is read back as itself: it has a date whose
    text converts back to it, a category and notes that are plain texts
    (not empty, no other missing-value marker, nothing that reads as a
    number or a boolean), and an amount whose text reads as the same
    number. *)
Theorem save_load_roundtrip {A : Type} {NumA : Number A} {TxtA : Text A}
    (es : list (expense A)) (s : store) :
  Forall storable es ->
  fst (load_data (snd (save_data (table es) s))) = Ok (table es).
Proof.
  intros Hs. rewrite load_data_unfold. simpl fst.
  change (opened (snd (save_data (table es) s)))
    with (Csv DATA_COLUMNS (map (map field) (map row_of es))).
  rewrite map_map. change (map (fun x => map field (row_of x)) es)
    with (map record_of es).
  destruct es as [| e0 es0]; [reflexivity |].
  rewrite parse_saved by (discriminate || exact Hs).
  simpl negb. cbv iota. now apply coerce_saved.
Qed.

Lemma save_load_roundtrip_witness :
  fst (load_data (snd (save_data (table january) None))) = Ok (table january).
Proof.
  apply (save_load_roundtrip january None).
  apply Forall_cons; [| apply Forall_cons; [| apply Forall_cons; [| apply Forall_nil]]];
    (eexists; split; [reflexivity |]; repeat split;
     try (vm_compute; reflexivity);
     simpl; f_equal; apply Qc_is_canon; vm_compute; reflexivity).
Defined.

(** C5, as stated, fails on the table of one expense with empty notes: the
    notes are read back as "nan". *)
Lemma round_trips_first_expense :
  snd (save_data (table first_expense) None) = Some first_entry
  /\ rbind (fst (load_data (A := Qc) (Some first_entry)))
           (fun df => getcol df "notes") = Ok [Str "nan"]
  /\ ~ round_trips first_expense.
Proof.
  split; [vm_compute; reflexivity |]. split; [vm_compute; reflexivity |].
  intros H.
  assert (Hd : Forall (fun e : expense Qc => e_date e <> None) first_expense)
    by (repeat constructor; discriminate).
  specialize (H Hd None).
  assert (E : getcol (table first_expense) "notes" = Ok [Str ""])
    by reflexivity.
  assert (E' : rbind (fst (load_data (snd (save_data (table first_expense) None))))
                     (fun df => getcol df "notes") = Ok [Str "nan"])
    by (vm_compute; reflexivity).
  rewrite H in E'. simpl in E'. discriminate.
Qed.

(** ** What load_data returns is a table of expenses *)

Section LoadedFacts.

Context {A : Type} {NumA : Number A} {TxtA : Text A}.

Lemma map_eq_Forall {X Y Z : Type} (f : X -> Z) (g : Y -> Z) (l : list X)
    (t : list Y) :
  map f l = map g t -> Forall (fun x => exists y, In y t /\ f x = g y) l.
Proof.
  revert t. induction l as [| x l IH]; intros [| y t] E; simpl in E;
    try discriminate; constructor.
  - exists y. split; [now left | congruence].
  - injection E as _ E'. eapply Forall_impl; [| apply (IH t E')].
    intros x' [y' [Hin Hy]]. exists y'. split; [now right | exact Hy].
Qed.

(** On a file of four columns, [load_data] returns a table of expenses. *)
Lemma load_data_table (s : store) (df : frame A) (s' : store) :
  four_columns s ->
  load_data s = (Ok df, s') ->
  exists es, df = table es.
Proof.
  intros Hf Hl. destruct (load_data_four _ _ _ Hf Hl) as [Hc [Hr _]].
  destruct (four_columns_opened s Hf) as [Hh _].
  destruct (load_data_inv _ _ _ Hl) as [_ [raw [Hp Hcase]]].
  destruct Hcase as [[He ->] | [He Hco]].
  - exists [].
    apply (parse_empty _ _ Hp) in He.
    destruct (parse_inv _ _ Hp) as [_ ->]. now rewrite He, Hh.
  - destruct (coerce_inv _ _ (parse_rect _ _ Hp) Hco)
      as [d [t [c [a [n H]]]]].
    destruct H as [Hd [Ht [Hcat [Ha [Hn [_ [_ [_ [Gd [Gc [Ga Gn]]]]]]]]]]].
    destruct df as [cols rs]. simpl in Hc. subst cols.
    unfold getcol in Gd, Gc, Ga, Gn. simpl in Gd, Gc, Ga, Gn.
    injection Gd as Ed. injection Gc as Ec. injection Ga as Ea.
    injection Gn as En.
    unfold dt_date in Ed. unfold astype_str in Ec, En.
    apply map_eq_Forall in Ed. apply map_eq_Forall in Ec.
    apply map_eq_Forall in En.
    assert (Hnum : Forall (fun r => is_num (nth 2 r NaN)) rs).
    { destruct (getcol_inv raw "amount" a Ha) as [j [Hj _]].
      rewrite (parse_columns _ _ Hp) in Hj.
      rewrite (parse_getcol _ _ "amount" j Hp Hj) in Ha.
      injection Ha as Ea0. rewrite <- Ea0 in Ea.
      unfold fillna, to_numeric in Ea. rewrite !map_map in Ea.
      apply map_eq_Forall in Ea. eapply Forall_impl; [| exact Ea].
      intros r [y [_ ->]]. apply fillna_to_numeric_read. }
    exists (map expense_of rs).
    unfold table. f_equal. rewrite map_map. symmetry.
    rewrite <- (map_id rs) at 2. apply map_ext_in. intros r Hin.
    unfold rect in Hr. simpl in Hr. rewrite Forall_forall in Hr, Ed, Ec, En, Hnum.
    specialize (Hr r Hin).
    destruct (Ed r Hin) as [o [_ E0]]. destruct (Ec r Hin) as [c1 [_ E1]].
    destruct (Hnum r Hin) as [x E2]. destruct (En r Hin) as [c3 [_ E3]].
    destruct r as [| r0 [| r1 [| r2 [| r3 [| r4 r]]]]]; simpl in Hr;
      try discriminate.
    simpl in E0, E1, E2, E3. subst. unfold expense_of, row_of. simpl.
    now destruct o.
Qed.

End LoadedFacts.

(** ** filter_df on the frames load_data returns *)

Section SelectFacts.

Context {T : Type}.

Lemma select_app (ks ks' : list bool) (l l' : list T) :
  List.length ks = List.length l ->
  select (ks ++ ks') (l ++ l') = select ks l ++ select ks' l'.
Proof.
  revert l. induction ks as [| k ks IH]; intros [| x l] Hl; simpl in *;
    try discriminate; [reflexivity |].
  destruct k; simpl; rewrite IH by congruence; reflexivity.
Qed.

Lemma select_true (ks : list bool) (l : list T) :
  List.length ks = List.length l ->
  Forall (fun k => k = true) ks -> select ks l = l.
Proof.
  revert l. induction ks as [| k ks IH]; intros [| x l] Hl Hk; simpl in *;
    try discriminate; [reflexivity |].
  inversion Hk; subst. now rewrite IH by (congruence || assumption).
Qed.

End SelectFacts.

Lemma index_of_app_l (c : string) (cols l : list string) (i : nat) :
  index_of c cols = Some i -> index_of c (cols ++ l) = Some i.
Proof.
  revert i. induction cols as [| x cols IH]; simpl; intros i; [discriminate |].
  destruct (String.eqb c x); [trivial |].
  destruct (index_of c cols) as [j |]; simpl; [| discriminate].
  intros E. now rewrite (IH j eq_refl).
Qed.

Lemma index_of_app_new (c : string) (cols : list string) :
  index_of c cols = None -> index_of c (cols ++ [c]) = Some (List.length cols).
Proof.
  induction cols as [| x cols IH]; simpl; intros H.
  - now rewrite String.eqb_refl.
  - destruct (String.eqb c x); [discriminate |].
    destruct (index_of c cols); simpl in H; [discriminate |].
    now rewrite IH.
Qed.

Lemma index_of_app_other (c c' : string) (cols : list string) :
  index_of c cols = None -> c <> c' -> index_of c (cols ++ [c']) = None.
Proof.
  induction cols as [| x cols IH]; simpl; intros H Hne.
  - apply String.eqb_neq in Hne. now rewrite Hne.
  - destruct (String.eqb c x); [discriminate |].
    destruct (index_of c cols); simpl in H; [discriminate |].
    now rewrite IH.
Qed.

(** The helper columns are dropped, and no other column is when none is
    named year or month. *)
Lemma select_helpers {T : Type} (cols : list string) (l : list T) (a b : T) :
  List.length l = List.length cols ->
  index_of "year" cols = None -> index_of "month" cols = None ->
  select (map (fun c => negb (mem c ["year"; "month"]))
              ((cols ++ ["year"]) ++ ["month"]))
         ((l ++ [a]) ++ [b])
  = l.
Proof.
  intros Hl Hy Hm. rewrite !map_app.
  assert (Hk : Forall (fun k => k = true)
                      (map (fun c => negb (mem c ["year"; "month"])) cols)).
  { apply Forall_forall. intros k Hin. apply in_map_iff in Hin.
    destruct Hin as [c [<- Hc]]. simpl. rewrite orb_false_r.
    destruct (String.eqb_spec c "year") as [-> | _].
    { apply index_of_In in Hc. destruct Hc as [i Hi]. congruence. }
    destruct (String.eqb_spec c "month") as [-> | _]; [| reflexivity].
    apply index_of_In in Hc. destruct Hc as [i Hi]. congruence. }
  rewrite !select_app by (rewrite ?length_app, !length_map; simpl; lia).
  rewrite select_true by (rewrite ?length_map; congruence || assumption).
  simpl. now rewrite !app_nil_r.
Qed.

Lemma Forall_filter' {X : Type} (P : X -> Prop) (p : X -> bool) (l : list X) :
  Forall P l -> Forall P (filter p l).
Proof.
  intros H. apply Forall_forall. intros x Hin. apply filter_In in Hin.
  rewrite Forall_forall in H. now apply H.
Qed.

Section FilterFrames.

Context {A : Type} {NumA : Number A} {TxtA : Text A}.

(** What [filter_df] computes on a frame that has a row, a column of
    dates a Timestamp can hold or missing values, a column of categories
    that are str, and no column named year or month. *)
Lemma filter_df_frame (cols : list string) (rs : list (list (cell A)))
    (y : Z) (month_opt : string) (categories : list string) (i ci : nat) :
  rs <> [] ->
  Forall (fun r => List.length r = List.length cols) rs ->
  index_of "date" cols = Some i ->
  index_of "category" cols = Some ci ->
  index_of "year" cols = None ->
  index_of "month" cols = None ->
  Forall (fun r => to_datetime1 (nth i r NaN)
                   = Ok (e_date (expense_in cols r))) rs ->
  Forall (fun r => exists t, nth ci r NaN = Str t) rs ->
  filter_df (Frame cols rs) y month_opt categories
  = Ok (Frame cols
          (filter (fun r => keeps y month_opt categories (expense_in cols r))
                  rs)).
Proof.
  intros Hne Hrect Hi Hci Hy Hm Hdates Hcats.
  pose proof (index_of_lt _ _ _ Hi) as Hilt.
  pose proof (index_of_lt _ _ _ Hci) as Hcilt.
  unfold filter_df.
  assert (He : empty (Frame cols rs) = false).
  { unfold empty. simpl. destruct cols; [discriminate |].
    destruct rs; [congruence | reflexivity]. }
  rewrite He. cbv zeta.
  replace (Frame cols rs) with (Frame cols (map (fun r : list (cell A) => r) rs))
    by (now rewrite map_id).
  set (dt := fun r : list (cell A) => e_date (expense_in cols r)).
  assert (Ht : to_datetime (map (fun r : list (cell A) => nth i r NaN) rs)
               = Ok (map dt rs)) by (now apply mapM_map).
  rewrite (getcol_map cols (fun r => r) rs "date" i Hi), rbind_Ok.
  rewrite Ht, rbind_Ok. unfold dt_year. rewrite map_map.
  rewrite (setcol_new cols (fun r => r) _ rs "year" Hy).
  rewrite (getcol_map _ _ rs "date" i (index_of_app_l _ _ _ _ Hi)), rbind_Ok.
  match goal with
  | |- context [to_datetime (map ?g rs)] =>
      replace (map g rs) with (map (fun r : list (cell A) => nth i r NaN) rs)
  end.
  2:{ apply map_ext_in. intros r Hin. rewrite Forall_forall in Hrect.
      symmetry. apply app_nth1. rewrite (Hrect r Hin). exact Hilt. }
  rewrite Ht, rbind_Ok. unfold dt_month. rewrite map_map.
  rewrite (setcol_new _ _ _ rs "month")
    by (apply index_of_app_other; [exact Hm | discriminate]).
  set (row2 := fun x : list (cell A) => (x ++ _) ++ _).
  set (cols2 := (cols ++ ["year"]) ++ ["month"]).
  assert (Hiy : index_of "year" cols2 = Some (List.length cols))
    by (apply index_of_app_l; now apply index_of_app_new).
  assert (Him : index_of "month" cols2 = Some (S (List.length cols))).
  { unfold cols2.
    rewrite (index_of_app_new "month" (cols ++ ["year"]))
      by (apply index_of_app_other; [exact Hm | discriminate]).
    rewrite length_app. simpl. f_equal. lia. }
  assert (Hic : index_of "category" cols2 = Some ci)
    by (now do 2 apply index_of_app_l).
  assert (Hny : forall r : list (cell A),
             List.length r = List.length cols ->
             nth (List.length cols) (row2 r) NaN
             = match dt r with Some d => Int (year d) | None => NaN end).
  { intros r Hl. unfold row2. rewrite app_nth1 by (rewrite length_app; simpl; lia).
    rewrite app_nth2 by lia. rewrite <- Hl, Nat.sub_diag. reflexivity. }
  assert (Hnm : forall r : list (cell A),
             List.length r = List.length cols ->
             nth (S (List.length cols)) (row2 r) NaN
             = match dt r with Some d => Int (month d) | None => NaN end).
  { intros r Hl. unfold row2. rewrite app_nth2 by (rewrite length_app; simpl; lia).
    rewrite length_app. cbn [List.length]. rewrite <- Hl.
    replace (S (List.length r) - (List.length r + 1))%nat with 0%nat by lia.
    reflexivity. }
  assert (Hnc : forall r : list (cell A),
             List.length r = List.length cols ->
             nth ci (row2 r) NaN = nth ci r NaN).
  { intros r Hl. unfold row2.
    rewrite app_nth1 by (rewrite length_app; simpl; lia).
    apply app_nth1. lia. }
  assert (Hdrop : forall l : list (list (cell A)),
             Forall (fun r => List.length r = List.length cols) l ->
             drop (Frame cols2 (map row2 l)) ["year"; "month"] = Frame cols l).
  { intros l Hl. rewrite drop_map. unfold cols2. f_equal.
    - exact (select_helpers cols cols "year" "month" eq_refl Hy Hm).
    - rewrite <- (map_id l) at 2. apply map_ext_in. intros r Hin.
      unfold row2. apply select_helpers; [| assumption ..].
      rewrite Forall_forall in Hl. now apply Hl. }
  assert (Hcat : forall l : list (list (cell A)),
             Forall (fun r => List.length r = List.length cols) l ->
             Forall (fun r => exists t, nth ci r NaN = Str t) l ->
             rbind (match categories with
                    | _ :: _ =>
                        rbind (getcol (Frame cols2 (map row2 l)) "category")
                              (fun c => Ok (mask (Frame cols2 (map row2 l))
                                                 (isin c categories)))
                    | [] => Ok (Frame cols2 (map row2 l))
                    end)
                   (fun df2 => Ok (drop df2 ["year"; "month"]))
             = Ok (Frame cols
                     (filter (fun r => is_nil categories
                                       || mem (e_category (expense_in cols r))
                                              categories) l))).
  { intros l Hl Hc. destruct categories as [| c cs].
    - simpl rbind. rewrite (Hdrop l Hl). do 2 f_equal. simpl.
      clear. induction l as [| x l IH]; simpl; [reflexivity | f_equal; exact IH].
    - rewrite (getcol_map cols2 row2 l "category" ci Hic).
      rewrite !rbind_Ok. cbv beta. rewrite isin_map, mask_map.
      rewrite Hdrop by (now apply Forall_filter').
      do 2 f_equal. apply filter_ext_in. intros r Hin.
      rewrite Forall_forall in Hl, Hc. rewrite (Hnc r (Hl r Hin)).
      destruct (Hc r Hin) as [t Et]. rewrite Et. simpl is_nil. simpl orb.
      unfold expense_in, cell_at. rewrite Hci, Et. reflexivity. }
  rewrite (getcol_map cols2 row2 rs "year" (List.length cols) Hiy).
  rewrite rbind_Ok. cbv beta. rewrite !eq_int_map, !mask_map.
  set (m := month_name_to_num month_opt).
  destruct (m =? 0)%Z eqn:Hm0; simpl negb; cbv iota.
  - rewrite rbind_Ok. cbv beta.
    rewrite Hcat by (now apply Forall_filter').
    rewrite filter_filter. do 2 f_equal. apply filter_ext_in. intros r Hin.
    rewrite Forall_forall in Hrect. rewrite (Hny r (Hrect r Hin)).
    unfold keeps. fold m. rewrite Hm0. fold (dt r).
    destruct (dt r); [| reflexivity]. now rewrite andb_true_r.
  - rewrite (getcol_map cols2 row2 _ "month" (S (List.length cols)) Him).
    rewrite !rbind_Ok. cbv beta. rewrite eq_int_map, mask_map.
    rewrite Hcat by (now do 2 apply Forall_filter').
    rewrite !filter_filter. do 2 f_equal. apply filter_ext_in. intros r Hin.
    rewrite Forall_forall in Hrect.
    rewrite (Hny r (Hrect r Hin)), (Hnm r (Hrect r Hin)).
    unfold keeps. fold m. rewrite Hm0. fold (dt r).
    destruct (dt r); [now rewrite andb_assoc | reflexivity].
Qed.

(** Converting a column of dates and missing values raises as soon as a
    Timestamp cannot hold one of the dates. *)
Lemma to_datetime_days_out (cs : series A) :
  Forall (fun c => c = NaN \/ exists d, c = Day d) cs ->
  ~ Forall (fun c => forall d, c = Day d -> timestamp_ok d = true) cs ->
  to_datetime cs = Raise ValueError.
Proof.
  unfold to_datetime. induction 1 as [| c cs Hc _ IH]; intros Hn.
  - exfalso. apply Hn. constructor.
  - simpl. destruct Hc as [-> | [d ->]]; simpl.
    + rewrite IH; [reflexivity |]. intros H. apply Hn.
      constructor; [discriminate | exact H].
    + destruct (timestamp_ok d) eqn:Hok; [| reflexivity]. simpl.
      rewrite IH; [reflexivity |]. intros H. apply Hn.
      constructor; [| exact H]. intros d' E. congruence.
Qed.

(** A frame [load_data] returns with a row has one cell per column in
    every row, a column of dates and missing values, and a column of
    categories that are str. *)
Lemma load_data_columns (s : store) (df : frame A) (s' : store) :
  load_data s = (Ok df, s') ->
  rows df <> [] ->
  rect df
  /\ exists i ci,
       index_of "date" (columns df) = Some i
       /\ index_of "category" (columns df) = Some ci
       /\ Forall (fun r => nth i r NaN = NaN \/ exists d, nth i r NaN = Day d)
                 (rows df)
       /\ Forall (fun r => exists t, nth ci r NaN = Str t) (rows df).
Proof.
  intros Hl Hne. destruct (load_data_inv _ _ _ Hl) as [_ [raw [Hp Hcase]]].
  destruct Hcase as [[He ->] | [He Hco]].
  { exfalso. apply Hne. apply (parse_empty _ _ Hp) in He.
    pose proof (parse_rows _ _ Hp) as Hn. rewrite He in Hn.
    now destruct (rows raw). }
  destruct (coerce_inv _ _ (parse_rect _ _ Hp) Hco) as [d [t [c [a [n H]]]]].
  destruct H as [_ [_ [_ [_ [_ [_ [Hr [_ [Gd [Gc _]]]]]]]]]].
  split; [exact Hr |].
  destruct (getcol_inv _ _ _ Gd) as [i [Hi Ed]].
  destruct (getcol_inv _ _ _ Gc) as [ci [Hci Ec]].
  exists i, ci. split; [exact Hi |]. split; [exact Hci |]. split.
  - unfold dt_date in Ed. symmetry in Ed. apply map_eq_Forall in Ed.
    eapply Forall_impl; [| exact Ed]. intros r [o [_ E]]. rewrite E.
    destruct o as [d0 |]; [right; now exists d0 | now left].
  - unfold astype_str in Ec. symmetry in Ec. apply map_eq_Forall in Ec.
    eapply Forall_impl; [| exact Ec]. intros r [c0 [_ E]]. rewrite E. eauto.
Qed.

(** On every frame [load_data] returns without a column named year or
    month, [filter_df] selects the rows when a Timestamp can hold the
    dates, and raises when it cannot hold one of them. *)
Lemma filter_df_loaded (s : store) (df : frame A) (s' : store) (y : Z)
    (month_opt : string) (categories : list string) :
  load_data s = (Ok df, s') ->
  ~ In "year" (columns df) ->
  ~ In "month" (columns df) ->
  (frame_dates_in_range df -> filters_rows df y month_opt categories)
  /\ (~ frame_dates_in_range df ->
      filter_df df y month_opt categories = Raise ValueError).
Proof.
  intros Hl Hy Hm.
  destruct (rows df) as [| r0 rs0] eqn:Er.
  { assert (He : empty df = true)
      by (unfold empty; rewrite Er; now destruct (columns df)).
    split.
    - intros _. exists df. unfold filter_df. rewrite He.
      split; [reflexivity |]. split; [reflexivity |]. rewrite Er. constructor.
    - intros Hn. exfalso. apply Hn. unfold frame_dates_in_range.
      rewrite Er. constructor. }
  destruct (load_data_columns s df s' Hl) as [Hr [i [ci [Hi [Hci [Hd Hc]]]]]].
  { rewrite Er. discriminate. }
  assert (Hiy : index_of "year" (columns df) = None).
  { destruct (index_of "year" (columns df)) as [j |] eqn:E; [| reflexivity].
    exfalso. apply Hy. apply index_of_In. now exists j. }
  assert (Him : index_of "month" (columns df) = None).
  { destruct (index_of "month" (columns df)) as [j |] eqn:E; [| reflexivity].
    exfalso. apply Hm. apply index_of_In. now exists j. }
  assert (Hcell : forall r : list (cell A),
             cell_at (columns df) r "date" = nth i r NaN)
    by (intros r; unfold cell_at; now rewrite Hi).
  destruct df as [cols rs]. cbn [columns rows] in *. subst rs.
  set (rs := r0 :: rs0) in *. split.
  - intros Hrange.
    exists (Frame cols (filter (fun r => keeps y month_opt categories
                                              (expense_in cols r)) rs)).
    split; [| split; [reflexivity |]].
    + apply (filter_df_frame cols rs y month_opt categories i ci);
        try assumption; [discriminate |].
      unfold frame_dates_in_range in Hrange. cbn [columns rows] in Hrange.
      rewrite Forall_forall in Hd, Hrange. apply Forall_forall. intros r Hin.
      unfold expense_in. cbn [e_date]. rewrite (Hcell r).
      destruct (Hd r Hin) as [E | [d0 E]]; rewrite E; [reflexivity |].
      simpl. rewrite (Hrange r Hin d0); [reflexivity |].
      now rewrite (Hcell r).
    + cbn [rows]. apply keep_only_filter. intros r. apply keeps_selected.
  - intros Hn. unfold filter_df.
    assert (He : empty (Frame cols rs) = false).
    { unfold empty. simpl. destruct cols; [discriminate | reflexivity]. }
    rewrite He. cbv zeta. unfold getcol at 1. cbn [columns rows].
    rewrite Hi, rbind_Ok. rewrite to_datetime_days_out; [reflexivity | |].
    + apply Forall_forall. intros c Hin. apply in_map_iff in Hin.
      destruct Hin as [r [<- Hin]]. rewrite Forall_forall in Hd. now apply Hd.
    + intros H. apply Hn. unfold frame_dates_in_range. cbn [columns rows].
      apply Forall_forall. intros r Hin d0 E. rewrite (Hcell r) in E.
      rewrite Forall_forall in H.
      apply (H (nth i r NaN)); [| exact E].
      now apply (in_map (fun r1 : list (cell A) => nth i r1 NaN)).
Qed.

End FilterFrames.

(** ** filter_df: the rows it returns *)

(** C1, as corrected.  For every table [load_data] returns that has no
    column named year or month, every year, month option and list of
    categories: when a Timestamp can hold every date of the table,
    [filter_df] returns the table of the same columns whose rows are
    exactly the rows of the table, in their order, whose date is in the
    year, is in the month when the option is the name of a month (there is
    no condition on the month for "All year"), and whose category is one
    of the categories when some are given (no condition on the category
    when none is); and when a Timestamp cannot hold one of the dates,
    [filter_df] raises. *)
Theorem filter_df_selects {A : Type} {NumA : Number A} {TxtA : Text A}
    (s : store) (df : frame A) (s' : store) (y : Z) (month_opt : string)
    (categories : list string) :
  load_data s = (Ok df, s') ->
  ~ In "year" (columns df) ->
  ~ In "month" (columns df) ->
  (frame_dates_in_range df -> filters_rows df y month_opt categories)
  /\ (~ frame_dates_in_range df ->
      filter_df df y month_opt categories = Raise ValueError).
Proof.
  apply filter_df_loaded.
Qed.

Lemma filter_df_selects_witness :
  filters_rows ledger_table 2024 "January" ["Food"].
Proof.
  refine (proj1 (filter_df_selects (Some ledger) ledger_table (Some ledger)
                                   2024 "January" ["Food"] _ _ _) _).
  - reflexivity.
  - vm_compute. intuition discriminate.
  - vm_compute. intuition discriminate.
  - unfold frame_dates_in_range. apply Forall_forall. intros r Hin d Ed.
    vm_compute in Hin.
    repeat (destruct Hin as [<- | Hin];
            [vm_compute in Ed; inversion Ed; reflexivity |]).
    contradiction.
Defined.

(** C1, as stated, fails on two loaded tables.  The table of a file with
    a fifth column named year comes back with four columns: the column is
    overwritten by the helper column and dropped with it.  And on the
    table of a file whose date is the first instant a Timestamp can hold,
    which [load_data] reads as the date 1677-09-21, [filter_df] raises:
    it converts the date again, and a Timestamp cannot hold that day's
    midnight. *)
Lemma filters_as_stated_fails :
  columns_through with_year 2024 "All year" []
  = Ok (["date"; "category"; "amount"; "notes"; "year"],
        ["date"; "category"; "amount"; "notes"])
  /\ ~ filters_as_stated (A := Qc) (Some with_year) 2024 "All year" []
  /\ loaded_dates first_instant = Ok [Day (Date 1677 9 21)]
  /\ columns_through first_instant 1677 "All year" [] = Raise ValueError
  /\ ~ filters_as_stated (A := Qc) (Some first_instant) 1677 "All year" [].
Proof.
  split; [vm_compute; reflexivity |]. split.
  { intros H.
    destruct (fst (load_data (A := Qc) (Some with_year))) as [df |] eqn:El;
      [| vm_compute in El; discriminate].
    destruct (H df (Some with_year)) as [df' [Hf [Hc _]]].
    { rewrite <- El. vm_compute. reflexivity. }
    assert (Hd : df = match fst (load_data (A := Qc) (Some with_year)) with
                      | Ok x => x
                      | Raise _ => df
                      end) by now rewrite El.
    vm_compute in Hd. subst df. vm_compute in Hf. injection Hf as <-.
    discriminate. }
  split; [vm_compute; reflexivity |].
  split; [vm_compute; reflexivity |].
  intros H.
  destruct (fst (load_data (A := Qc) (Some first_instant))) as [df |] eqn:El;
    [| vm_compute in El; discriminate].
  destruct (H df (Some first_instant)) as [df' [Hf _]].
  { rewrite <- El. vm_compute. reflexivity. }
  assert (Hd : df = match fst (load_data (A := Qc) (Some first_instant)) with
                    | Ok x => x
                    | Raise _ => df
                    end) by now rewrite El.
  vm_compute in Hd. subst df. vm_compute in Hf. discriminate.
Qed.

(** The rows of January 2024 in the category Food, and those of February. *)
Example filter_df_january :
  filter_df (table january) 2024 "January" ["Food"]
  = Ok (table [Expense (Some (Date 2024 1 5)) "Food" (amt 25 2) "lunch";
               Expense (Some (Date 2024 1 5)) "Food" (amt 7 2) "coffee"])
  /\ filter_df (table january) 2024 "February" [] = Ok (table [])
  /\ filter_df (table january) 2024 "All year" [] = Ok (table january).
Proof. repeat split; reflexivity. Qed.

(** ** The empty table *)

(** C9.  On an empty table -- no row, or no column -- [filter_df] returns
    the table it was given, whatever the year, the month option and the
    categories, and [compute_kpis] returns (0.0, 0.0, 0.0, 0.0); neither
    raises. *)
Theorem empty_table_neutral {A : Type} {NumA : Number A} {TxtA : Text A}
    (df : frame A) (y : Z) (month_opt : string) (categories : list string) :
  empty df = true ->
  filter_df df y month_opt categories = Ok df
  /\ compute_kpis df = Ok (f_zero, f_zero, f_zero, f_zero).
Proof.
  intros He. unfold filter_df, compute_kpis. rewrite He. now split.
Qed.

Lemma empty_table_neutral_witness :
  filter_df (A := Qc) (Frame ["date"; "category"] []) 2024 "March" ["Food"]
  = Ok (Frame ["date"; "category"] [])
  /\ compute_kpis (A := Qc) (Frame ["date"; "category"] [])
     = Ok (f_zero, f_zero, f_zero, f_zero).
Proof.
  apply (empty_table_neutral (Frame ["date"; "category"] []) 2024 "March" ["Food"]).
  reflexivity.
Defined.

(** ** load_data on the example files *)

Lemma load_data_failures_witness :
  (exists df : frame Qc,
     fst (load_data (Some ledger)) = Ok df
     /\ List.length (rows df) = List.length (records ledger))
  /\ (exists e, fst (load_data (A := Qc) (Some bad_date)) = Raise e).
Proof.
  split.
  - apply (proj1 (proj2 (proj2 (proj2 (load_data_failures (A := Qc))))) ledger);
      [reflexivity |].
    apply Forall_cons; [| apply Forall_cons; [| apply Forall_cons; [| apply Forall_nil]]];
      (split; [simpl; lia | right]).
    + exists (Date 2024 1 5). repeat split; vm_compute; reflexivity.
    + exists (Date 2024 1 6). repeat split; vm_compute; reflexivity.
    + exists (Date 2024 1 7). repeat split; vm_compute; reflexivity.
  - apply (proj2 (proj2 (proj2 (proj2 (proj2 (proj2 (load_data_failures (A := Qc)))))))
             bad_date 0%nat ["not-a-date"; "Food"; "5"; "lunch"]).
    + reflexivity.
    + now left.
    + repeat split; vm_compute; reflexivity.
    + vm_compute. reflexivity.
Defined.

(** * Further properties *)

(** ** The month box and month_name_to_num *)

(** X1.  The month box and [month_name_to_num] agree: the option at
    position [i] of the box, for [i] from 0 to 12, has the number [i] (so
    "All year" is 0 and the default option, at the position of today's
    month, selects that month); and every string that is not one of the
    twelve month names, whatever its case, has the number 0, which
    [filter_df] treats as "All year". *)
Theorem month_options_numbers :
  (forall i, (i <= 12)%nat ->
             month_name_to_num (nth i MONTH_OPTIONS "") = Z.of_nat i)
  /\ (forall name, ~ In name (map fst months) -> month_name_to_num name = 0%Z).
Proof.
  split.
  - intros i Hi.
    do 13 (destruct i as [| i]; [reflexivity |]). lia.
  - intros name Hn. unfold month_name_to_num.
    destruct (String.eqb name "All year"); [reflexivity |].
    destruct (get_found months name 0%Z) as [Hin | H0]; [| exact H0].
    exfalso. apply Hn.
    change name with (fst (name, get months name 0%Z)). now apply in_map.
Qed.

Lemma month_options_numbers_witness :
  month_name_to_num (nth 3 MONTH_OPTIONS "") = Z.of_nat 3
  /\ month_name_to_num "march" = 0%Z.
Proof.
  split.
  - apply (proj1 month_options_numbers 3%nat). lia.
  - apply (proj2 month_options_numbers "march"). simpl. intuition discriminate.
Defined.

(** ** filter_df, again *)

Section MoreFilterFacts.

Context {A : Type} {NumA : Number A} {TxtA : Text A}.

Lemma row_of_inj (e1 e2 : expense A) : row_of e1 = row_of e2 -> e1 = e2.
Proof.
  destruct e1 as [d1 c1 a1 n1], e2 as [d2 c2 a2 n2]. unfold row_of. simpl.
  intros E. injection E as Ed Ec Ea En. subst.
  destruct d1, d2; simpl in Ed; try discriminate; congruence.
Qed.

Lemma map_inj {X Y : Type} (f : X -> Y) (l1 l2 : list X) :
  (forall x y, f x = f y -> x = y) -> map f l1 = map f l2 -> l1 = l2.
Proof.
  intros Hf. revert l2.
  induction l1 as [| x l1 IH]; intros [| y l2] E; simpl in E;
    try discriminate; [reflexivity |].
  injection E as Ex El. f_equal; [now apply Hf | now apply IH].
Qed.

Lemma table_inj (es1 es2 : list (expense A)) :
  table es1 = table es2 -> es1 = es2.
Proof.
  unfold table. intros E.
  apply (map_inj row_of); [exact row_of_inj | congruence].
Qed.

Lemma filter_df_table_inv (es es' : list (expense A)) (y : Z)
    (month_opt : string) (categories : list string) :
  dates_in_range es ->
  filter_df (table es) y month_opt categories = Ok (table es') ->
  es' = filter (keeps y month_opt categories) es.
Proof.
  intros Hr Hf. rewrite (filter_df_table es y month_opt categories Hr) in Hf.
  symmetry. apply table_inj. congruence.
Qed.

Lemma dates_in_range_filter (p : expense A -> bool) (es : list (expense A)) :
  dates_in_range es -> dates_in_range (filter p es).
Proof.
  unfold dates_in_range. rewrite !Forall_forall. intros H e Hin.
  apply filter_In in Hin. now apply H.
Qed.

Lemma filter_idem {X : Type} (p : X -> bool) (l : list X) :
  filter p (filter p l) = filter p l.
Proof.
  rewrite filter_filter. apply filter_ext. intros x. now destruct (p x).
Qed.

Lemma keeps_dated (y : Z) (month_opt : string) (categories : list string)
    (e : expense A) :
  keeps y month_opt categories e = true ->
  exists d, e_date e = Some d /\ year d = y.
Proof.
  unfold keeps. destruct (e_date e) as [d |]; [| discriminate].
  rewrite !andb_true_iff, Z.eqb_eq. intros [[Hy _] _]. now exists d.
Qed.

Lemma select_filter {X : Type} (p : X -> bool) (l : list X) :
  select (map p l) l = filter p l.
Proof.
  induction l as [| x l IH]; simpl; [reflexivity |].
  destruct (p x); now rewrite IH.
Qed.

Lemma index_of_mem (c : string) (cols : list string) :
  index_of c cols = None <-> mem c cols = false.
Proof.
  induction cols as [| x cols IH]; simpl; [tauto |].
  destruct (String.eqb c x); simpl; [split; discriminate |].
  rewrite <- IH. destruct (index_of c cols); simpl; split; congruence.
Qed.

Lemma columns_setcol (df : frame A) (c : string) (s : series A) :
  columns (setcol df c s)
  = if mem c (columns df) then columns df else columns df ++ [c].
Proof.
  unfold setcol. destruct (index_of c (columns df)) as [i |] eqn:Hi.
  - destruct (mem c (columns df)) eqn:Hm; [reflexivity |].
    apply index_of_mem in Hm. congruence.
  - apply index_of_mem in Hi. now rewrite Hi.
Qed.

Lemma filter_helpers (cols : list string) :
  let keep := fun c => negb (mem c ["year"; "month"]) in
  filter keep
    (if mem "month" (if mem "year" cols then cols else cols ++ ["year"])
     then (if mem "year" cols then cols else cols ++ ["year"])
     else (if mem "year" cols then cols else cols ++ ["year"]) ++ ["month"])
  = filter keep cols.
Proof.
  intros keep.
  destruct (mem "year" cols), (mem "month" _);
    rewrite ?filter_app; simpl; now rewrite ?app_nil_r.
Qed.

End MoreFilterFacts.

(** X2.  Filtering is idempotent: filtering what [filter_df] returned,
    with the same year, month option and categories, returns it
    unchanged. *)
Theorem filter_df_idempotent {A : Type} {NumA : Number A} {TxtA : Text A}
    (es es' : list (expense A)) (y : Z) (month_opt : string)
    (categories : list string) :
  dates_in_range es ->
  filter_df (table es) y month_opt categories = Ok (table es') ->
  filter_df (table es') y month_opt categories = Ok (table es').
Proof.
  intros Hr Hf. rewrite (filter_df_table_inv es es' _ _ _ Hr Hf).
  rewrite filter_df_table by now apply dates_in_range_filter.
  now rewrite filter_idem.
Qed.

Lemma filter_df_idempotent_witness :
  filter_df (table (filter (keeps 2024 "January" ["Food"]) january))
            2024 "January" ["Food"]
  = Ok (table (filter (keeps 2024 "January" ["Food"]) january)).
Proof.
  apply (filter_df_idempotent january _ 2024 "January" ["Food"]).
  - repeat constructor; intros d E; inversion E; reflexivity.
  - reflexivity.
Defined.

(** X3.  In the pipeline the guard of [compute_kpis] on the per-day sums
    never fires: every row [filter_df] returns has a date, so when the
    filtered table has a row it has a per-day sum, and, with exact
    arithmetic, [compute_kpis] returns the sum of its amounts, the mean
    and the maximum of its per-day sums. *)
Theorem filtered_kpis_as_stated {TxtA : Text Qc}
    (es es' : list (expense Qc)) (y : Z) (month_opt : string)
    (categories : list string) :
  filter_df (table es) y month_opt categories = Ok (table es') ->
  es' <> [] ->
  Forall (fun e => e_date e <> None) es' /\ kpis_as_stated es'.
Proof.
  intros Hf Hne. pose proof (filter_df_returns es _ _ _ _ Hf) as Hr.
  assert (Hd : Forall (fun e : expense Qc => e_date e <> None) es').
  { rewrite (filter_df_table_inv es es' _ _ _ Hr Hf). apply Forall_forall.
    intros e Hin. apply filter_In in Hin. destruct Hin as [_ Hk].
    destruct (keeps_dated _ _ _ _ Hk) as [d [Hd _]]. congruence. }
  split; [exact Hd |].
  exists (fold_left group_row es' []), (f_of_nat (List.length es')).
  split; [apply per_day_rows |].
  assert (Hg : fold_left group_row es' [] <> []).
  { apply (per_day_nonempty es' _ (per_day_rows es')).
    destruct es' as [| e es'']; [congruence |].
    exists e. split; [now left | now inversion Hd]. }
  split; [exact Hg |].
  rewrite (compute_kpis_table es' Hne).
  destruct (fold_left group_row es' []); [congruence | reflexivity].
Qed.

Lemma filtered_kpis_as_stated_witness :
  Forall (fun e => e_date e <> None)
         (filter (keeps 2024 "January" ["Food"]) january)
  /\ kpis_as_stated (filter (keeps 2024 "January" ["Food"]) january).
Proof.
  apply (filtered_kpis_as_stated january _ 2024 "January" ["Food"]).
  - reflexivity.
  - discriminate.
Defined.

(** X4.  The columns of what [filter_df] returns, for any frame on which
    it does not raise: an empty frame keeps its columns; otherwise they are
    the columns of the frame without "year" and "month" -- the helper
    columns, and a column of the frame itself that has one of these
    names. *)
Theorem filter_df_columns {A : Type} {NumA : Number A} {TxtA : Text A}
    (df df' : frame A) (y : Z) (month_opt : string) (categories : list string) :
  filter_df df y month_opt categories = Ok df' ->
  columns df'
  = if empty df then columns df
    else filter (fun c => negb (mem c ["year"; "month"])) (columns df).
Proof.
  unfold filter_df. destruct (empty df); [intros E; now injection E as <- |].
  destruct (getcol df "date") as [d | e]; cbn [rbind]; [| discriminate].
  destruct (to_datetime d) as [t | e]; cbn [rbind]; [| discriminate].
  cbv zeta.
  destruct (getcol (setcol df "year" (dt_year t)) "date") as [d2 | e];
    cbn [rbind]; [| discriminate].
  destruct (to_datetime d2) as [t2 | e]; cbn [rbind]; [| discriminate].
  set (df2 := setcol (setcol df "year" (dt_year t)) "month" (dt_month t2)).
  assert (Hc : filter (fun c => negb (mem c ["year"; "month"])) (columns df2)
               = filter (fun c => negb (mem c ["year"; "month"])) (columns df)).
  { unfold df2. rewrite !columns_setcol. apply filter_helpers. }
  destruct (getcol df2 "year") as [ys | e]; cbn [rbind]; [| discriminate].
  set (df3 := mask df2 (eq_int ys y)).
  assert (Hc3 : columns df3 = columns df2) by reflexivity.
  assert (Hdrop : forall dfx : frame A,
             columns dfx = columns df2 ->
             columns (drop dfx ["year"; "month"])
             = filter (fun c => negb (mem c ["year"; "month"])) (columns df)).
  { intros dfx Hx. unfold drop. simpl. rewrite select_filter, Hx. exact Hc. }
  destruct (negb (month_name_to_num month_opt =? 0)%Z).
  - destruct (getcol df3 "month") as [ms | e]; cbn [rbind]; [| discriminate].
    destruct categories as [| c cs].
    + cbn [rbind]. intros E. injection E as <-. now apply Hdrop.
    + destruct (getcol _ "category") as [cs' | e]; cbn [rbind]; [| discriminate].
      intros E. injection E as <-. now apply Hdrop.
  - cbn [rbind]. destruct categories as [| c cs].
    + cbn [rbind]. intros E. injection E as <-. now apply Hdrop.
    + destruct (getcol df3 "category") as [cs' | e]; cbn [rbind]; [| discriminate].
      intros E. injection E as <-. now apply Hdrop.
Qed.

Lemma filter_df_columns_witness :
  columns (table (filter (keeps 2024 "January" ["Food"]) january))
  = if empty (table january) then columns (table january)
    else filter (fun c => negb (mem c ["year"; "month"]))
                (columns (table january)).
Proof.
  apply (filter_df_columns (table january) _ 2024 "January" ["Food"]).
  reflexivity.
Defined.

(** A frame with a column named "year" loses it. *)
Example filter_df_drops_year :
  rbind (filter_df (A := Qc)
           (Frame ["date"; "year"] [[Day (Date 2024 1 5); Str "leap"]])
           2024 "All year" [])
        (fun df => Ok (columns df))
  = Ok ["date"].
Proof. reflexivity. Qed.

(** ** compute_kpis in exact arithmetic *)

Lemma fold_max_In (l : list Qc) (a : Qc) :
  fold_left f_max l a = a \/ In (fold_left f_max l a) l.
Proof.
  revert a. induction l as [| x l IH]; intros a; simpl; [now left |].
  destruct (IH (f_max a x)) as [E | Hin]; [| right; now right].
  rewrite E. unfold f_max. destruct (f_leb a x); [right; now left | now left].
Qed.

Lemma maxl_In (l : list Qc) : l <> [] -> In (maxl l) l.
Proof.
  destruct l as [| a l]; [congruence |]. intros _. simpl.
  destruct (fold_max_In l a) as [E | Hin]; [left; now symmetry | now right].
Qed.

Lemma sum_perm (l l' : list Qc) : Permutation l l' -> sum l = sum l'.
Proof.
  induction 1 as [| x l l' _ IH | x y l | l l' l'' _ IH1 _ IH2].
  - reflexivity.
  - now rewrite !sum_cons, IH.
  - rewrite !sum_cons. ring.
  - congruence.
Qed.

Lemma sum_app (l l' : list Qc) : sum (l ++ l') = sum l + sum l'.
Proof.
  induction l as [| x l IH]; simpl.
  - unfold sum at 2. simpl. now rewrite Qcplus_0_l.
  - rewrite !sum_cons, IH. ring.
Qed.

Lemma sum_nil : sum (A := Qc) [] = 0.
Proof. reflexivity. Qed.

Lemma Qcle_plus_r (x y : Qc) : 0 <= y -> x <= x + y.
Proof.
  intros Hy. replace x with (x + 0) at 1 by ring.
  apply Qcplus_le_compat; [apply Qcle_refl | exact Hy].
Qed.

Lemma Qcle_plus_l (x y : Qc) : 0 <= y -> x <= y + x.
Proof.
  intros Hy. rewrite Qcplus_comm. now apply Qcle_plus_r.
Qed.

Lemma sum_nonneg (l : list Qc) : Forall (fun x => 0 <= x) l -> 0 <= sum l.
Proof.
  induction 1 as [| x l Hx _ IH]; [apply Qcle_refl |].
  rewrite sum_cons. apply Qcle_trans with x; [exact Hx | now apply Qcle_plus_r].
Qed.

Lemma elem_le_sum (l : list Qc) (x : Qc) :
  Forall (fun x => 0 <= x) l -> In x l -> x <= sum l.
Proof.
  induction 1 as [| y l Hy Hl IH]; [contradiction |].
  rewrite sum_cons. intros [-> | Hin].
  - apply Qcle_plus_r. now apply sum_nonneg.
  - apply Qcle_trans with (sum l); [now apply IH | now apply Qcle_plus_l].
Qed.

Lemma Permutation_filter' {X : Type} (p : X -> bool) (l l' : list X) :
  Permutation l l' -> Permutation (filter p l) (filter p l').
Proof.
  induction 1 as [| x l l' _ IH | x y l | l l' l'' _ IH1 _ IH2]; simpl.
  - constructor.
  - destruct (p x); [now constructor | exact IH].
  - destruct (p x), (p y); try apply Permutation_refl. constructor.
  - now apply Permutation_trans with (filter p l').
Qed.

Lemma daily_sum_perm (es es' : list (expense Qc)) (d : date) :
  Permutation es es' -> daily_sum es d = daily_sum es' d.
Proof.
  intros Hp. unfold daily_sum. apply sum_perm. apply Permutation_map.
  now apply Permutation_filter'.
Qed.

Lemma per_day_perm (es es' : list (expense Qc)) (g : list (date * Qc)) :
  Permutation es es' -> per_day es g -> per_day es' g.
Proof.
  intros Hp [Hs [Hk Hv]]. split; [exact Hs |]. split.
  - intros d. rewrite Hk. split; intros [e [Hin He]]; exists e; split;
      try exact He.
    + now apply Permutation_in with es.
    + apply Permutation_in with es'; [now apply Permutation_sym | exact Hin].
  - intros d s Hin. rewrite <- (daily_sum_perm es es' d Hp). now apply Hv.
Qed.

Lemma daily_sum_nonneg (es : list (expense Qc)) (d : date) :
  Forall (fun e => 0 <= e_amount e) es -> 0 <= daily_sum es d.
Proof.
  intros Hn. unfold daily_sum. apply sum_nonneg.
  apply Forall_forall. intros x Hin. apply in_map_iff in Hin.
  destruct Hin as [e [<- Hin]]. apply filter_In in Hin.
  rewrite Forall_forall in Hn. now apply Hn.
Qed.

Lemma mean_times (l : list Qc) :
  l <> [] -> mean l * f_of_nat (List.length l) = sum l.
Proof.
  intros Hne. unfold mean. change (@f_div Qc _) with Qcdiv.
  rewrite Qcmult_comm. apply Qcmult_div_r.
  destruct l as [| x l]; [congruence |]. intros E.
  pose proof (of_nat_pos (List.length l)) as Hp. simpl List.length in E.
  rewrite E in Hp. discriminate.
Qed.

(** X5.  In exact arithmetic the maximum [compute_kpis] returns is the
    greatest per-day sum: it is the sum of some day, and the sum of no day
    exceeds it. *)
Theorem max_day_greatest (es : list (expense Qc)) (g : list (date * Qc))
    (total avg_day max_day n : Qc) :
  per_day es g -> g <> [] ->
  compute_kpis (table es) = Ok (total, avg_day, max_day, n) ->
  In max_day (map snd g) /\ (forall x, In x (map snd g) -> x <= max_day).
Proof.
  intros Hp Hg Hk.
  assert (Hne : es <> []).
  { apply (per_day_nonempty es g Hp) in Hg. destruct Hg as [e [Hin _]].
    intros ->. contradiction. }
  assert (Eg : g = fold_left group_row es [])
    by (apply (per_day_unique es); [exact Hp | apply per_day_rows]).
  rewrite (compute_kpis_table es Hne), <- Eg in Hk.
  assert (Em : max_day = maxl (map snd g)).
  { destruct g as [| p g']; [congruence |]. congruence. }
  subst max_day. split.
  - apply maxl_In. destruct g; [congruence | discriminate].
  - intros x Hx. now apply maxl_ge.
Qed.

Lemma max_day_greatest_witness :
  In (maxl (map snd (fold_left group_row january [])))
     (map snd (fold_left group_row january []))
  /\ (forall x,
        In x (map snd (fold_left group_row january [])) ->
        x <= maxl (map snd (fold_left group_row january []))).
Proof.
  apply (max_day_greatest january (fold_left group_row january [])
           (sum (map e_amount january))
           (mean (map snd (fold_left group_row january [])))
           (maxl (map snd (fold_left group_row january [])))
           (f_of_nat (List.length january))).
  - apply per_day_rows.
  - discriminate.
  - vm_compute. reflexivity.
Defined.

(** X6.  In exact arithmetic, on a table that has a row, in which every
    row has a date and no amount is negative -- what the form lets in and
    [filter_df] lets through -- the statistics are ordered: 0 <= daily
    average <= daily maximum <= total. *)
Theorem kpis_ordered (es : list (expense Qc)) (total avg_day max_day n : Qc) :
  es <> [] ->
  Forall (fun e => e_date e <> None) es ->
  Forall (fun e => 0 <= e_amount e) es ->
  compute_kpis (table es) = Ok (total, avg_day, max_day, n) ->
  0 <= avg_day /\ avg_day <= max_day /\ max_day <= total.
Proof.
  intros Hne Hd Hn Hk. set (g := fold_left group_row es []).
  assert (Hp : per_day es g) by apply per_day_rows.
  assert (Hg : g <> []).
  { apply (per_day_nonempty es g Hp). destruct es as [| e es']; [congruence |].
    exists e. split; [now left | now inversion Hd]. }
  assert (Hsum : sum (map e_amount es) = sum (map snd g)).
  { unfold g. rewrite sum_group_rows by exact Hd. unfold sum at 2. simpl.
    now rewrite Qcplus_0_l. }
  assert (Hpos : Forall (fun x => 0 <= x) (map snd g)).
  { apply Forall_forall. intros x Hx. apply in_map_iff in Hx.
    destruct Hx as [[d s] [<- Hin]]. simpl.
    destruct Hp as [_ [_ Hv]]. rewrite (Hv d s Hin).
    now apply daily_sum_nonneg. }
  assert (Hl : map snd g <> []) by (destruct g; [congruence | discriminate]).
  rewrite (compute_kpis_table es Hne) in Hk. fold g in Hk.
  assert (Ek : total = sum (map snd g) /\ avg_day = mean (map snd g)
               /\ max_day = maxl (map snd g)).
  { destruct g as [| p g']; [congruence |].
    injection Hk as <- <- <- _. now rewrite Hsum. }
  destruct Ek as [-> [-> ->]].
  assert (Hlen : 0 < f_of_nat (A := Qc) (List.length (map snd g))).
  { destruct (map snd g) as [| x l]; [congruence | apply of_nat_pos]. }
  split; [| split].
  - apply Qcmult_lt_0_le_reg_r with (f_of_nat (List.length (map snd g)));
      [exact Hlen |].
    rewrite (mean_times _ Hl), Qcmult_0_l. now apply sum_nonneg.
  - apply Qcmult_lt_0_le_reg_r with (f_of_nat (List.length (map snd g)));
      [exact Hlen |].
    rewrite (mean_times _ Hl). apply sum_le_bound. intros x Hx.
    now apply maxl_ge.
  - apply elem_le_sum; [exact Hpos | now apply maxl_In].
Qed.

Lemma kpis_ordered_witness :
  0 <= mean (map snd (fold_left group_row january []))
  /\ mean (map snd (fold_left group_row january []))
     <= maxl (map snd (fold_left group_row january []))
  /\ maxl (map snd (fold_left group_row january []))
     <= sum (map e_amount january).
Proof.
  apply (kpis_ordered january
           (sum (map e_amount january))
           (mean (map snd (fold_left group_row january [])))
           (maxl (map snd (fold_left group_row january [])))
           (f_of_nat (List.length january))).
  - discriminate.
  - repeat constructor; discriminate.
  - repeat constructor; discriminate.
  - vm_compute. reflexivity.
Defined.

(** X7.  In exact arithmetic the statistics do not depend on the order of
    the rows: two tables with the same rows in different orders have the
    same total, daily average, daily maximum and count. *)
Theorem compute_kpis_order (es es' : list (expense Qc)) :
  Permutation es es' ->
  compute_kpis (table es) = compute_kpis (table es').
Proof.
  intros Hp. destruct es as [| e es0].
  - apply Permutation_nil in Hp. now subst.
  - assert (Hne' : es' <> []).
    { intros ->. apply Permutation_sym, Permutation_nil in Hp. discriminate. }
    rewrite (compute_kpis_table (e :: es0)) by discriminate.
    rewrite (compute_kpis_table es' Hne').
    assert (Eg : fold_left group_row (e :: es0) [] = fold_left group_row es' []).
    { apply (per_day_unique es'); [| apply per_day_rows].
      apply (per_day_perm (e :: es0)); [exact Hp | apply per_day_rows]. }
    rewrite Eg, (Permutation_length Hp).
    now rewrite (sum_perm _ _ (Permutation_map e_amount Hp)).
Qed.

Lemma compute_kpis_order_witness :
  compute_kpis (table january) = compute_kpis (table (rev january)).
Proof.
  apply (compute_kpis_order january (rev january)). apply Permutation_rev.
Defined.

(** ** The twelve months and the year *)

Lemma filter_cons_true {X : Type} (p : X -> bool) (x : X) (l : list X) :
  p x = true -> filter p (x :: l) = x :: filter p l.
Proof.
  intros H. simpl. now rewrite H.
Qed.

Lemma filter_cons_false {X : Type} (p : X -> bool) (x : X) (l : list X) :
  p x = false -> filter p (x :: l) = filter p l.
Proof.
  intros H. simpl. now rewrite H.
Qed.

Lemma concat_filter_none {X N : Type} (p : N -> X -> bool) (names : list N)
    (e : X) (es : list X) :
  (forall n, In n names -> p n e = false) ->
  List.concat (map (fun n => filter (p n) (e :: es)) names)
  = List.concat (map (fun n => filter (p n) es) names).
Proof.
  induction names as [| n names IH]; intros Hn; [reflexivity |].
  cbn [map List.concat].
  rewrite (filter_cons_false (p n) e es) by (apply Hn; now left).
  f_equal. apply IH. intros n' Hn'. apply Hn. now right.
Qed.

Lemma concat_filter_one {X N : Type} (p : N -> X -> bool) (names : list N)
    (k : N) (e : X) (es : list X) :
  In k names -> p k e = true ->
  (forall n, In n names -> n <> k -> p n e = false) ->
  NoDup names ->
  Permutation (List.concat (map (fun n => filter (p n) (e :: es)) names))
              (e :: List.concat (map (fun n => filter (p n) es) names)).
Proof.
  induction names as [| n names IH]; intros Hk Hp Hn Hnd; [contradiction |].
  inversion Hnd as [| ? ? Hnotin Hnd']; subst. cbn [map List.concat].
  destruct Hk as [-> | Hk].
  - rewrite (filter_cons_true (p k) e es Hp). cbn [app]. constructor.
    rewrite (concat_filter_none p names e es); [apply Permutation_refl |].
    intros n Hin. apply Hn; [now right |]. intros ->. contradiction.
  - rewrite (filter_cons_false (p n) e es)
      by (apply Hn; [now left | intros ->; contradiction]).
    apply Permutation_trans
      with (filter (p n) es
            ++ e :: List.concat (map (fun n0 => filter (p n0) es) names)).
    + apply Permutation_app_head. apply IH; try assumption.
      intros n' Hn' Hne. apply Hn; [now right | exact Hne].
    + apply Permutation_sym, Permutation_middle.
Qed.

Lemma months_values_NoDup : NoDup (map snd months).
Proof.
  simpl. repeat constructor; simpl; intuition discriminate.
Qed.

Lemma In_snd_unique {K V : Type} (l : list (K * V)) (a b : K) (v : V) :
  NoDup (map snd l) -> In (a, v) l -> In (b, v) l -> a = b.
Proof.
  induction l as [| [k w] l IH]; simpl; [contradiction |].
  intros Hnd Ha Hb. inversion Hnd as [| ? ? Hw Hnd']; subst.
  destruct Ha as [Ea | Ha], Hb as [Eb | Hb].
  - congruence.
  - injection Ea as -> ->. exfalso. apply Hw.
    change v with (snd (b, v)). now apply in_map.
  - injection Eb as -> ->. exfalso. apply Hw.
    change v with (snd (a, v)). now apply in_map.
  - now apply IH.
Qed.

Lemma month_has_name (m : Z) :
  (1 <= m <= 12)%Z -> exists name, In (name, m) months.
Proof.
  intros Hm.
  assert (H : (m = 1 \/ m = 2 \/ m = 3 \/ m = 4 \/ m = 5 \/ m = 6 \/ m = 7
               \/ m = 8 \/ m = 9 \/ m = 10 \/ m = 11 \/ m = 12)%Z) by lia.
  repeat (destruct H as [-> | H];
          [eexists; simpl; repeat (first [left; reflexivity | right]) |]).
  subst. eexists. simpl. repeat (first [left; reflexivity | right]).
Qed.

Section MonthFacts.

Context {A : Type} {NumA : Number A} {TxtA : Text A}.

Lemma keeps_month_name (y : Z) (name : string) (m : Z) (e : expense A) :
  In (name, m) months ->
  keeps y name [] e
  = match e_date e with
    | Some d => (year d =? y)%Z && (month d =? m)%Z
    | None => false
    end.
Proof.
  intros Hin. apply month_name_to_num_spec in Hin. destruct Hin as [Hn Hm].
  unfold keeps. rewrite Hn. destruct (e_date e) as [d |]; [| reflexivity].
  apply Z.eqb_neq in Hm. rewrite Hm. simpl. now rewrite andb_true_r.
Qed.

Lemma keeps_all_year (y : Z) (e : expense A) :
  keeps y "All year" [] e
  = match e_date e with
    | Some d => (year d =? y)%Z
    | None => false
    end.
Proof.
  unfold keeps. simpl. destruct (e_date e); [| reflexivity].
  now rewrite !andb_true_r.
Qed.

(** Every row of the year is a row of exactly one month. *)
Lemma in_month_partition (y : Z) (es : list (expense A)) :
  months_valid es ->
  Permutation (List.concat (map (fun name => in_month y name es) (map fst months)))
              (in_month y "All year" es).
Proof.
  unfold in_month. induction 1 as [| e es He _ IH]; [apply Permutation_refl |].
  assert (Hy0 : forall b, keeps y "All year" [] e = b ->
                filter (keeps y "All year" []) (e :: es)
                = if b then e :: filter (keeps y "All year" []) es
                  else filter (keeps y "All year" []) es).
  { intros b <-. reflexivity. }
  rewrite (Hy0 _ (keeps_all_year y e)). clear Hy0.
  destruct (e_date e) as [d |] eqn:Ed.
  - destruct (year d =? y)%Z eqn:Hy.
    + destruct (month_has_name (month d) (He d eq_refl)) as [k Hk].
      apply Permutation_trans
        with (e :: List.concat (map (fun name => filter (keeps y name []) es)
                               (map fst months))).
      * apply (concat_filter_one (fun name => keeps y name [])
                                 (map fst months) k e es).
        -- change k with (fst (k, month d)). now apply in_map.
        -- rewrite (keeps_month_name y k (month d) e Hk), Ed, Hy.
           now rewrite Z.eqb_refl.
        -- intros n Hn Hne. apply in_map_iff in Hn.
           destruct Hn as [[n' mn] [En Hn]]. simpl in En. subst n'.
           rewrite (keeps_month_name y n mn e Hn), Ed, Hy. simpl.
           apply Z.eqb_neq. intros Em. apply Hne. subst mn.
           exact (In_snd_unique months n k (month d) months_values_NoDup Hn Hk).
        -- exact months_NoDup.
      * now constructor.
    + rewrite (concat_filter_none (fun name => keeps y name [])); [exact IH |].
      intros n Hn. apply in_map_iff in Hn.
      destruct Hn as [[n' mn] [En Hn]]. simpl in En. subst n'.
      now rewrite (keeps_month_name y n mn e Hn), Ed, Hy.
  - rewrite (concat_filter_none (fun name => keeps y name [])); [exact IH |].
    intros n Hn. apply in_map_iff in Hn.
    destruct Hn as [[n' mn] [En Hn]]. simpl in En. subst n'.
    now rewrite (keeps_month_name y n mn e Hn), Ed.
Qed.

Lemma Forall2_map_r {X Y : Type} (P : X -> Y -> Prop) (f : X -> Y) (l : list X) :
  (forall x, P x (f x)) -> Forall2 P l (map f l).
Proof.
  intros H. induction l; simpl; constructor; auto.
Qed.

(** The total the dashboard shows is the sum of the amounts of the rows
    [filter_df] keeps. *)
Lemma total_spend_sum (y : Z) (month_opt : string) (es : list (expense A)) :
  dates_in_range es ->
  total_spend y month_opt es = Ok (sum (map e_amount (in_month y month_opt es))).
Proof.
  intros Hr. unfold total_spend, in_month.
  rewrite (filter_df_table es y month_opt [] Hr), rbind_Ok.
  destruct (filter (keeps y month_opt []) es) as [| e l] eqn:El.
  - reflexivity.
  - rewrite (compute_kpis_table (e :: l)) by discriminate. reflexivity.
Qed.

End MonthFacts.

(** X8.  The twelve monthly views partition the yearly view: for a table
    whose dates have months from 1 to 12, the rows [filter_df] returns for
    the twelve month names of a year, taken together, are the rows it
    returns for "All year" -- every row of the year in exactly one month,
    as many times as it occurs. *)
Theorem months_partition {A : Type} {NumA : Number A} {TxtA : Text A}
    (es : list (expense A)) (y : Z) :
  dates_in_range es ->
  months_valid es ->
  exists yearly monthly,
    filter_df (table es) y "All year" [] = Ok (table yearly)
    /\ Forall2 (fun name part => filter_df (table es) y name [] = Ok (table part))
               (map fst months) monthly
    /\ Permutation (List.concat monthly) yearly.
Proof.
  intros Hr Hm.
  exists (in_month y "All year" es),
    (map (fun name => in_month y name es) (map fst months)).
  split; [now apply filter_df_table |]. split.
  - apply Forall2_map_r. intros name. now apply filter_df_table.
  - now apply in_month_partition.
Qed.

Lemma months_partition_witness :
  exists yearly monthly,
    filter_df (table january) 2024 "All year" [] = Ok (table yearly)
    /\ Forall2 (fun name part =>
                  filter_df (table january) 2024 name [] = Ok (table part))
               (map fst months) monthly
    /\ Permutation (List.concat monthly) yearly.
Proof.
  apply (months_partition january 2024).
  - repeat constructor; intros d E; inversion E; reflexivity.
  - unfold months_valid, january.
    repeat (apply Forall_cons; [intros d E; inversion E; simpl; lia |]).
    apply Forall_nil.
Defined.

Lemma sum_concat (ls : list (list Qc)) : sum (List.concat ls) = sum (map sum ls).
Proof.
  induction ls as [| l ls IH]; simpl; [reflexivity |].
  now rewrite sum_app, sum_cons, IH.
Qed.

(** X9.  In exact arithmetic the total of a year is the sum of the totals
    of its twelve months: what the dashboard shows for "All year" is the
    sum of what it shows for January to December of that year. *)
Theorem year_total_is_sum_of_months (es : list (expense Qc)) (y : Z) :
  dates_in_range es ->
  months_valid es ->
  exists total totals,
    total_spend y "All year" es = Ok total
    /\ mapM (fun name => total_spend y name es) (map fst months) = Ok totals
    /\ total = sum totals.
Proof.
  intros Hr Hm.
  exists (sum (map e_amount (in_month y "All year" es))),
    (map (fun name => sum (map e_amount (in_month y name es))) (map fst months)).
  split; [now apply total_spend_sum |]. split.
  - rewrite <- (map_id (map fst months)) at 1.
    apply (mapM_map (fun name => total_spend y name es) (fun x => x)).
    apply Forall_forall. intros name _. now apply total_spend_sum.
  - rewrite <- (sum_perm _ _ (Permutation_map e_amount
                                (in_month_partition y es Hm))).
    rewrite concat_map, sum_concat, !map_map. reflexivity.
Qed.

Lemma year_total_is_sum_of_months_witness :
  exists total totals,
    total_spend 2024 "All year" january = Ok total
    /\ mapM (fun name => total_spend 2024 name january) (map fst months)
       = Ok totals
    /\ total = sum totals.
Proof.
  apply (year_total_is_sum_of_months january 2024).
  - repeat constructor; intros d E; inversion E; reflexivity.
  - unfold months_valid, january.
    repeat (apply Forall_cons; [intros d E; inversion E; simpl; lia |]).
    apply Forall_nil.
Defined.

(** ** The form and the data file *)

Section FormFacts2.

Context {A : Type} {NumA : Number A} {TxtA : Text A}.

(** Reading the file of a table of rows that are read back as themselves. *)
Lemma load_saved (es : list (expense A)) :
  Forall storable es ->
  fst (load_data (Some (Csv DATA_COLUMNS (map record_of es)))) = Ok (table es).
Proof.
  intros Hs. rewrite load_data_unfold. simpl fst. cbn [opened].
  destruct es as [| e0 es0]; [reflexivity |].
  rewrite parse_saved by (discriminate || exact Hs).
  simpl negb. cbv iota. now apply coerce_saved.
Qed.

Lemma record_of_new_expense (d : date) (cat : string) (amt : A) (note : string) :
  record_of (new_expense d cat amt note) = new_record d cat amt note.
Proof.
  reflexivity.
Qed.

Lemma four_columns_saved (es : list (expense A)) :
  four_columns (Some (Csv DATA_COLUMNS (map record_of es))).
Proof.
  split; [reflexivity |]. apply Forall_forall. intros r Hin.
  apply in_map_iff in Hin. now destruct Hin as [e [<- _]].
Qed.

Lemma healthy_four_columns (s : store) : healthy s -> four_columns s.
Proof.
  destruct s as [f |]; [| trivial]. intros [Hh Hr]. split; [exact Hh |].
  eapply Forall_impl; [| exact Hr]. now intros r [Hl _].
Qed.

Lemma parse_four (f : csv) :
  header f = DATA_COLUMNS ->
  Forall (fun r => List.length r = 4%nat) (records f) ->
  exists raw : frame A, parse f = Ok raw.
Proof.
  intros Hh Hr. rewrite parse_aligned.
  2:{ apply leading_short. rewrite Hh. eapply Forall_impl; [| exact Hr].
      intros r Hl. simpl in *. lia. }
  rewrite Hh. change (List.length DATA_COLUMNS) with 4%nat.
  replace (forallb (fun r => (List.length r <=? 4)%nat) (records f)) with true.
  - unfold DATA_COLUMNS. eauto.
  - symmetry. apply forallb_forall. intros r Hin.
    rewrite Forall_forall in Hr. now rewrite (Hr r Hin).
Qed.

Lemma Forall2_Forall_r {X Y : Type} (R : X -> Y -> Prop) (P : X -> Prop)
    (Q : Y -> Prop) (l : list X) (t : list Y) :
  (forall x y, P x -> R x y -> Q y) ->
  Forall2 R l t -> Forall P l -> Forall Q t.
Proof.
  intros H. induction 1 as [| x y l t Hxy _ IH]; intros Hp; constructor;
    inversion Hp; subst; eauto.
Qed.

(** A healthy file is read as a table in which every row has a date whose
    text converts back to it. *)
Lemma healthy_loads (s : store) :
  healthy s ->
  exists es,
    fst (load_data s) = Ok (table es)
    /\ List.length es = List.length (records (opened s))
    /\ Forall (fun e => exists d, e_date e = Some d /\ date_kept d) es.
Proof.
  intros Hh. pose proof (healthy_four_columns s Hh) as Hf.
  destruct (four_columns_opened s Hf) as [Hhd Hlen].
  assert (Hrec : Forall (fun r => exists d, nth 0 r "" = isoformat d /\ date_kept d)
                        (records (opened s))).
  { destruct s as [f |]; [| constructor]. destruct Hh as [_ Hr].
    eapply Forall_impl; [| exact Hr]. now intros r [_ H]. }
  destruct (parse_four (opened s) Hhd Hlen) as [raw Hp].
  assert (Hlead : leading (opened s) = 0%nat).
  { apply leading_short. rewrite Hhd. eapply Forall_impl; [| exact Hlen].
    intros r Hl. simpl in *. lia. }
  assert (Hload : exists df, fst (load_data s) = Ok df
                  /\ (records (opened s) <> [] ->
                      exists d t, getcol raw "date" = Ok d /\ to_datetime d = Ok t
                                  /\ getcol df "date" = Ok (dt_date t))).
  { rewrite load_data_unfold, Hp. simpl fst.
    destruct (empty raw) eqn:He; simpl negb; cbv iota.
    - exists raw. split; [reflexivity |]. intros Hne.
      now apply (parse_empty _ _ Hp) in He.
    - assert (Hd : getcol raw "date"
                   = Ok (map (fun r => Str (nth 0 r "")) (records (opened s)))).
      { rewrite (parse_getcol _ _ "date" 0 Hp) by (now rewrite Hhd).
        rewrite Hlead. cbn [Nat.add]. f_equal. unfold column_fields.
        rewrite (infer_plain (fun r => nth 0 r "")).
        - apply map_ext_in. intros r Hin. rewrite Forall_forall in Hrec.
          destruct (Hrec r Hin) as [d [-> [Hpl _]]]. now apply read_cell_plain.
        - intros E. apply (parse_empty _ _ Hp) in E. congruence.
        - eapply Forall_impl; [| exact Hrec]. now intros r [d [-> [Hpl _]]]. }
      assert (Hco : exists df, coerce raw = Ok df).
      { eapply coerce_total; [exact (parse_rect _ _ Hp) | | exact Hd |].
        - intros c Hc. now rewrite (parse_columns _ _ Hp), Hhd.
        - apply Forall_forall. intros c Hc. apply in_map_iff in Hc.
          destruct Hc as [r [<- Hin]]. rewrite Forall_forall in Hrec.
          destruct (Hrec r Hin) as [d [-> [_ Ht]]]. exists (Some d).
          simpl. now rewrite Ht. }
      destruct Hco as [df Hco].
      exists df. split; [exact Hco |]. intros _.
      destruct (coerce_inv _ _ (parse_rect _ _ Hp) Hco)
        as [d [t [c [a [n H]]]]].
      exists d, t. tauto. }
  destruct Hload as [df [Hl Hdates]].
  assert (Hl' : load_data s = (Ok df, snd (load_data s)))
    by (rewrite <- Hl; now destruct (load_data s)).
  destruct (load_data_table _ _ _ Hf Hl') as [es ->].
  destruct (load_data_four _ _ _ Hf Hl') as [_ [_ Hn]].
  exists es. split; [exact Hl |]. split.
  { simpl in Hn. now rewrite length_map in Hn. }
  destruct (records (opened s)) as [| r0 rs] eqn:Er.
  { simpl in Hn. rewrite length_map in Hn. destruct es; [constructor | discriminate]. }
  destruct Hdates as [d [t [Hd [Ht Hg]]]]; [discriminate |].
  rewrite (parse_getcol _ _ "date" 0 Hp) in Hd by (now rewrite Hhd).
  rewrite Hlead in Hd. cbn [Nat.add] in Hd.
  injection Hd as <-. rewrite Er in Ht.
  assert (Hplain : infer (column_fields (r0 :: rs) 0) = ObjectCol).
  { unfold column_fields. apply (infer_plain (fun r => nth 0 r ""));
      [discriminate |].
    eapply Forall_impl; [| exact Hrec]. now intros r [d [-> [Hpl _]]]. }
  assert (Hall : Forall (fun o => exists d, o = Some d /\ date_kept d) t).
  { apply mapM_inv in Ht.
    apply (Forall2_Forall_r _ (fun c : cell A =>
                                 exists d, c = Str (isoformat d) /\ date_kept d)
                            _ _ _) with (2 := Ht).
    - intros c o [d [-> Hk]] E. exists d. split; [| exact Hk].
      simpl in E. destruct Hk as [_ Hk]. rewrite Hk in E. congruence.
    - apply Forall_forall. intros c Hc. apply in_map_iff in Hc.
      destruct Hc as [r [<- Hin]]. rewrite Forall_forall in Hrec.
      destruct (Hrec r Hin) as [d [E Hk]]. exists d. split; [| exact Hk].
      rewrite Hplain, E. apply read_cell_plain. now destruct Hk. }
  unfold getcol in Hg. simpl in Hg. injection Hg as Hg. rewrite map_map in Hg.
  unfold dt_date in Hg. apply map_eq_Forall in Hg.
  eapply Forall_impl; [| exact Hg].
  intros e [o [Hin E]]. rewrite Forall_forall in Hall.
  destruct (Hall o Hin) as [d [-> Hk]]. exists d. split; [| exact Hk].
  simpl in E. destruct (e_date e); simpl in E; congruence.
Qed.

(** Submitting the form keeps a healthy file healthy, and adds one
    record. *)
Lemma healthy_submit (d : date) (cat : string) (amt : A) (note : string)
    (s : store) :
  healthy s -> date_kept d ->
  healthy (snd (add_expense d cat amt note s))
  /\ List.length (records (opened (snd (add_expense d cat amt note s))))
     = S (List.length (records (opened s))).
Proof.
  intros Hh Hk. destruct (healthy_loads s Hh) as [es [Hl [Hn Hd]]].
  pose proof (add_expense_result d cat amt note s (healthy_four_columns s Hh))
    as Ha.
  rewrite Hl in Ha. destruct Ha as [_ Ha]. rewrite Ha. simpl snd.
  cbn [opened records]. split.
  - split; [reflexivity |]. apply Forall_app. split.
    + simpl rows. rewrite map_map. apply Forall_forall. intros r Hin.
      apply in_map_iff in Hin. destruct Hin as [e [<- Hin]].
      split; [reflexivity |]. rewrite Forall_forall in Hd.
      destruct (Hd e Hin) as [d' [E Hk']]. exists d'. split; [| exact Hk'].
      simpl. now rewrite E.
    + constructor; [| constructor]. split; [reflexivity |]. now exists d.
  - rewrite length_app. simpl rows. rewrite !length_map. simpl. lia.
Qed.

Lemma written_healthy (n : nat) (s : store) :
  written n s -> healthy s /\ List.length (records (opened s)) = n.
Proof.
  induction 1 as [| n y month_opt categories s _ [IH1 IH2]
                  | n d cat amt note s _ [IH1 IH2] Hk]; [now split | |].
  - rewrite dashboard_unfold. simpl snd. split; [| exact IH2].
    destruct s as [f |]; [exact IH1 |]. split; [reflexivity | constructor].
  - destruct (healthy_submit d cat amt note s IH1 Hk) as [H1 H2].
    split; [exact H1 | congruence].
Qed.

End FormFacts2.

Lemma load_after_submit {A : Type} {NumA : Number A} {TxtA : Text A}
    (es : list (expense A)) (d : date) (cat : string) (amt : A) (note : string)
    (s : store) :
  Forall storable es ->
  storable (new_expense d cat amt note) ->
  fst (load_data
         (snd (add_expense d cat amt note (snd (save_data (table es) s)))))
  = Ok (table (es ++ [new_expense d cat amt note])).
Proof.
  intros Hs Hnew.
  change (snd (save_data (table es) s))
    with (Some (Csv DATA_COLUMNS (map (map field) (map row_of es)))).
  rewrite map_map. change (map (fun x => map field (row_of x)) es)
    with (map record_of es).
  pose proof (add_expense_result d cat amt note _ (four_columns_saved es)) as Ha.
  rewrite (load_saved es Hs) in Ha. destruct Ha as [_ Ha]. rewrite Ha.
  simpl snd. simpl rows. rewrite map_map.
  change (map (fun x => map field (row_of x)) es) with (map record_of es).
  rewrite <- record_of_new_expense.
  change [record_of (new_expense d cat amt note)]
    with (map record_of [new_expense d cat amt note]).
  rewrite <- map_app. apply load_saved. apply Forall_app. split; [exact Hs |].
  now constructor.
Qed.

(** X10.  An expense entered in the form is the last row of the next
    read: on the file of a table of rows that are read back as themselves,
    submitting the form with an entry that is read back as itself and
    reading the file again gives the table followed by the new expense --
    the entered date, amount and notes, and the entered category, or
    "Uncategorized" when that is empty or made of whitespace. *)
Theorem submit_then_load {A : Type} {NumA : Number A} {TxtA : Text A}
    (es : list (expense A)) (d : date) (cat : string) (amt : A) (note : string)
    (s : store) :
  Forall storable es ->
  storable (new_expense d cat amt note) ->
  fst (load_data
         (snd (add_expense d cat amt note (snd (save_data (table es) s)))))
  = Ok (table (es ++ [new_expense d cat amt note])).
Proof.
  apply load_after_submit.
Qed.

Lemma submit_then_load_witness :
  fst (load_data
         (snd (add_expense (Date 2024 1 8) "  " (amt 3 1) "bus"
                           (snd (save_data (table january) None)))))
  = Ok (table (january ++ [new_expense (Date 2024 1 8) "  " (amt 3 1) "bus"])).
Proof.
  apply (submit_then_load january (Date 2024 1 8) "  " (amt 3 1) "bus" None).
  - apply Forall_cons; [| apply Forall_cons; [| apply Forall_cons; [| apply Forall_nil]]];
      (eexists; split; [reflexivity |]; repeat split;
       try (vm_compute; reflexivity);
       simpl; f_equal; apply Qc_is_canon; vm_compute; reflexivity).
  - eexists; split; [reflexivity |]; repeat split;
      try (vm_compute; reflexivity);
      simpl; f_equal; apply Qc_is_canon; vm_compute; reflexivity.
Defined.

(** X11.  The program can read what it wrote: after [n] submissions of the
    form and any number of runs of the pipeline, from the absence of a
    file, with entered dates whose text converts back to them -- whatever
    the categories, the amounts and the notes -- [load_data] does not
    raise, and it returns a table of exactly [n] rows, all of them
    dated. *)
Theorem written_files_load {A : Type} {NumA : Number A} {TxtA : Text A}
    (n : nat) (s : store) :
  written (A := A) n s ->
  exists es,
    fst (load_data s) = Ok (table es)
    /\ List.length es = n
    /\ Forall (fun e => e_date e <> None) es.
Proof.
  intros Hw. destruct (written_healthy n s Hw) as [Hh Hn].
  destruct (healthy_loads s Hh) as [es [Hl [Hlen Hd]]].
  exists es. split; [exact Hl |]. split; [congruence |].
  eapply Forall_impl; [| exact Hd]. intros e [d [E _]]. congruence.
Qed.

Lemma written_files_load_witness :
  exists es,
    fst (load_data
           (snd (add_expense (Date 2024 1 9) "NA" (amt 1 3) ""
                   (snd (dashboard (A := Qc) 2024 "All year" []
                           (snd (add_expense (Date 2024 1 8) "" (amt 3 1) "bus"
                                             None)))))))
    = Ok (table es)
    /\ List.length es = 2%nat
    /\ Forall (fun e => e_date e <> None) es.
Proof.
  apply (written_files_load 2).
  apply written_submit;
    [apply written_run; apply written_submit; [apply written_none |] |];
    (split; [repeat split |]; vm_compute; reflexivity).
Defined.

(** ** The category box *)

Lemma unique_In (l : list string) (x : string) : In x (unique l) <-> In x l.
Proof.
  induction l as [| y l IH]; simpl; [tauto |].
  rewrite filter_In, IH. destruct (String.eqb_spec x y) as [-> | Hne].
  - tauto.
  - simpl. split; [tauto |]. intros [E | Hin]; [congruence | tauto].
Qed.

Lemma unique_NoDup (l : list string) : NoDup (unique l).
Proof.
  induction l as [| y l IH]; simpl; constructor.
  - rewrite filter_In, String.eqb_refl. simpl. intros [_ H]. discriminate.
  - now apply NoDup_filter.
Qed.

Lemma insert_str_perm (x : string) (l : list string) :
  Permutation (insert_str x l) (x :: l).
Proof.
  induction l as [| y l IH]; simpl; [apply Permutation_refl |].
  destruct (String.leb x y); [apply Permutation_refl |].
  apply Permutation_trans with (y :: x :: l); [now constructor | constructor].
Qed.

Lemma sorted_perm (l : list string) : Permutation (sorted l) l.
Proof.
  induction l as [| x l IH]; simpl; [constructor |].
  apply Permutation_trans with (x :: sorted l);
    [apply insert_str_perm | now constructor].
Qed.

Lemma insert_str_sorted (x : string) (l : list string) :
  Sorted (fun a b => String.leb a b = true) l ->
  Sorted (fun a b => String.leb a b = true) (insert_str x l).
Proof.
  induction 1 as [| y l Hs IH Hhd]; simpl; [repeat constructor |].
  destruct (String.leb x y) eqn:Hxy.
  - constructor; [now constructor | now constructor].
  - constructor; [exact IH |].
    assert (Hyx : String.leb y x = true)
      by (destruct (String.leb_total x y); congruence).
    destruct l as [| z l]; simpl; [now constructor |].
    destruct (String.leb x z); constructor; [exact Hyx |].
    now inversion Hhd.
Qed.

Lemma sorted_Sorted (l : list string) :
  Sorted (fun a b => String.leb a b = true) (sorted l).
Proof.
  induction l as [| x l IH]; simpl; [constructor |].
  now apply insert_str_sorted.
Qed.

Section WidgetFacts.

Context {A : Type} {NumA : Number A} {TxtA : Text A}.

Lemma dropna_strs_table (es : list (expense A)) :
  dropna_strs (map (fun e => @Str A (e_category e)) es)
  = Ok (map e_category es).
Proof.
  induction es as [| e es IH]; simpl; [reflexivity |]. now rewrite IH.
Qed.

(** The choices of the category box for a table of expenses. *)
Lemma cats_all_table (es : list (expense A)) :
  cats_all (table es) = Ok (sorted (unique (map e_category es))).
Proof.
  unfold cats_all. rewrite empty_table.
  destruct es as [| e0 es0]; [reflexivity |]. simpl is_nil. cbv iota.
  unfold table.
  rewrite (getcol_map DATA_COLUMNS row_of (e0 :: es0) "category" 1)
    by reflexivity.
  rewrite rbind_Ok.
  change (map (fun x => nth 1 (row_of x) NaN) (e0 :: es0))
    with (map (fun x : expense A => @Str A (e_category x)) (e0 :: es0)).
  now rewrite dropna_strs_table.
Qed.

Lemma cats_all_In (es : list (expense A)) (c : string) :
  In c (sorted (unique (map e_category es)))
  <-> exists e, In e es /\ e_category e = c.
Proof.
  split.
  - intros Hin. apply (Permutation_in _ (sorted_perm _)) in Hin.
    apply unique_In, in_map_iff in Hin. destruct Hin as [e [E Hin]]. eauto.
  - intros [e [Hin <-]].
    apply (Permutation_in _ (Permutation_sym (sorted_perm _))).
    apply unique_In. now apply in_map.
Qed.

(** ** The bar chart *)

Lemma insert_day_head (p : date * A) (g : list (date * A)) :
  Forall (date_lt (fst p)) (map fst g) -> insert_day p g = p :: g.
Proof.
  destruct g as [| q g]; simpl; [reflexivity |].
  intros H. inversion H as [| ? ? Hq _]; subst. unfold date_lt in Hq.
  now rewrite Hq.
Qed.

(** Sorting by date a series that is in ascending order of its dates
    leaves it as it is. *)
Lemma sort_index_sorted (g : list (date * A)) :
  StronglySorted date_lt (map fst g) -> sort_index g = g.
Proof.
  induction g as [| p g IH]; simpl; [reflexivity |].
  intros H. inversion H as [| ? ? Hs Hall]; subst.
  unfold sort_index in *. rewrite (IH Hs). now apply insert_day_head.
Qed.

Lemma by_day_table (es : list (expense A)) :
  by_day (table es) = Ok (fold_left group_row es []).
Proof.
  unfold by_day, table.
  rewrite (getcol_map DATA_COLUMNS row_of es "date" 0) by reflexivity.
  rewrite rbind_Ok.
  rewrite (getcol_map DATA_COLUMNS row_of es "amount" 2) by reflexivity.
  rewrite rbind_Ok.
  change (map (fun x => nth 0 (row_of x) NaN) es)
    with (map (fun x => @date_cell A (e_date x)) es).
  change (map (fun x => nth 2 (row_of x) NaN) es)
    with (map (fun x => Num (e_amount x)) es).
  rewrite combine_map, group_sum_rows, rbind_Ok.
  f_equal. apply sort_index_sorted. now destruct (per_day_rows es).
Qed.

Lemma In_index_of (c : string) (cols : list string) :
  ~ In c cols -> index_of c cols = None.
Proof.
  intros Hn. destruct (index_of c cols) as [i |] eqn:Hi; [| reflexivity].
  exfalso. apply Hn. apply index_of_In. now exists i.
Qed.

End WidgetFacts.

(** X12.  The choices of the category box: for every table of expenses,
    [cats_all] returns the categories of its rows, and nothing else, each
    once, in ascending order of [str]; none for the table without
    rows. *)
Theorem cats_all_choices {A : Type} {NumA : Number A} {TxtA : Text A}
    (es : list (expense A)) :
  exists cats,
    cats_all (table es) = Ok cats
    /\ (forall c, In c cats <-> exists e, In e es /\ e_category e = c)
    /\ NoDup cats
    /\ Sorted (fun a b => String.leb a b = true) cats.
Proof.
  exists (sorted (unique (map e_category es))).
  split; [apply cats_all_table |]. split; [apply cats_all_In |]. split.
  - apply (Permutation_NoDup (Permutation_sym (sorted_perm _))).
    apply unique_NoDup.
  - apply sorted_Sorted.
Qed.

(** X13.  Choosing every category is choosing none: with all the choices
    of the category box selected, [filter_df] returns what it returns with
    none selected. *)
Theorem select_all_categories {A : Type} {NumA : Number A} {TxtA : Text A}
    (es : list (expense A)) (y : Z) (month_opt : string) (cats : list string) :
  dates_in_range es ->
  cats_all (table es) = Ok cats ->
  filter_df (table es) y month_opt cats = filter_df (table es) y month_opt [].
Proof.
  intros Hr Hc. rewrite cats_all_table in Hc. injection Hc as <-.
  rewrite !(filter_df_table es y month_opt _ Hr). do 2 f_equal.
  apply filter_ext_in. intros e Hin. unfold keeps.
  destruct (e_date e) as [d |]; [| reflexivity]. f_equal.
  replace (mem (e_category e) (sorted (unique (map e_category es)))) with true.
  - now rewrite orb_true_r.
  - symmetry. apply mem_In, cats_all_In. now exists e.
Qed.

Lemma select_all_categories_witness :
  filter_df (table january) 2024 "January" ["Food"; "Transport"]
  = filter_df (table january) 2024 "January" [].
Proof.
  apply (select_all_categories january 2024 "January" ["Food"; "Transport"]).
  - repeat constructor; intros d E; inversion E; reflexivity.
  - reflexivity.
Defined.

(** X14.  The bar chart of the expenses by day, with exact arithmetic:
    for a table that has a row, the chart has one bar for every date some
    row has, at the positions 0, 1, 2, ... in ascending order of the dates
    ([sort_index] finds them so), labelled with the [str] of the date,
    and the height of a bar is the sum of the amounts of its date; the
    daily average and the daily maximum [compute_kpis] returns are the
    mean and the maximum of the heights when there is a bar. *)
Theorem daily_chart_bars (es : list (expense Qc))
    (total avg_day max_day n : Qc) :
  es <> [] ->
  compute_kpis (table es) = Ok (total, avg_day, max_day, n) ->
  exists g,
    per_day es g
    /\ daily_chart (table es)
       = Ok (Some (seq 0 (List.length g), map isoformat (map fst g),
                   map snd g))
    /\ (g <> [] -> avg_day = mean (map snd g) /\ max_day = maxl (map snd g)).
Proof.
  intros Hne Hk. exists (fold_left group_row es []).
  split; [apply per_day_rows |]. split.
  - unfold daily_chart. rewrite empty_table.
    destruct es as [| e0 es0]; [congruence |]. simpl is_nil. cbv iota.
    now rewrite by_day_table, rbind_Ok.
  - rewrite (compute_kpis_table es Hne) in Hk. intros Hg.
    destruct (fold_left group_row es []) as [| p g]; [congruence |].
    split; congruence.
Qed.

Lemma daily_chart_bars_witness :
  exists g,
    per_day january g
    /\ daily_chart (table january)
       = Ok (Some (seq 0 (List.length g), map isoformat (map fst g),
                   map snd g))
    /\ (g <> [] ->
        mean (map snd (fold_left group_row january [])) = mean (map snd g)
        /\ maxl (map snd (fold_left group_row january [])) = maxl (map snd g)).
Proof.
  apply (daily_chart_bars january (sum (map e_amount january)) _ _
                          (f_of_nat (List.length january))).
  - discriminate.
  - vm_compute. reflexivity.
Defined.

(** X15.  A frame that lacks a column: on a frame that has a row,
    [filter_df] raises KeyError when there is no column "date", and
    [compute_kpis] raises KeyError when there is no column "amount";
    only the empty frame goes through without its columns being looked
    at. *)
Theorem missing_column_raises {A : Type} {NumA : Number A} {TxtA : Text A}
    (df : frame A) (y : Z) (month_opt : string) (categories : list string) :
  empty df = false ->
  (~ In "date" (columns df) ->
   filter_df df y month_opt categories = Raise (KeyError "date"))
  /\ (~ In "amount" (columns df) ->
      compute_kpis df = Raise (KeyError "amount")).
Proof.
  intros He. split; intros Hn.
  - unfold filter_df. rewrite He. cbv zeta.
    now rewrite (getcol_missing df "date" (In_index_of _ _ Hn)).
  - unfold compute_kpis. rewrite He.
    now rewrite (getcol_missing df "amount" (In_index_of _ _ Hn)).
Qed.

Lemma missing_column_raises_witness :
  filter_df (Frame ["day"; "amount"] [[Str "2024-01-05"; Num (amt 3 1)]])
            2024 "All year" []
  = Raise (KeyError "date")
  /\ compute_kpis (Frame ["date"; "price"] [[Day (Date 2024 1 5); Num (amt 3 1)]])
     = Raise (KeyError "amount").
Proof.
  split.
  - apply (missing_column_raises
             (Frame ["day"; "amount"] [[Str "2024-01-05"; Num (amt 3 1)]])
             2024 "All year" []); [reflexivity |].
    simpl. intuition discriminate.
  - apply (missing_column_raises
             (Frame ["date"; "price"] [[Day (Date 2024 1 5); Num (amt 3 1)]])
             2024 "All year" []); [reflexivity |].
    simpl. intuition discriminate.
Defined.



(** X17.  The exported file is a data file: the CSV export of what
    [filter_df] returns on a table of rows that are read back as
    themselves, put in the place of the data file, is read by
    [load_data] as the filtered table. *)
Theorem export_reloads {A : Type} {NumA : Number A} {TxtA : Text A}
    (es : list (expense A)) (y : Z) (month_opt : string)
    (categories : list string) :
  dates_in_range es ->
  Forall storable es ->
  exists kept,
    filter_df (table es) y month_opt categories = Ok (table kept)
    /\ fst (load_data (Some (export_csv (table kept)))) = Ok (table kept).
Proof.
  intros Hr Hs. exists (filter (keeps y month_opt categories) es).
  split; [now apply filter_df_table |].
  unfold export_csv, table. cbn [columns rows]. rewrite map_map.
  change (map (fun x => map field (row_of x))
              (filter (keeps y month_opt categories) es))
    with (map record_of (filter (keeps y month_opt categories) es)).
  apply load_saved. rewrite Forall_forall in *. intros e Hin.
  apply filter_In in Hin. now apply Hs.
Qed.

Lemma export_reloads_witness :
  exists kept,
    filter_df (table january) 2024 "January" ["Food"] = Ok (table kept)
    /\ fst (load_data (Some (export_csv (table kept)))) = Ok (table kept).
Proof.
  apply (export_reloads january 2024 "January" ["Food"]).
  - repeat constructor; intros d E; inversion E; reflexivity.
  - apply Forall_cons; [| apply Forall_cons; [| apply Forall_cons; [| apply Forall_nil]]];
      (eexists; split; [reflexivity |]; repeat split;
       try (vm_compute; reflexivity);
       simpl; f_equal; apply Qc_is_canon; vm_compute; reflexivity).
Defined.

(** ** The pipeline on the file *)

Section PipelineFacts2.

Context {A : Type} {NumA : Number A} {TxtA : Text A}.

Lemma keeps_new_expense (d : date) (cat : string) (amt : A) (note : string) :
  keeps (year d) "All year" [] (new_expense d cat amt note) = true.
Proof.
  unfold keeps. simpl. now rewrite Z.eqb_refl.
Qed.

Lemma filter_none {X : Type} (p : X -> bool) (l : list X) :
  (forall x, In x l -> p x = false) -> filter p l = [].
Proof.
  induction l as [| x l IH]; simpl; intros H; [reflexivity |].
  rewrite (H x) by now left. apply IH. intros y Hy. apply H. now right.
Qed.

Lemma dashboard_saved (es : list (expense A)) (y : Z) (month_opt : string)
    (categories : list string) (s : store) :
  fst (load_data s) = Ok (table es) ->
  dates_in_range es ->
  fst (dashboard y month_opt categories s)
  = rbind (compute_kpis (table (filter (keeps y month_opt categories) es)))
          (fun kpis =>
             Ok (table (filter (keeps y month_opt categories) es), kpis)).
Proof.
  intros Hl Hr. rewrite dashboard_unfold. simpl fst. rewrite Hl, rbind_Ok.
  now rewrite (filter_df_table es y month_opt categories Hr), rbind_Ok.
Qed.

End PipelineFacts2.

Lemma compute_kpis_total (l : list (expense Qc)) :
  exists avg_day max_day,
    compute_kpis (table l)
    = Ok (sum (map e_amount l), avg_day, max_day, f_of_nat (List.length l)).
Proof.
  destruct l as [| e l].
  - exists 0, 0. unfold compute_kpis. rewrite empty_table. simpl is_nil.
    cbv iota. reflexivity.
  - rewrite (compute_kpis_table (e :: l)) by discriminate. eauto.
Qed.

Section RereadFacts.

Context {A : Type} {NumA : Number A} {TxtA : Text A}.

Lemma readable_date (e : expense A) :
  readable e ->
  plain (field (date_cell (e_date e)))
  /\ to_datetime1 (Str (field (date_cell (e_date e)))) = Ok (e_date e).
Proof.
  intros [[d [Hd [Hp Ht]]] _]. rewrite Hd. simpl. rewrite Ht. now split.
Qed.

(** The frame [read_csv] makes of the records of readable rows. *)
Lemma parse_readable (l : list (expense A)) :
  l <> [] -> Forall readable l ->
  parse (Csv DATA_COLUMNS (map record_of l))
  = Ok (Frame DATA_COLUMNS
          (map (fun e =>
                  [Str (field (date_cell (e_date e)));
                   read_cell (infer (map e_category l)) (e_category e);
                   Num (e_amount e);
                   read_cell (infer (map e_notes l)) (e_notes e)])
               l)).
Proof.
  intros Hne Hs. rewrite parse_aligned by apply leading_saved.
  cbn [header records].
  change (List.length DATA_COLUMNS) with 4%nat.
  replace (forallb (fun r => (List.length r <=? 4)%nat) (map record_of l))
    with true
    by (symmetry; apply forallb_forall; intros r Hin;
        apply in_map_iff in Hin; destruct Hin as [e [<- _]]; reflexivity).
  unfold DATA_COLUMNS at 1. cbv iota. f_equal. f_equal.
  rewrite map_map. apply map_ext_in. intros e He. cbn [seq map].
  rewrite Forall_forall in Hs.
  assert (H0 : infer (column_fields (map record_of l) 0) = ObjectCol).
  { unfold column_fields. rewrite map_map.
    apply (infer_plain (fun e => field (date_cell (e_date e)))); [exact Hne |].
    apply Forall_forall. intros x Hx. now apply readable_date, Hs. }
  assert (H1 : column_fields (map record_of l) 1 = map e_category l).
  { unfold column_fields. now rewrite map_map. }
  assert (H2 : infer (column_fields (map record_of l) 2) = NumberCol).
  { unfold column_fields. rewrite map_map. apply infer_number.
    intros t Hin. apply in_map_iff in Hin. destruct Hin as [x [<- Hx]].
    destruct (Hs x Hx) as [_ [_ Hn]]. simpl. congruence. }
  assert (H3 : column_fields (map record_of l) 3 = map e_notes l).
  { unfold column_fields. now rewrite map_map. }
  rewrite H0, H1, H2, H3.
  destruct (readable_date e (Hs e He)) as [Hpd _].
  destruct (Hs e He) as [_ [Hna Hn]].
  cbn [record_of row_of map nth field str].
  rewrite (read_cell_plain _ Hpd).
  assert (Ea : read_cell NumberCol (repr_num (e_amount e)) = Num (e_amount e))
    by (unfold read_cell; now rewrite Hna, Hn).
  now rewrite Ea.
Qed.

Lemma coerce_readable (l : list (expense A)) :
  Forall readable l ->
  coerce (Frame DATA_COLUMNS
            (map (fun e =>
                    [Str (field (date_cell (e_date e)));
                     read_cell (infer (map e_category l)) (e_category e);
                     Num (e_amount e);
                     read_cell (infer (map e_notes l)) (e_notes e)])
                 l))
  = Ok (table (map (reread l) l)).
Proof.
  intros Hs. unfold coerce, astype_str, fillna, to_numeric, dt_date.
  set (rb := fun e : expense A =>
               [Str (field (date_cell (e_date e)));
                read_cell (infer (map e_category l)) (e_category e);
                Num (e_amount e);
                read_cell (infer (map e_notes l)) (e_notes e)]).
  rewrite (getcol_map DATA_COLUMNS rb l "date" 0) by reflexivity.
  rewrite rbind_Ok. cbv beta.
  assert (Ht : to_datetime (map (fun x => nth 0 (rb x) NaN) l)
               = Ok (map e_date l)).
  { apply mapM_map. eapply Forall_impl; [| exact Hs].
    intros e He. now apply readable_date. }
  rewrite Ht, rbind_Ok. cbv beta zeta. rewrite !map_map.
  rewrite (setcol_old DATA_COLUMNS rb _ l "date" 0) by reflexivity.
  rewrite (getcol_map DATA_COLUMNS _ l "category" 1) by reflexivity.
  rewrite rbind_Ok. cbv beta. rewrite !map_map.
  rewrite (setcol_old DATA_COLUMNS _ _ l "category" 1) by reflexivity.
  rewrite (getcol_map DATA_COLUMNS _ l "amount" 2) by reflexivity.
  rewrite rbind_Ok. cbv beta. rewrite !map_map.
  rewrite (setcol_old DATA_COLUMNS _ _ l "amount" 2) by reflexivity.
  rewrite (getcol_map DATA_COLUMNS _ l "notes" 3) by reflexivity.
  rewrite rbind_Ok. cbv beta. rewrite !map_map.
  rewrite (setcol_old DATA_COLUMNS _ _ l "notes" 3) by reflexivity.
  unfold table. rewrite map_map. reflexivity.
Qed.

(** Reading the file of readable rows: the dates and the amounts are the
    ones written. *)
Lemma load_readable (l : list (expense A)) :
  Forall readable l ->
  fst (load_data (Some (Csv DATA_COLUMNS (map record_of l))))
  = Ok (table (map (reread l) l)).
Proof.
  intros Hs. rewrite load_data_unfold. simpl fst. cbn [opened].
  destruct l as [| e0 l0]; [reflexivity |].
  rewrite parse_readable by (discriminate || exact Hs).
  simpl negb. cbv iota. now apply coerce_readable.
Qed.

Lemma readable_reread (l l' : list (expense A)) :
  Forall readable l -> Forall readable (map (reread l') l).
Proof.
  intros H. apply Forall_forall. intros e Hin. apply in_map_iff in Hin.
  destruct Hin as [e0 [<- Hin]]. rewrite Forall_forall in H.
  exact (H e0 Hin).
Qed.

Lemma dates_in_range_reread (l l' : list (expense A)) :
  dates_in_range l -> dates_in_range (map (reread l') l).
Proof.
  unfold dates_in_range. intros H. apply Forall_forall. intros e Hin.
  apply in_map_iff in Hin. destruct Hin as [e0 [<- Hin]].
  rewrite Forall_forall in H. exact (H e0 Hin).
Qed.

(** With no category chosen, re-reading the categories and the notes
    changes neither which rows are kept nor their amounts. *)
Lemma amounts_reread (y : Z) (month_opt : string) (l l' : list (expense A)) :
  map e_amount (filter (keeps y month_opt []) (map (reread l') l))
  = map e_amount (filter (keeps y month_opt []) l).
Proof.
  induction l as [| e l IH]; [reflexivity |]. cbn [map filter].
  change (keeps y month_opt [] (reread l' e)) with (keeps y month_opt [] e).
  destruct (keeps y month_opt [] e); cbn [map]; now rewrite IH.
Qed.

(** The file after the form is submitted on the file of readable rows. *)
Lemma submit_readable (es : list (expense A)) (d : date) (cat : string)
    (amt : A) (note : string) :
  Forall readable es ->
  snd (add_expense d cat amt note (Some (Csv DATA_COLUMNS (map record_of es))))
  = Some (Csv DATA_COLUMNS
            (map record_of (map (reread es) es ++ [new_expense d cat amt note]))).
Proof.
  intros Hs.
  pose proof (add_expense_result d cat amt note _ (four_columns_saved es)) as Ha.
  rewrite (load_readable es Hs) in Ha. destruct Ha as [_ Ha]. rewrite Ha.
  simpl snd. simpl rows. rewrite map_app, !map_map. reflexivity.
Qed.

End RereadFacts.

(** X18.  In exact arithmetic, an expense entered in the form raises the
    year's statistics by itself: on the file of a table whose dates and
    amounts are read back as they are written, for an entered date and
    amount that are read back so, all the dates being ones a Timestamp
    can hold, and whatever the entered category and notes (blank ones
    too), the run of the pipeline for the year of the entered date, "All
    year" and no category shows, after the form is submitted, the total
    it showed before plus the entered amount, and one record more. *)
Theorem added_expense_in_total {TxtA : Text Qc} (es : list (expense Qc))
    (d : date) (cat : string) (amt : Qc) (note : string) (s : store) :
  Forall readable es ->
  date_kept d -> amount_kept amt ->
  dates_in_range es ->
  timestamp_ok d = true ->
  exists df total avg_day max_day n df' total' avg_day' max_day' n',
    fst (dashboard (year d) "All year" [] (snd (save_data (table es) s)))
    = Ok (df, (total, avg_day, max_day, n))
    /\ fst (dashboard (year d) "All year" []
              (snd (add_expense d cat amt note
                                (snd (save_data (table es) s)))))
       = Ok (df', (total', avg_day', max_day', n'))
    /\ total' = total + amt
    /\ n' = n + 1.
Proof.
  intros Hs Hd Ha Hr Hok.
  set (y := year d). set (e := new_expense d cat amt note).
  set (es0 := map (reread es) es). set (l1 := es0 ++ [e]).
  set (k := keeps (A := Qc) y "All year" []).
  change (snd (save_data (table es) s))
    with (Some (Csv DATA_COLUMNS (map (map field) (map row_of es)))).
  rewrite map_map.
  change (map (fun x => map field (row_of x)) es) with (map record_of es).
  assert (Hs0 : Forall readable es0) by now apply readable_reread.
  assert (Hs1 : Forall readable l1).
  { apply Forall_app. split; [exact Hs0 |]. constructor; [| constructor].
    split; [now exists d | exact Ha]. }
  assert (Hr0 : dates_in_range es0) by now apply dates_in_range_reread.
  assert (Hr1 : dates_in_range (map (reread l1) l1)).
  { apply dates_in_range_reread. apply Forall_app. split; [exact Hr0 |].
    constructor; [| constructor]. intros d' E. simpl in E. congruence. }
  assert (Hke : k e = true) by apply keeps_new_expense.
  assert (Hf : filter k l1 = filter k es0 ++ [e]).
  { unfold l1. rewrite filter_app. cbn [filter]. now rewrite Hke. }
  destruct (compute_kpis_total (filter k es0)) as [a [m Hk]].
  destruct (compute_kpis_total (filter k (map (reread l1) l1))) as [a' [m' Hk']].
  exists (table (filter k es0)), (sum (map e_amount (filter k es0))), a, m,
    (f_of_nat (List.length (filter k es0))),
    (table (filter k (map (reread l1) l1))),
    (sum (map e_amount (filter k (map (reread l1) l1)))), a', m',
    (f_of_nat (List.length (filter k (map (reread l1) l1)))).
  split; [| split; [| split]].
  - rewrite (dashboard_saved es0 y "All year" [] _ (load_readable es Hs) Hr0).
    fold k. now rewrite Hk.
  - rewrite (submit_readable es d cat amt note Hs). fold e es0 l1.
    rewrite (dashboard_saved (map (reread l1) l1) y "All year" [] _
               (load_readable l1 Hs1) Hr1).
    fold k. now rewrite Hk'.
  - unfold k. rewrite amounts_reread. fold k. rewrite Hf.
    rewrite map_app, sum_app. simpl map. rewrite sum_cons, sum_nil.
    simpl e_amount. ring.
  - rewrite <- (length_map e_amount (filter k (map (reread l1) l1))).
    unfold k. rewrite amounts_reread. fold k. rewrite length_map, Hf.
    rewrite length_app. simpl List.length. rewrite Nat.add_1_r.
    apply of_nat_S.
Qed.

Lemma added_expense_in_total_witness :
  exists df total avg_day max_day n df' total' avg_day' max_day' n',
    fst (dashboard 2024 "All year" [] (snd (save_data (table january) None)))
    = Ok (df, (total, avg_day, max_day, n))
    /\ fst (dashboard 2024 "All year" []
              (snd (add_expense (Date 2024 2 1) "" (amt 700 1) ""
                                (snd (save_data (table january) None)))))
       = Ok (df', (total', avg_day', max_day', n'))
    /\ total' = total + amt 700 1
    /\ n' = n + 1.
Proof.
  apply (added_expense_in_total (TxtA := Text_Qc) january (Date 2024 2 1) ""
                                (amt 700 1) "" None).
  - apply Forall_cons; [| apply Forall_cons; [| apply Forall_cons; [| apply Forall_nil]]];
      (split; [eexists; split; [reflexivity |]; repeat split; vm_compute; reflexivity |];
       split; [vm_compute; reflexivity |];
       simpl; f_equal; apply Qc_is_canon; vm_compute; reflexivity).
  - repeat split; vm_compute; reflexivity.
  - split; [vm_compute; reflexivity |].
    simpl. f_equal. apply Qc_is_canon. vm_compute. reflexivity.
  - repeat constructor; intros d E; inversion E; reflexivity.
  - reflexivity.
Defined.

(** The statistics of the example before and after a rent of 700 is
    entered with no category and no notes: 19 and 3 records, then 719 and
    4 records. *)
Example added_expense_january :
  match fst (dashboard 2024 "All year" [] (snd (save_data (table january) None))),
        fst (dashboard 2024 "All year" []
               (snd (add_expense (Date 2024 2 1) "" (amt 700 1) ""
                                 (snd (save_data (table january) None)))))
  with
  | Ok (_, k), Ok (_, k') => shown (Ok k) = Some (19, 19 # 2, 16, 3)%Q
                             /\ shown (Ok k') = Some (719, 719 # 3, 700, 4)%Q
  | _, _ => False
  end.
Proof. vm_compute. split; reflexivity. Qed.

(** X19.  A year without expenses: on a table whose dates a Timestamp
    can hold, when no row is dated in the chosen year, [filter_df]
    returns the four columns without a row,
    whatever the month option and the categories; the four statistics are
    0.0 and there is no chart ("No data for current filters"). *)
Theorem year_without_expenses {A : Type} {NumA : Number A} {TxtA : Text A}
    (es : list (expense A)) (y : Z) (month_opt : string)
    (categories : list string) :
  dates_in_range es ->
  (forall e d, In e es -> e_date e = Some d -> year d <> y) ->
  exists df,
    filter_df (table es) y month_opt categories = Ok df
    /\ columns df = DATA_COLUMNS /\ rows df = []
    /\ compute_kpis df = Ok (f_zero, f_zero, f_zero, f_zero)
    /\ daily_chart df = Ok None.
Proof.
  intros Hr Hy. exists (table []).
  split; [| repeat split].
  rewrite (filter_df_table es y month_opt categories Hr). do 2 f_equal.
  apply filter_none. intros e Hin. unfold keeps.
  destruct (e_date e) as [d |] eqn:Ed; [| reflexivity].
  apply (Hy e d Hin) in Ed. apply Z.eqb_neq in Ed. now rewrite Ed.
Qed.

Lemma year_without_expenses_witness :
  exists df,
    filter_df (table january) 2023 "January" ["Food"] = Ok df
    /\ columns df = DATA_COLUMNS /\ rows df = []
    /\ compute_kpis df = Ok (f_zero, f_zero, f_zero, f_zero)
    /\ daily_chart df = Ok None.
Proof.
  apply (year_without_expenses january 2023 "January" ["Food"]).
  - repeat constructor; intros d E; inversion E; reflexivity.
  - intros e d Hin E.
    repeat (destruct Hin as [<- | Hin]; [inversion E; simpl; lia |]).
    contradiction.
Defined.
